(** * The OLC prototype wizard of evennia/prototypes/menus.py

    A shallow embedding of the menu nodes and of their goto-callbacks.
    Python values, exceptions and the string methods the module relies on
    are modelled first; then the caller (the session state the handlers
    read and write), the external services (protlib, spawner, utils, the
    lock handler) and finally the functions of the module, in the order of
    the source.

    Conventions.
    - A function that can raise returns a [result]; a function that reads
      or writes the caller runs in the monad [M], which threads the
      [world] and keeps it when an exception is raised, as Python keeps
      the mutations made before the raise.
    - The long prose literals of the nodes are shortened to the part that
      holds replacement fields; none of the dropped prose holds a brace.
    - Strings are byte strings; whitespace and case are the ASCII ones. *)

From Stdlib Require Import String Ascii NArith.
From stdpp Require Import base option list gmap strings fin_maps pretty.

Local Open Scope string_scope.
Local Open Scope list_scope.
Set Warnings "-register-all".

(** ** Python values, exceptions, results *)

Inductive pyval :=
| PNone
| PStr (s : string)
| PList (l : list pyval)
| PTuple (l : list pyval).

Fixpoint pyval_eqb (a b : pyval) {struct a} : bool :=
  let fix all2 (xs ys : list pyval) {struct xs} : bool :=
    match xs, ys with
    | [], [] => true
    | x :: xs', y :: ys' => pyval_eqb x y && all2 xs' ys'
    | _, _ => false
    end in
  match a, b with
  | PNone, PNone => true
  | PStr s, PStr t => String.eqb s t
  | PList xs, PList ys => all2 xs ys
  | PTuple xs, PTuple ys => all2 xs ys
  | _, _ => false
  end.

(** [bool(v)]: None, the empty string and the empty sequences are false. *)
Definition truthy (v : pyval) : bool :=
  match v with
  | PNone => false
  | PStr s => negb (String.eqb s "")
  | PList l | PTuple l => negb (Nat.eqb (length l) 0)
  end.

Inductive pyexn :=
| NameError (name : string)
| UnboundLocalError (var : string)
| KeyError (k : string)
| IndexError (msg : string)
| ValueError (msg : string)
| TypeError (msg : string)
| AttributeError (msg : string)
| Exception (msg : string).

(** [str(err)] *)
Definition exn_str (e : pyexn) : string :=
  match e with
  | NameError n => "name '" +:+ n +:+ "' is not defined"
  | UnboundLocalError v => "local variable '" +:+ v +:+ "' referenced before assignment"
  | KeyError k => "'" +:+ k +:+ "'"
  | IndexError m | ValueError m | TypeError m | AttributeError m | Exception m => m
  end.

Inductive result (A : Type) :=
| Ok (a : A)
| Raise (e : pyexn).
Arguments Ok {A} a.
Arguments Raise {A} e.

Definition result_bind {A B} (r : result A) (k : A -> result B) : result B :=
  match r with
  | Ok a => k a
  | Raise e => Raise e
  end.

(** ** String methods *)

Module PyStr.

Definition is_space (a : ascii) : bool :=
  let n := N_of_ascii a in
  (N.eqb n 32 || (N.leb 9 n && N.leb n 13))%bool.

Fixpoint lstrip (s : string) : string :=
  match s with
  | EmptyString => EmptyString
  | String a s' => if is_space a then lstrip s' else s
  end.

Fixpoint rstrip (s : string) : string :=
  match s with
  | EmptyString => EmptyString
  | String a s' =>
      match rstrip s' with
      | EmptyString => if is_space a then EmptyString else String a EmptyString
      | r => String a r
      end
  end.

Definition strip (s : string) : string := lstrip (rstrip s).

Definition lower_ascii (a : ascii) : ascii :=
  let n := N_of_ascii a in
  if (N.leb 65 n && N.leb n 90)%bool then ascii_of_N (n + 32) else a.

Definition upper_ascii (a : ascii) : ascii :=
  let n := N_of_ascii a in
  if (N.leb 97 n && N.leb n 122)%bool then ascii_of_N (n - 32) else a.

Fixpoint map_chars (f : ascii -> ascii) (s : string) : string :=
  match s with
  | EmptyString => EmptyString
  | String a s' => String (f a) (map_chars f s')
  end.

Definition lower (s : string) : string := map_chars lower_ascii s.

(** [s.capitalize()] *)
Definition capitalize (s : string) : string :=
  match s with
  | EmptyString => EmptyString
  | String a s' => String (upper_ascii a) (lower s')
  end.

(** [s.replace(a, b)] for one-character [a] and [b] *)
Definition replace (a b : ascii) (s : string) : string :=
  map_chars (fun c => if Ascii.eqb c a then b else c) s.

(** [c in s] for a one-character [c] *)
Fixpoint contains (c : ascii) (s : string) : bool :=
  match s with
  | EmptyString => false
  | String a s' => (Ascii.eqb a c || contains c s')%bool
  end.

(** [s.split(sep, maxsplit)] for a one-character separator;
    [None] is the missing [maxsplit]. *)
Fixpoint split (sep : ascii) (maxsplit : option nat) (s : string) : list string :=
  match s with
  | EmptyString => [EmptyString]
  | String a s' =>
      let cut := match maxsplit with Some 0 => false | _ => Ascii.eqb a sep end in
      if cut then
        EmptyString :: split sep (pred <$> maxsplit) s'
      else
        match split sep maxsplit s' with
        | hd :: tl => String a hd :: tl
        | [] => [String a EmptyString]
        end
  end.

(** [sep.join(l)] *)
Fixpoint join (sep : string) (l : list string) : string :=
  match l with
  | [] => ""
  | [x] => x
  | x :: l' => x +:+ sep +:+ join sep l'
  end.

(** [s[n:]] *)
Fixpoint drop (n : nat) (s : string) : string :=
  match n, s with
  | S n', String _ s' => drop n' s'
  | _, _ => s
  end.

(** [template.format(args, kwargs)] for the two kinds of replacement
    field the module uses: [{}] takes the next positional argument and
    [{name}] the keyword argument [name].  The template is scanned from
    the left and the first field that finds no argument raises. *)
Fixpoint format_from (t : string) (field : option string) (auto : nat)
    (args : list string) (kwargs : list (string * string)) : result string :=
  match t with
  | EmptyString =>
      match field with
      | None => Ok ""
      | Some _ => Raise (ValueError "expected '}' before end of string")
      end
  | String c t' =>
      match field with
      | None =>
          if Ascii.eqb c "{" then format_from t' (Some "") auto args kwargs
          else if Ascii.eqb c "}" then
            Raise (ValueError "Single '}' encountered in format string")
          else result_bind (format_from t' None auto args kwargs)
                 (fun r => Ok (String c r))
      | Some name =>
          if Ascii.eqb c "}" then
            if String.eqb name "" then
              match args !! auto with
              | Some v => result_bind (format_from t' None (S auto) args kwargs)
                            (fun r => Ok (v +:+ r))
              | None => Raise (IndexError "tuple index out of range")
              end
            else
              match List.find (fun p => String.eqb (fst p) name) kwargs with
              | Some (_, v) => result_bind (format_from t' None auto args kwargs)
                                 (fun r => Ok (v +:+ r))
              | None => Raise (KeyError name)
              end
          else format_from t' (Some (name +:+ String c "")) auto args kwargs
      end
  end.

Definition format (t : string) (args : list string)
    (kwargs : list (string * string)) : result string :=
  format_from t None 0 args kwargs.

End PyStr.

(** ** Menu options *)

(** The objects spawned from a prototype, as far as the menu looks at them. *)
Record obj := { obj_key : string; obj_dbref : string }.

(** Values passed in the keyword-argument dict of a goto.  [KRef] is a
    reference to a diff dict living in the world's heap: the dict is shared
    by every option that carries it. *)
Inductive kwval :=
| KNone
| KBool (b : bool)
| KStr (s : string)
| KProc (f : string -> result pyval)
| KDict (d : gmap string pyval)
| KObj (o : obj)
| KObjs (l : list obj)
| KRef (r : nat).

(** The callables the module uses as goto targets. *)
Inductive callable :=
| F_set_property
| F_check_prototype_key
| F_prototype_parent_examine
| F_typeclass_examine
| F_update_spawned
| F_keep_diff
| F_spawn
| F_lambda_None.

(** A goto is a node name, a (node name, kwargs) pair, a callable or a
    (callable, kwargs) pair. *)
Inductive goto_t :=
| GotoNode (node : string)
| GotoNodeKw (node : string) (kw : gmap string kwval)
| GotoCall (f : callable)
| GotoCallKw (f : callable) (kw : gmap string kwval).

(** An option dict; [opt_key] is the tuple of keys ([[]] when the dict
    has no "key"), [opt_desc] the optional description. *)
Record menu_option := {
  opt_key : list string;
  opt_desc : option string;
  opt_goto : goto_t
}.

(** [if node:] on a node name that is a string or None *)
Definition node_given (n : option string) : bool :=
  match n with
  | Some s => negb (String.eqb s "")
  | None => false
  end.

Definition node_str (n : option string) : string := default "" n.

Definition node_kw (n : option string) : kwval :=
  match n with
  | Some s => KStr s
  | None => KNone
  end.

(** menus.py, [_wizard_options] *)
Definition _wizard_options (curr_node prev_node next_node : option string)
    (color : string) : list menu_option :=
  let options := [] in
  let options :=
    if node_given prev_node then
      options ++ [ {| opt_key := ["|wB|Wack"; "b"];
                      opt_desc := Some (color +:+ "(" +:+
                                  PyStr.replace "_" "-" (node_str prev_node) +:+ ")|n");
                      opt_goto := GotoNode ("node_" +:+ node_str prev_node) |} ]
    else options in
  let options :=
    if node_given next_node then
      options ++ [ {| opt_key := ["|wF|Worward"; "f"];
                      opt_desc := Some (color +:+ "(" +:+
                                  PyStr.replace "_" "-" (node_str next_node) +:+ ")|n");
                      opt_goto := GotoNode ("node_" +:+ node_str next_node) |} ]
    else options in
  let options :=
    if negb (bool_decide (prev_node = Some "index") || bool_decide (next_node = Some "index"))
    then
      options ++ [ {| opt_key := ["|wI|Wndex"; "i"];
                      opt_desc := None;
                      opt_goto := GotoNode "node_index" |} ]
    else options in
  let options :=
    if node_given curr_node then
      options ++ [ {| opt_key := ["|wV|Walidate prototype"; "validate"; "v"];
                      opt_desc := None;
                      opt_goto := GotoNodeKw "node_validate_prototype"
                                    {[ "back" := node_kw curr_node ]} |} ]
    else options in
  options.

(** The default colour of [_wizard_options]. *)
Definition default_color : string := "|W".

(** The four standard options, as the navigation helper writes them. *)
Definition back_option (color prev : string) : menu_option :=
  {| opt_key := ["|wB|Wack"; "b"];
     opt_desc := Some (color +:+ "(" +:+ PyStr.replace "_" "-" prev +:+ ")|n");
     opt_goto := GotoNode ("node_" +:+ prev) |}.

Definition forward_option (color next : string) : menu_option :=
  {| opt_key := ["|wF|Worward"; "f"];
     opt_desc := Some (color +:+ "(" +:+ PyStr.replace "_" "-" next +:+ ")|n");
     opt_goto := GotoNode ("node_" +:+ next) |}.

Definition index_option : menu_option :=
  {| opt_key := ["|wI|Wndex"; "i"]; opt_desc := None; opt_goto := GotoNode "node_index" |}.

Definition validate_option (curr : string) : menu_option :=
  {| opt_key := ["|wV|Walidate prototype"; "validate"; "v"];
     opt_desc := None;
     opt_goto := GotoNodeKw "node_validate_prototype" {[ "back" := KStr curr ]} |}.

(** ** The caller and the monad of the handlers *)

(** What the handlers read and write:
    - the attributes of [caller.ndb._menutree] ([None] is a missing
      attribute; for [olc_prototype] also an attribute holding None, which
      the module treats alike);
    - the messages sent with [caller.msg];
    - the diff dicts made by the spawner, held by reference;
    - the calls made to [spawner.batch_update_objects_with_prototype]. *)
Record world := {
  olc_prototype : option (gmap string pyval);
  olc_new : option bool;
  olc_flat_prototype : option (gmap string pyval);
  outbox : list string;
  heap : list (gmap string string);
  bulk_updates : list (gmap string pyval * option (gmap string string) * list obj)
}.

Definition set_olc_prototype (p : option (gmap string pyval)) (w : world) : world :=
  {| olc_prototype := p; olc_new := olc_new w;
     olc_flat_prototype := olc_flat_prototype w; outbox := outbox w;
     heap := heap w; bulk_updates := bulk_updates w |}.

Definition set_olc_new (b : option bool) (w : world) : world :=
  {| olc_prototype := olc_prototype w; olc_new := b;
     olc_flat_prototype := olc_flat_prototype w; outbox := outbox w;
     heap := heap w; bulk_updates := bulk_updates w |}.

Definition set_olc_flat_prototype (p : option (gmap string pyval)) (w : world) : world :=
  {| olc_prototype := olc_prototype w; olc_new := olc_new w;
     olc_flat_prototype := p; outbox := outbox w;
     heap := heap w; bulk_updates := bulk_updates w |}.

Definition set_outbox (o : list string) (w : world) : world :=
  {| olc_prototype := olc_prototype w; olc_new := olc_new w;
     olc_flat_prototype := olc_flat_prototype w; outbox := o;
     heap := heap w; bulk_updates := bulk_updates w |}.

Definition set_heap (h : list (gmap string string)) (w : world) : world :=
  {| olc_prototype := olc_prototype w; olc_new := olc_new w;
     olc_flat_prototype := olc_flat_prototype w; outbox := outbox w;
     heap := h; bulk_updates := bulk_updates w |}.

Definition set_bulk_updates
    (b : list (gmap string pyval * option (gmap string string) * list obj))
    (w : world) : world :=
  {| olc_prototype := olc_prototype w; olc_new := olc_new w;
     olc_flat_prototype := olc_flat_prototype w; outbox := outbox w;
     heap := heap w; bulk_updates := b |}.

(** A wizard just started, with no prototype given. *)
Definition fresh_world : world :=
  {| olc_prototype := None; olc_new := None; olc_flat_prototype := None;
     outbox := []; heap := []; bulk_updates := [] |}.

Definition M (A : Type) : Type := world -> result A * world.

Definition M_ret {A} (a : A) : M A := fun w => (Ok a, w).

Definition M_bind {A B} (m : M A) (k : A -> M B) : M B :=
  fun w =>
    match m w with
    | (Ok a, w') => k a w'
    | (Raise e, w') => (Raise e, w')
    end.

Definition raise {A} (e : pyexn) : M A := fun w => (Raise e, w).

(** A [result] computed without the caller, run inside a handler. *)
Definition lift {A} (r : result A) : M A := fun w => (r, w).

Definition get_world : M world := fun w => (Ok w, w).

Definition modify (f : world -> world) : M unit := fun w => (Ok tt, f w).

Notation "x <- m ;; k" := (M_bind m (fun x => k))
  (at level 63, m at next level, right associativity).
Notation "m ;;; k" := (M_bind m (fun _ => k))
  (at level 63, right associativity).

(** [caller.msg(text)] *)
Definition msg (text : string) : M unit :=
  modify (fun w => set_outbox (outbox w ++ [text]) w).

(** ** The services outside the module *)

Record services := {
  (** builtins: [str] of a list or tuple, [str(type(v))], [json.dumps]
      ([None] when it raises) *)
  py_repr : pyval -> string;
  py_type : pyval -> string;
  json_dumps : pyval -> option string;
  (** protlib *)
  protfunc_parser : pyval -> pyval;
  protfunc_parser_testing : pyval -> option string * pyval;
  search_prototype : option string -> list (gmap string pyval);
  prot_funcs : list (string * string);
  (** spawner *)
  flatten_prototype : gmap string pyval -> gmap string pyval;
  init_spawn_value : pyval -> pyval;
  prototype_diff_from_object :
    gmap string pyval -> obj -> gmap string string * gmap string pyval;
  batch_update_objects_with_prototype :
    gmap string pyval -> option (gmap string string) -> list obj -> nat;
  (** utils, random and the lock handler of the caller *)
  justify : string -> string;
  crop : string -> nat -> string;
  choice : list obj -> option obj;
  check_lockstring : pyval -> bool;
  (** [caller.key], [settings.PERMISSION_HIERARCHY] and
      [protlib._PROTOTYPE_TAG_META_CATEGORY] *)
  caller_key : string;
  permission_hierarchy : pyval;
  prototype_tag_meta_category : string
}.

(** Services for running the handlers on concrete inputs: nothing is
    registered, parsing changes nothing, [choice] takes the first. *)
Definition plain_services : services :=
  {| py_repr := fun _ => "[...]";
     py_type := fun _ => "<type>";
     json_dumps := fun _ => None;
     protfunc_parser := fun v => v;
     protfunc_parser_testing := fun v => (None, v);
     search_prototype := fun _ => [];
     prot_funcs := [];
     flatten_prototype := fun p => p;
     init_spawn_value := fun v => v;
     prototype_diff_from_object := fun _ _ => (∅, ∅);
     batch_update_objects_with_prototype := fun _ _ objs => length objs;
     justify := fun s => s;
     crop := fun s _ => s;
     choice := fun l => head l;
     check_lockstring := fun _ => true;
     caller_key := "builder";
     permission_hierarchy := PList [PStr "Player"; PStr "Builder"; PStr "Admin"];
     prototype_tag_meta_category := "db_prototype" |}.

(** ** Keyword arguments *)

(** [kwargs.get(name, default)] for an argument that is a string *)
Definition kw_str (kwargs : gmap string kwval) (name default : string) : string :=
  match kwargs !! name with
  | Some (KStr s) => s
  | _ => default
  end.

(** [kwargs.get(name, default)] for an argument that names a node; the
    value may be None. *)
Definition kw_node (kwargs : gmap string kwval) (name : string)
    (default : option string) : option string :=
  match kwargs !! name with
  | Some (KStr s) => Some s
  | Some _ => None
  | None => default
  end.

Definition kw_bool (kwargs : gmap string kwval) (name : string) (default : bool) : bool :=
  match kwargs !! name with
  | Some (KBool b) => b
  | Some KNone => false
  | Some (KStr s) => negb (String.eqb s "")
  | Some _ => true
  | None => default
  end.

(** ** Helper functions *)

Section Helpers.

Context (ext : services).

(** [str(v)] and the value put in a replacement field *)
Definition py_str (v : pyval) : string :=
  match v with
  | PNone => "None"
  | PStr s => s
  | _ => py_repr ext v
  end.

(** [not d] for a dict *)
Definition dict_empty {V} (d : gmap string V) : bool := bool_decide (size d = 0).

(** menus.py, [_get_menu_prototype] *)
Definition _get_menu_prototype : M (gmap string pyval) :=
  w <- get_world ;;
  match olc_prototype w with
  | Some prototype =>
      if dict_empty prototype then
        modify (set_olc_prototype (Some ∅)) ;;;
        modify (set_olc_new (Some true)) ;;;
        M_ret ∅
      else M_ret prototype
  | None =>
      modify (set_olc_prototype (Some ∅)) ;;;
      modify (set_olc_new (Some true)) ;;;
      M_ret ∅
  end.

(** menus.py, [_get_flat_menu_prototype] with [refresh=False] *)
Definition _get_flat_menu_prototype : M (gmap string pyval) :=
  w <- get_world ;;
  match olc_flat_prototype w with
  | Some flat =>
      if dict_empty flat then
        prot <- _get_menu_prototype ;;
        modify (set_olc_flat_prototype (Some (flatten_prototype ext prot))) ;;;
        M_ret (flatten_prototype ext prot)
      else M_ret flat
  | None =>
      prot <- _get_menu_prototype ;;
      modify (set_olc_flat_prototype (Some (flatten_prototype ext prot))) ;;;
      M_ret (flatten_prototype ext prot)
  end.

(** menus.py, [_is_new_prototype]: [hasattr(..., "olc_new")] *)
Definition _is_new_prototype (w : world) : bool :=
  match olc_new w with
  | Some _ => true
  | None => false
  end.

(** menus.py, [_set_prototype_value] *)
Definition _set_prototype_value (field : string) (value : pyval)
    : M (gmap string pyval) :=
  prototype <- _get_menu_prototype ;;
  let prototype := <[field := value]> prototype in
  modify (set_olc_prototype (Some prototype)) ;;;
  M_ret prototype.

(** menus.py, [_set_property]; the returned node name is None when the
    current node is to be run again. *)
Definition _set_property (raw_string : string) (kwargs : gmap string kwval)
    : M (option string) :=
  let prop := kw_str kwargs "prop" "prototype_key" in
  let processor := kwargs !! "processor" in
  let next_node := kw_node kwargs "next_node" (Some "node_index") in
  let store (value : pyval) : M (option string) :=
    if negb (truthy value) then M_ret next_node
    else
      prototype <- _set_prototype_value prop value ;;
      modify (set_olc_prototype (Some prototype)) ;;;
      let repr_value :=
        match json_dumps ext value with
        | Some r => r
        | None => py_str value
        end in
      let out := [" Set " +:+ prop +:+ " to " +:+ repr_value +:+
                  " (" +:+ py_type ext value +:+ ")."] in
      let out :=
        if kw_bool kwargs "test_parse" true then
          let out := out ++ [" Simulating prototype-func parsing ..."] in
          let '(err, parsed_value) := protfunc_parser_testing ext value in
          let out :=
            match err with
            | Some e =>
                if negb (String.eqb e "") then
                  out ++ [" |yPython `literal_eval` warning: " +:+ e +:+ "|n"]
                else out
            | None => out
            end in
          if negb (pyval_eqb parsed_value value) then
            out ++ [" |g(Example-)value when parsed (" +:+ py_type ext parsed_value
                    +:+ "):|n " +:+ py_str parsed_value]
          else out ++ [" |gNo change when parsed."]
        else out in
      msg (PyStr.join (String "010" "") out) ;;;
      M_ret next_node in
  match processor with
  | Some (KProc f) =>
      match f raw_string with
      | Raise err =>
          msg ("Could not set " +:+ PyStr.capitalize (PyStr.replace "_" "-" prop)
               +:+ " to " +:+ raw_string +:+ " (" +:+ exn_str err +:+ ")") ;;;
          M_ret None
      | Ok value => store value
      end
  | _ => store (PStr raw_string)
  end.

(** menus.py, [_check_prototype_key] *)
Definition _check_prototype_key (key : string) : M (option string) :=
  let old_prototype := search_prototype ext (Some key) in
  w <- get_world ;;
  let olc_new := _is_new_prototype w in
  let key := PyStr.lower (PyStr.strip key) in
  let accept :=
    _set_property key {[ "prop" := KStr "prototype_key";
                         "next_node" := KStr "node_prototype_parent" ]} in
  match old_prototype with
  | old_prototype :: _ =>
      match old_prototype !! "prototype_locks" with
      | None => raise (KeyError "prototype_locks")
      | Some locks =>
          if negb (check_lockstring ext locks) then
            msg ("Prototype '" +:+ key +:+ "' already exists and you don't "
                 +:+ "have permission to edit it.") ;;;
            M_ret (Some "node_prototype_key")
          else if olc_new then
            modify (set_olc_new None) ;;;
            modify (set_olc_prototype (Some old_prototype)) ;;;
            msg "Prototype already exists. Reloading." ;;;
            M_ret (Some "node_index")
          else accept
      end
  | [] => accept
  end.

End Helpers.

(** ** Sequences of Python values *)

(** [seq[0]] *)
Definition py_first (v : pyval) : result pyval :=
  match v with
  | PNone => Raise (TypeError "'NoneType' object is not subscriptable")
  | PStr EmptyString => Raise (IndexError "string index out of range")
  | PStr (String a _) => Ok (PStr (String a EmptyString))
  | PList [] => Raise (IndexError "list index out of range")
  | PTuple [] => Raise (IndexError "tuple index out of range")
  | PList (x :: _) | PTuple (x :: _) => Ok x
  end.

(** The items a [for] loop sees. *)
Definition py_iter (v : pyval) : result (list pyval) :=
  match v with
  | PNone => Raise (TypeError "'NoneType' object is not iterable")
  | PStr s => Ok ((fun a => PStr (String a EmptyString)) <$> list_ascii_of_string s)
  | PList l | PTuple l => Ok l
  end.

(** [[tup[0] for tup in seq]] *)
Fixpoint firsts (l : list pyval) : result (list pyval) :=
  match l with
  | [] => Ok []
  | tup :: l' =>
      result_bind (py_first tup) (fun a =>
      result_bind (firsts l') (fun r => Ok (a :: r)))
  end.

(** [l.index(x)]; a missing [x] is a ValueError. *)
Fixpoint py_index (x : pyval) (l : list pyval) : result nat :=
  match l with
  | [] => Raise (ValueError "value is not in list")
  | y :: l' =>
      if pyval_eqb y x then Ok 0
      else result_bind (py_index x l') (fun i => Ok (S i))
  end.

(** [seq[ind] = x], for [ind] in range *)
Definition py_setitem (seq : pyval) (ind : nat) (x : pyval) : result pyval :=
  match seq with
  | PList l => Ok (PList (<[ind := x]> l))
  | _ => Raise (TypeError "object does not support item assignment")
  end.

(** [seq.append(x)] *)
Definition py_append (seq : pyval) (x : pyval) : result pyval :=
  match seq with
  | PList l => Ok (PList (l ++ [x]))
  | _ => Raise (AttributeError "object has no attribute 'append'")
  end.

(** [del seq[ind]], for [ind] in range *)
Definition py_delitem (seq : pyval) (ind : nat) : result pyval :=
  match seq with
  | PList l => Ok (PList (delete ind l))
  | _ => Raise (TypeError "object doesn't support item deletion")
  end.

(** [seq.insert(ind, x)] *)
Definition py_insert (seq : pyval) (ind : nat) (x : pyval) : result pyval :=
  match seq with
  | PList l => Ok (PList (take ind l ++ x :: drop ind l))
  | _ => Raise (AttributeError "object has no attribute 'insert'")
  end.

(** ** Attributes and tags *)

(** The option both [_add_attr] and [_add_tag] return: whatever is typed
    next runs [lambda caller: None]. *)
Definition stay_option : menu_option :=
  {| opt_key := ["_default"]; opt_desc := None; opt_goto := GotoCall F_lambda_None |}.

Definition newline : string := String "010" EmptyString.

Section Attrs.

Context (ext : services).

(** menus.py, [_caller_attrs] *)
Definition _caller_attrs : M pyval :=
  prototype <- _get_menu_prototype ;;
  M_ret (default (PList []) (prototype !! "attrs")).

(** menus.py, [_display_attribute] *)
Definition _display_attribute (attr_tuple : pyval) : result string :=
  match py_iter attr_tuple with
  | Ok [attrkey; value; category; locks] =>
      let value := protfunc_parser ext value in
      let typ := py_type ext value in
      Ok ("Attribute key: '" +:+ py_str ext attrkey +:+ "' (category: "
          +:+ py_str ext category +:+ ", locks: " +:+ py_str ext locks +:+ ")"
          +:+ newline +:+ "Value (parsed to " +:+ typ +:+ "): " +:+ py_str ext value)
  | Ok _ => Raise (ValueError "wrong number of values to unpack")
  | Raise e => Raise e
  end.

(** menus.py, [_add_attr], the locals [attrname], [value], [category]
    and [locks] after the block guarded by ['=' in attr_string].  The
    local [value] is bound only inside that block; [None] is the unbound
    local. *)
Definition add_attr_locals (attr_string : string)
    : result (string * option string * pyval * string) :=
  let attrname := "" in
  let category := PNone in
  let locks := "" in
  if PyStr.contains "=" attr_string then
    match PyStr.strip <$> PyStr.split "=" (Some 1) attr_string with
    | [attrname; value] =>
        let attrname := PyStr.lower attrname in
        let nameparts := PyStr.split ";" (Some 2) attrname in
        match nameparts with
        | [attrname; category] => Ok (attrname, Some value, PStr category, locks)
        | [attrname; category; locks] => Ok (attrname, Some value, PStr category, locks)
        | _ => Ok (attrname, Some value, category, locks)
        end
    | _ => Raise (ValueError "wrong number of values to unpack")
    end
  else Ok (attrname, None, category, locks).

(** menus.py, [_add_attr], from [if attrname:] on: the entry replaces
    the first one of the same name, or is appended. *)
Definition add_attr_store (attrname : string) (attr_tuple : pyval)
    (kwargs : gmap string kwval) : M string :=
  if negb (String.eqb attrname "") then
    prot <- _get_menu_prototype ;;
    let attrs := default (PList []) (prot !! "attrs") in
    names <- lift (result_bind (py_iter attrs) firsts) ;;
    attrs <-
      lift (match py_index (PStr attrname) names with
            | Ok ind => py_setitem attrs ind attr_tuple
            | Raise (ValueError _) => py_append attrs attr_tuple
            | Raise e => Raise e
            end) ;;
    _set_prototype_value "attrs" attrs ;;;
    let text := kw_str kwargs "text" "" in
    if String.eqb text "" then
      shown <- lift (_display_attribute attr_tuple) ;;
      match kwargs !! "edit" with
      | Some _ => M_ret ("Edited " +:+ shown)
      | None => M_ret ("Added " +:+ shown)
      end
    else M_ret text
  else
    M_ret "Attribute must be given as 'attrname[;category;locks] = <value>'.".

(** menus.py, [_add_attr] *)
Definition _add_attr (attr_string : string) (kwargs : gmap string kwval)
    : M (string * list menu_option) :=
  locals <- lift (add_attr_locals attr_string) ;;
  let '(attrname, value, category, locks) := locals in
  match value with
  | None => raise (UnboundLocalError "value")
  | Some value =>
      let attr_tuple := PTuple [PStr attrname; PStr value; category; PStr locks] in
      text <- add_attr_store attrname attr_tuple kwargs ;;
      M_ret (text, [stay_option])
  end.

(** menus.py, [_edit_attr] *)
Definition _edit_attr (attrname new_value : string) : M (string * list menu_option) :=
  _add_attr (attrname +:+ "=" +:+ new_value) {[ "edit" := KBool true ]}.

(** menus.py, [_caller_tags] *)
Definition _caller_tags : M pyval :=
  prototype <- _get_menu_prototype ;;
  M_ret (default (PList []) (prototype !! "tags")).

(** menus.py, [_display_tag] *)
Definition _display_tag (tag_tuple : pyval) : result string :=
  match py_iter tag_tuple with
  | Ok [tagkey; category; data] =>
      Ok ("Tag: '" +:+ py_str ext tagkey +:+ "' (category: " +:+ py_str ext category
          +:+ (if truthy data then ", data: " +:+ py_str ext data else "") +:+ ")")
  | Ok _ => Raise (ValueError "wrong number of values to unpack")
  | Raise e => Raise e
  end.

(** menus.py, [_add_tag], the locals [tag], [category] and [data]
    after the input is split. *)
Definition add_tag_locals (tag : string) : string * pyval * string :=
  let tag := PyStr.lower (PyStr.strip tag) in
  let category := PNone in
  let data := "" in
  let tagtuple := PyStr.split ";" (Some 2) tag in
  match tagtuple with
  | [tag; category] => (tag, PStr category, data)
  | [tag; category; data] => (tag, PStr category, data)
  | _ => (tag, category, data)
  end.

(** [not v] is false: the truth value of a keyword argument.  A
    reference stands for the dict it refers to. *)
Definition kw_truthy (w : world) (v : kwval) : bool :=
  match v with
  | KNone => false
  | KBool b => b
  | KStr s => negb (String.eqb s "")
  | KProc _ | KObj _ => true
  | KDict d => negb (dict_empty d)
  | KObjs l => negb (Nat.eqb (length l) 0)
  | KRef r =>
      match heap w !! r with
      | Some d => negb (dict_empty d)
      | None => false
      end
  end.

(** menus.py, [_add_tag], the edit of an old tag: remove it and put
    the new one in its place.  [old_tag] is whatever the "edit" keyword
    holds; among the names of the tags only a string can be found, and
    for anything else [index] raises its ValueError.  The [try] around
    it catches IndexError only. *)
Definition add_tag_edit (tags : pyval) (old_tag : kwval) (tag_tuple : pyval)
    : result pyval :=
  match
    result_bind (result_bind (py_iter tags) firsts) (fun names =>
    result_bind (match old_tag with
                 | KStr old_tag => py_index (PStr old_tag) names
                 | _ => Raise (ValueError "value is not in list")
                 end) (fun ind =>
    result_bind (py_delitem tags ind) (fun tags =>
    if truthy tags then py_insert tags ind tag_tuple
    else Ok (PList [tag_tuple]))))
  with
  | Raise (IndexError _) => Ok tags
  | r => r
  end.

(** menus.py, [_add_tag] *)
Definition _add_tag (tag : string) (kwargs : gmap string kwval)
    : M (string * list menu_option) :=
  let '(tag, category, data) := add_tag_locals tag in
  let tag_tuple := PTuple [PStr tag; category; PStr data] in
  text <-
    (if negb (String.eqb tag "") then
       prot <- _get_menu_prototype ;;
       let tags := default (PList []) (prot !! "tags") in
       let old_tag := default KNone (kwargs !! "edit") in
       w <- get_world ;;
       tags <-
         (if negb (kw_truthy w old_tag) then lift (py_append tags tag_tuple)
          else lift (add_tag_edit tags old_tag tag_tuple)) ;;
       _set_prototype_value "tags" tags ;;;
       let text := kw_str kwargs "text" "" in
       if String.eqb text "" then
         shown <- lift (_display_tag tag_tuple) ;;
         match kwargs !! "edit" with
         | Some _ => M_ret ("Edited " +:+ shown)
         | None => M_ret ("Added " +:+ shown)
         end
       else M_ret text
     else M_ret "Tag must be given as 'tag[;category;data].") ;;
  M_ret (text, [stay_option]).

(** menus.py, [_edit_tag] *)
Definition _edit_tag (old_tag new_tag : string) : M (string * list menu_option) :=
  _add_tag new_tag {[ "edit" := KStr old_tag ]}.

End Attrs.

(** ** Menu nodes *)

(** What a node shows: a text, or a text with the help text; the update
    node hands over its text as a list of lines. *)
Inductive content :=
| Text (text : string)
| TextHelp (text helptext : string)
| LinesHelp (text : list string) (helptext : string).

(** [sorted(items, key=lambda tup: tup[0])] on the items of a dict with
    string keys *)
Fixpoint insert_by_key {V} (x : string * V) (l : list (string * V)) : list (string * V) :=
  match l with
  | [] => [x]
  | y :: l' => if String.ltb (fst x) (fst y) then x :: l else y :: insert_by_key x l'
  end.

Definition sorted_by_key {V} (l : list (string * V)) : list (string * V) :=
  foldl (fun acc x => insert_by_key x acc) [] l.

(** The names bound at the top level of the module. *)
Definition module_names : list string :=
  [ "json"; "choice"; "settings"; "EvMenu"; "list_node"; "evmore"; "strip_ansi";
    "utils"; "get_all_lockfuncs"; "protlib"; "spawner";
    "_MENU_CROP_WIDTH"; "_MENU_ATTR_LITERAL_EVAL_ERROR";
    "_get_menu_prototype"; "_get_flat_menu_prototype"; "_set_menu_prototype";
    "_is_new_prototype"; "_format_option_value"; "_set_prototype_value";
    "_set_property"; "_wizard_options"; "_path_cropper"; "_validate_prototype";
    "_format_protfuncs"; "_format_lockfuncs"; "_get_current_value";
    "node_index"; "node_validate_prototype"; "_check_prototype_key";
    "node_prototype_key"; "_all_prototype_parents"; "_prototype_parent_examine";
    "_prototype_parent_select"; "node_prototype_parent"; "_all_typeclasses";
    "_typeclass_examine"; "_typeclass_select"; "node_typeclass"; "node_key";
    "node_aliases"; "_caller_attrs"; "_display_attribute"; "_add_attr";
    "_edit_attr"; "_examine_attr"; "node_attrs"; "_caller_tags"; "_display_tag";
    "_add_tag"; "_edit_tag"; "node_tags"; "node_locks"; "node_permissions";
    "node_location"; "node_home"; "node_destination"; "node_prototype_desc";
    "node_prototype_tags"; "node_prototype_locks"; "_update_spawned";
    "_keep_diff"; "node_update_objects"; "node_prototype_save"; "_spawn";
    "node_prototype_spawn"; "_prototype_load_select"; "node_prototype_load";
    "OLCMenu"; "start_olc" ].

(** The processors of the field nodes. *)
Definition strip_processor : string -> result pyval :=
  fun s => Ok (PStr (PyStr.strip s)).

Definition strip_lower_processor : string -> result pyval :=
  fun s => Ok (PStr (PyStr.lower (PyStr.strip s))).

Definition comma_list_processor : string -> result pyval :=
  fun s => Ok (PList ((fun part => PStr (PyStr.strip part)) <$> PyStr.split "," None s)).

Definition comma_list_lower_processor : string -> result pyval :=
  fun s => Ok (PList ((fun part => PStr (PyStr.lower (PyStr.strip part)))
                        <$> PyStr.split "," None s)).

(** The default option of a field node: whatever is typed goes to
    [_set_property]. *)
Definition set_property_option (prop : string) (processor : string -> result pyval)
    (next_node : string) : menu_option :=
  {| opt_key := ["_default"];
     opt_desc := None;
     opt_goto := GotoCallKw F_set_property
                   {[ "prop" := KStr prop; "processor" := KProc processor;
                      "next_node" := KStr next_node ]} |}.

Section Nodes.

Context (ext : services).

(** menus.py, [_format_protfuncs] *)
Definition _format_protfuncs : string :=
  let sorted_funcs := sorted_by_key (prot_funcs ext) in
  let out :=
    (fun '(protfunc_name, doc) =>
       "- |c$" +:+ protfunc_name +:+ "|n - |W" +:+
       PyStr.strip (justify ext (PyStr.strip doc))) <$> sorted_funcs in
  PyStr.join (newline +:+ "       ") out.

(** menus.py, [_get_current_value] with the default formatter [str] *)
Definition _get_current_value (keyname : string) : M string :=
  prot <- _get_menu_prototype ;;
  match prot !! keyname with
  | Some v => M_ret ("Current " +:+ keyname +:+ ": " +:+ py_str ext v)
  | None =>
      flat_prot <- _get_flat_menu_prototype ext ;;
      match flat_prot !! keyname with
      | Some v => M_ret ("Current " +:+ keyname +:+ " (|binherited|n): " +:+ py_str ext v)
      | None => M_ret ("[No " +:+ keyname +:+ " set]")
      end
  end.

(** A call [name(caller, keyname)] of a global of the module: a name
    the module does not bind is a NameError. *)
Definition call_global (name keyname : string) : M string :=
  if bool_decide (name ∈ module_names) then
    if String.eqb name "_get_current_value" then _get_current_value keyname
    else raise (TypeError (name +:+ " is not called with (caller, keyname)"))
  else raise (NameError name).

(** The text of a node: its prose, then the current value. *)
Definition with_current (prose current : string) : string :=
  prose +:+ newline +:+ newline +:+ current.

(** menus.py, [node_prototype_key] *)
Definition node_prototype_key : M (content * list menu_option) :=
  current <- _get_current_value "prototype_key" ;;
  let text := with_current
    "The |cPrototype-Key|n uniquely identifies the prototype and is |wmandatory|n."
    current in
  let helptext := "The prototype-key is not itself used when spawnng the new object." in
  let options := _wizard_options (Some "prototype_key") (Some "index")
                   (Some "prototype_parent") default_color in
  let options := options ++
    [ {| opt_key := ["_default"]; opt_desc := None;
         opt_goto := GotoCall F_check_prototype_key |} ] in
  M_ret (TextHelp text helptext, options).

(** menus.py, [node_key] *)
Definition node_key : M (content * list menu_option) :=
  current <- _get_current_value "key" ;;
  let text := with_current
    "The |cKey|n is the given name of the object to spawn. This will retain the given case."
    current in
  let helptext := "|c$protfuncs|n" +:+ newline +:+ _format_protfuncs in
  let options := _wizard_options (Some "key") (Some "typeclass") (Some "aliases")
                   default_color in
  let options := options ++ [set_property_option "key" strip_processor "node_aliases"] in
  M_ret (TextHelp text helptext, options).

(** menus.py, [node_aliases] *)
Definition node_aliases : M (content * list menu_option) :=
  current <- _get_current_value "aliases" ;;
  let text := with_current
    "Add multiple aliases separating with commas."
    current in
  let helptext := "|c$protfuncs|n" +:+ newline +:+ newline +:+ _format_protfuncs in
  let options := _wizard_options (Some "aliases") (Some "key") (Some "attrs")
                   default_color in
  let options := options ++
    [set_property_option "aliases" comma_list_processor "node_attrs"] in
  M_ret (TextHelp text helptext, options).

(** menus.py, [node_permissions]; the help text names its field
    [{permissions}] and is formatted with a positional argument. *)
Definition node_permissions : M (content * list menu_option) :=
  current <- _get_current_value "permissions" ;;
  let text := with_current
    "|cPermissions|n are simple strings used to grant access to this object."
    current in
  helptext <- lift (PyStr.format
    "The most common permissions are the hierarchical permissions: {permissions}."
    [py_str ext (permission_hierarchy ext)] []) ;;
  let options := _wizard_options (Some "permissions") (Some "destination")
                   (Some "location") default_color in
  let options := options ++
    [set_property_option "permissions" comma_list_processor "node_location"] in
  M_ret (TextHelp text helptext, options).

(** menus.py, [node_location]; the help text is formatted with the
    function [_format_protfuncs] itself, not with its result. *)
Definition node_location : M (content * list menu_option) :=
  current <- _get_current_value "location" ;;
  let text := with_current
    ("The |cLocation|n of this object in the world. If not given, the object will spawn"
     +:+ " in the inventory of |c" +:+ caller_key ext +:+ "|n instead.")
    current in
  let helptext := "|c$protfuncs|n" +:+ newline +:+ "<function _format_protfuncs>" in
  let options := _wizard_options (Some "location") (Some "permissions") (Some "home")
                   default_color in
  let options := options ++ [set_property_option "location" strip_processor "node_home"] in
  M_ret (TextHelp text helptext, options).

(** menus.py, [node_home] *)
Definition node_home : M (content * list menu_option) :=
  current <- _get_current_value "home" ;;
  let text := with_current
    "The |cHome|n location of an object is often only used as a backup."
    current in
  let helptext :=
    "The home location is often not used except as a backup. It should never be unset." in
  let options := _wizard_options (Some "home") (Some "aliases") (Some "destination")
                   default_color in
  let options := options ++
    [set_property_option "home" strip_processor "node_destination"] in
  M_ret (TextHelp text helptext, options).

(** menus.py, [node_destination]; the current value is asked of
    [_get_current_node]. *)
Definition node_destination : M (content * list menu_option) :=
  current <- call_global "_get_current_node" "destination" ;;
  let text := with_current
    "The object's |cDestination|n is usually only set for Exit-like objects."
    current in
  let helptext := "The destination can be given as a #dbref." in
  let options := _wizard_options (Some "destination") (Some "home")
                   (Some "prototype_desc") default_color in
  let options := options ++
    [set_property_option "dest" strip_processor "node_prototype_desc"] in
  M_ret (TextHelp text helptext, options).

(** menus.py, [node_prototype_desc] *)
Definition node_prototype_desc : M (content * list menu_option) :=
  current <- _get_current_value "prototype_desc" ;;
  let text := with_current
    "The |cPrototype-Description|n optionally briefly describes the prototype."
    current in
  let helptext :=
    "Giving a brief description helps you and others to locate the prototype for use later." in
  let options := _wizard_options (Some "prototype_desc") (Some "prototype_key")
                   (Some "prototype_tags") default_color in
  let options := options ++
    [set_property_option "prototype_desc" strip_processor "node_prototype_tags"] in
  M_ret (TextHelp text helptext, options).

(** menus.py, [node_prototype_tags] *)
Definition node_prototype_tags : M (content * list menu_option) :=
  current <- _get_current_value "prototype_tags" ;;
  let text := with_current
    "|cPrototype-Tags|n can be used to classify and find prototypes in listings."
    current in
  let helptext :=
    "Under the hood, prototypes' tags will all be stored with the category '"
    +:+ prototype_tag_meta_category ext +:+ "'." in
  let options := _wizard_options (Some "prototype_tags") (Some "prototype_desc")
                   (Some "prototype_locks") default_color in
  let options := options ++
    [set_property_option "prototype_tags" comma_list_lower_processor
       "node_prototype_locks"] in
  M_ret (TextHelp text helptext, options).

(** menus.py, [node_prototype_locks] *)
Definition node_prototype_locks : M (content * list menu_option) :=
  current <- _get_current_value "prototype_locks" ;;
  let text := with_current
    "|cPrototype-Locks|n are used to limit access to this prototype."
    current in
  let helptext := "Prototype locks can be used when there are different tiers of builders." in
  let options := _wizard_options (Some "prototype_locks") (Some "prototype_tags")
                   (Some "index") default_color in
  let options := options ++
    [set_property_option "prototype_locks" strip_lower_processor "node_index"] in
  M_ret (TextHelp text helptext, options).

(** The handlers of [start_olc]'s [menudata] that are modelled here and
    take no keyword arguments.  The nodes wrapped by [evmenu.list_node]
    (prototype_parent, typeclass, attrs, tags, prototype_load) get their
    options from that decorator, which is outside the module. *)
Definition menudata (nodename : string) : option (M (content * list menu_option)) :=
  if String.eqb nodename "node_prototype_key" then Some node_prototype_key
  else if String.eqb nodename "node_key" then Some node_key
  else if String.eqb nodename "node_aliases" then Some node_aliases
  else if String.eqb nodename "node_permissions" then Some node_permissions
  else if String.eqb nodename "node_location" then Some node_location
  else if String.eqb nodename "node_home" then Some node_home
  else if String.eqb nodename "node_destination" then Some node_destination
  else if String.eqb nodename "node_prototype_desc" then Some node_prototype_desc
  else if String.eqb nodename "node_prototype_tags" then Some node_prototype_tags
  else if String.eqb nodename "node_prototype_locks" then Some node_prototype_locks
  else None.

End Nodes.

(** ** Updating the objects spawned from a prototype *)

(** [kwargs[name]] *)
Definition kw_item (kwargs : gmap string kwval) (name : string) : result kwval :=
  match kwargs !! name with
  | Some v => Ok v
  | None => Raise (KeyError name)
  end.

(** The prototype dict, the objects and the node name behind a keyword
    argument. *)
Definition kw_dict (v : kwval) : result (gmap string pyval) :=
  match v with
  | KDict d => Ok d
  | _ => Raise (TypeError "a prototype dict is needed")
  end.

Definition kw_objects (v : kwval) : list obj :=
  match v with
  | KObjs l => l
  | _ => []
  end.

Definition kw_name (v : kwval) : option string :=
  match v with
  | KStr s => Some s
  | _ => None
  end.

(** [d[key]] on a dict that may be None *)
Definition dict_item (d : kwval) (key : string) : result pyval :=
  match d with
  | KDict d =>
      match d !! key with
      | Some v => Ok v
      | None => Raise (KeyError key)
      end
  | _ => Raise (TypeError "object is not subscriptable")
  end.

(** The help text of the update node. *)
Definition update_helptext : string :=
  "Be careful with this operation! The upgrade mechanism will try to automatically estimate"
  +:+ " what changes need to be applied. But the estimate is |wonly based on the analysis of one"
  +:+ " randomly selected object|n among all objects spawned by this prototype.".

(** The format of one line of the update node. *)
Definition diff_line : string := "{iopt}  |w{key}|n: {old}{sep}{new} {change}".

Section Update.

Context (ext : services).

(** The diff dict a reference stands for. *)
Definition deref (w : world) (diff : kwval) : option (gmap string string) :=
  match diff with
  | KRef r => heap w !! r
  | _ => None
  end.

(** menus.py, [_update_spawned] *)
Definition _update_spawned (kwargs : gmap string kwval) : M (option string) :=
  prototype <- lift (kw_item kwargs "prototype") ;;
  objects <- lift (kw_item kwargs "objects") ;;
  back_node <- lift (kw_item kwargs "back_node") ;;
  let diff := default KNone (kwargs !! "diff") in
  prototype <- lift (kw_dict prototype) ;;
  w <- get_world ;;
  let num_changed :=
    batch_update_objects_with_prototype ext prototype (deref w diff) (kw_objects objects) in
  modify (fun w => set_bulk_updates
            (bulk_updates w ++ [(prototype, deref w diff, kw_objects objects)]) w) ;;;
  msg ("|g" +:+ pretty num_changed +:+ " objects were updated successfully.|n") ;;;
  M_ret (kw_name back_node).

(** menus.py, [_keep_diff]: [diff[key] = "KEEP"] on the dict the
    options share; nothing is returned. *)
Definition _keep_diff (kwargs : gmap string kwval) : M (option string) :=
  key <- lift (kw_item kwargs "key") ;;
  diff <- lift (kw_item kwargs "diff") ;;
  w <- get_world ;;
  match diff, key with
  | KRef r, KStr key =>
      match heap w !! r with
      | Some d =>
          modify (set_heap (<[r := <[key := "KEEP"]> d]> (heap w))) ;;;
          M_ret None
      | None => raise (TypeError "object does not support item assignment")
      end
  | _, _ => raise (TypeError "object does not support item assignment")
  end.

(** menus.py, [_keep_option] of [node_update_objects] *)
Definition _keep_option (keyname : string)
    (prototype obj obj_prototype diff objects back_node : kwval) : menu_option :=
  {| opt_key := [];
     opt_desc := Some ("Keep " +:+ keyname +:+ " as-is");
     opt_goto := GotoCallKw F_keep_diff
                   {[ "key" := KStr keyname; "prototype" := prototype;
                      "obj" := obj; "obj_prototype" := obj_prototype;
                      "diff" := diff; "objects" := objects;
                      "back_node" := back_node ]} |}.

(** The three options that close the update node: update, reset, back. *)
Definition update_option (prototype update_objects back_node diff : kwval) : menu_option :=
  {| opt_key := ["|wu|r update " +:+ pretty (length (kw_objects update_objects))
                 +:+ " objects"; "update"; "u"];
     opt_desc := None;
     opt_goto := GotoCallKw F_update_spawned
                   {[ "prototype" := prototype; "objects" := update_objects;
                      "back_node" := back_node; "diff" := diff ]} |}.

Definition reset_option (prototype update_objects back_node : kwval) : menu_option :=
  {| opt_key := ["|wr|neset changes"; "reset"; "r"];
     opt_desc := None;
     opt_goto := GotoNodeKw "node_update_objects"
                   {[ "prototype" := prototype; "back_node" := back_node;
                      "objects" := update_objects ]} |}.

Definition back_to_option (back_node : kwval) : menu_option :=
  {| opt_key := ["|wb|rack (" +:+ PyStr.drop 5 (default "" (kw_name back_node)) +:+ ")"];
     opt_desc := None;
     opt_goto := match kw_name back_node with
                 | Some n => GotoNode n
                 | None => GotoNode ""
                 end |}.

(** The [for] loop of [node_update_objects] over the sorted items of
    the diff.  The three closing options, the help text and the [return]
    stand inside the loop body: the loop returns at the first entry that
    is not KEEP, and a loop that runs out of entries leaves the function
    without a [return], with None ([Ok None] here).  [obj] is [None]
    when the local is not bound. *)
Fixpoint update_loop (items : list (string * string))
    (prototype obj_prototype diff update_objects back_node : kwval)
    (obj : option obj) (text : list string) (options : list menu_option) (io : nat)
    : result (option (content * list menu_option)) :=
  match items with
  | [] => Ok None
  | (key, inst) :: rest =>
      result_bind (dict_item obj_prototype key) (fun old =>
      let old_val := crop ext (py_str ext old) 20 in
      if String.eqb inst "KEEP" then
        result_bind (PyStr.format diff_line []
                       [("iopt", ""); ("key", key); ("old", old_val); ("sep", " ");
                        ("new", ""); ("change", inst)]) (fun line =>
        update_loop rest prototype obj_prototype diff update_objects back_node obj
          (text ++ [line]) options io)
      else
        result_bind (dict_item prototype key) (fun new =>
        let new_val := crop ext (py_str ext (init_spawn_value ext new)) 20 in
        let io := S io in
        result_bind
          (if String.eqb inst "UPDATE" || String.eqb inst "REPLACE" then
             result_bind (PyStr.format diff_line []
                            [("iopt", pretty io); ("key", key); ("old", old_val);
                             ("sep", " |y->|n "); ("new", new_val); ("change", inst)])
               (fun line =>
             match obj with
             | Some o => Ok (text ++ [line],
                             options ++ [_keep_option key prototype (KObj o) obj_prototype
                                           diff update_objects back_node])
             | None => Raise (UnboundLocalError "obj")
             end)
           else if String.eqb inst "REMOVE" then
             result_bind (PyStr.format diff_line []
                            [("iopt", pretty io); ("key", key); ("old", old_val);
                             ("sep", " |r->|n "); ("new", ""); ("change", inst)])
               (fun line =>
             match obj with
             | Some o => Ok (text ++ [line],
                             options ++ [_keep_option key prototype (KObj o) obj_prototype
                                           diff update_objects back_node])
             | None => Raise (UnboundLocalError "obj")
             end)
           else Ok (text, options))
          (fun '(text, options) =>
        let options := options ++
          [update_option prototype update_objects back_node diff;
           reset_option prototype update_objects back_node;
           back_to_option back_node] in
        Ok (Some (LinesHelp text update_helptext, options)))))
  end.

(** The two lines that head the text of the update node. *)
Definition update_header (update_objects : list obj) (obj : option obj)
    : result (list string) :=
  result_bind (PyStr.format "Suggested changes to {} objects. "
                 [pretty (length update_objects)] []) (fun first =>
  match obj with
  | None => Raise (UnboundLocalError "obj")
  | Some o =>
      result_bind (PyStr.format
                     ("Showing random example obj to change: {name} (#{dbref}))" +:+ newline)
                     [obj_key o; obj_dbref o] []) (fun second =>
      Ok [first; second])
  end).

(** The diff the node works with: the one handed over in [kwargs], or,
    when there is none or it is empty, a fresh one computed by the
    spawner from one object chosen at random.  Returns the diff (a
    reference to a new dict when it is computed), the prototype it is
    compared with, and the chosen object. *)
Definition resolve_diff (prototype obj_prototype diff : kwval) (update_objects : list obj)
    : M (kwval * kwval * option obj) :=
  w <- get_world ;;
  if kw_truthy w diff then M_ret (diff, obj_prototype, None)
  else
    match choice ext update_objects with
    | None => raise (IndexError "Cannot choose from an empty sequence")
    | Some obj =>
        prototype <- lift (kw_dict prototype) ;;
        let '(d, obj_prototype) := prototype_diff_from_object ext prototype obj in
        modify (set_heap (heap w ++ [d])) ;;;
        M_ret (KRef (length (heap w)), KDict obj_prototype, Some obj)
    end.

(** menus.py, [node_update_objects]; [None] is the function ending
    without a [return]. *)
Definition node_update_objects (kwargs : gmap string kwval)
    : M (option (content * list menu_option)) :=
  let prototype := default KNone (kwargs !! "prototype") in
  let update_objects := default KNone (kwargs !! "objects") in
  let back_node := default (KStr "node_index") (kwargs !! "back_node") in
  let obj_prototype := default KNone (kwargs !! "obj_prototype") in
  let diff := default KNone (kwargs !! "diff") in
  match kw_objects update_objects with
  | [] =>
      M_ret (Some (Text "There are no existing objects to update.",
                   [ {| opt_key := ["_default"]; opt_desc := None;
                        opt_goto := match kw_name back_node with
                                    | Some n => GotoNode n
                                    | None => GotoNode ""
                                    end |} ]))
  | _ :: _ =>
      resolved <- resolve_diff prototype obj_prototype diff (kw_objects update_objects) ;;
      let '(diff, obj_prototype, obj) := resolved in
      text <- lift (update_header (kw_objects update_objects) obj) ;;
      w <- get_world ;;
      let items := sorted_by_key (map_to_list (default ∅ (deref w diff))) in
      lift (update_loop items prototype obj_prototype diff update_objects back_node
              obj text [] 0)
  end.

End Update.

(** The statement of C6 as the specification words it. *)
Definition four_options_for_all_triples : Prop :=
  forall curr prev next : string,
    prev <> "" -> next <> "" ->
    _wizard_options (Some curr) (Some prev) (Some next) default_color =
      [back_option default_color prev; forward_option default_color next;
       index_option; validate_option curr].

(** ** Notions used in the statements *)

(** The in-progress Template: the prototype dict of the menu, empty when
    none is there yet. *)
Definition template (w : world) : gmap string pyval := default ∅ (olc_prototype w).

(** The value [_set_property] is about to store for a raw input: the
    processor's result when a processor is supplied, the raw input if not. *)
Definition processed (kwargs : gmap string kwval) (raw_string : string) : result pyval :=
  match kwargs !! "processor" with
  | Some (KProc f) => f raw_string
  | _ => Ok (PStr raw_string)
  end.

(** The statement of C8 as the specification words it: whenever the
    processor succeeds, each of two calls with the same input writes the
    field named by [prop], and the second call changes nothing. *)
Definition set_property_always_writes_prop (ext : services) : Prop :=
  forall (w : world) (raw_string : string) (kwargs : gmap string kwval) (value : pyval),
    processed kwargs raw_string = Ok value ->
    let prop := kw_str kwargs "prop" "prototype_key" in
    let w1 := snd (_set_property ext raw_string kwargs w) in
    let w2 := snd (_set_property ext raw_string kwargs w1) in
    template w2 = template w1 /\
    template w1 = <[prop := value]> (template w) /\
    template w2 = <[prop := value]> (template w1).

(** A key typed at the prototype-key node is accepted when the search for
    an existing prototype does not turn it away: nothing is found, or the
    caller may edit what is found and the menu prototype is not marked
    new. *)
Definition key_accepted (ext : services) (w : world) (raw_string : string) : Prop :=
  match search_prototype ext (Some raw_string) with
  | [] => True
  | old_prototype :: _ =>
      exists locks, old_prototype !! "prototype_locks" = Some locks /\
                    check_lockstring ext locks = true /\
                    olc_new w = None
  end.

(** The services with another prototype search. *)
Definition with_search (search : option string -> list (gmap string pyval))
    (ext : services) : services :=
  {| py_repr := py_repr ext;
     py_type := py_type ext;
     json_dumps := json_dumps ext;
     protfunc_parser := protfunc_parser ext;
     protfunc_parser_testing := protfunc_parser_testing ext;
     search_prototype := search;
     prot_funcs := prot_funcs ext;
     flatten_prototype := flatten_prototype ext;
     init_spawn_value := init_spawn_value ext;
     prototype_diff_from_object := prototype_diff_from_object ext;
     batch_update_objects_with_prototype := batch_update_objects_with_prototype ext;
     justify := justify ext;
     crop := crop ext;
     choice := choice ext;
     check_lockstring := check_lockstring ext;
     caller_key := caller_key ext;
     permission_hierarchy := permission_hierarchy ext;
     prototype_tag_meta_category := prototype_tag_meta_category ext |}.

(** The keyword arguments [_check_prototype_key] hands to [_set_property]. *)
Definition accept_kwargs : gmap string kwval :=
  {[ "prop" := KStr "prototype_key"; "next_node" := KStr "node_prototype_parent" ]}.

(** An entry of the attrs list. *)
Definition attr_entry (name value : string) (category : pyval) (locks : string) : pyval :=
  PTuple [PStr name; PStr value; category; PStr locks].

(** The attrs list of the Template. *)
Definition attrs_list (w : world) : list pyval :=
  match template w !! "attrs" with
  | Some (PList l) => l
  | _ => []
  end.

(** The scenario of C5, for the lock string the entry is to hold: adding
    "str;physical;perm(Builder)=12" leaves the entry at some index of the
    attrs list, and adding "str=15" then replaces the entry at that index
    and nothing else.  The specification words it with the lock string as
    typed, "perm(Builder)". *)
Definition add_attr_scenario (lockstring : string) (ext : services) : Prop :=
  forall (w : world) r1 (w1 : world),
    _add_attr ext "str;physical;perm(Builder)=12" ∅ w = (Ok r1, w1) ->
    exists i : nat,
      attrs_list w1 !! i = Some (attr_entry "str" "12" (PStr "physical") lockstring) /\
      exists r2 (w2 : world),
        _add_attr ext "str=15" ∅ w1 = (Ok r2, w2) /\
        attrs_list w2 = <[i := attr_entry "str" "15" PNone ""]> (attrs_list w1).

(** The attrs list [l] of the Template holds an entry named [attrname],
    the first of that name, at index [i]. *)
Definition named_at (w : world) (attrname : string) (i : nat) (l : list pyval) : Prop :=
  template w !! "attrs" = Some (PList l) /\
  exists names, firsts l = Ok names /\ py_index (PStr attrname) names = Ok i.

(** ** Walking the menu *)

(** The option the menu engine takes for an input: the first one that
    lists the input among its keys. *)
Definition select (options : list menu_option) (input : string) : option menu_option :=
  List.find (fun o => existsb (String.eqb input) (opt_key o)) options.

(** The node a goto leads to when it names one. *)
Definition goto_node (g : goto_t) : option string :=
  match g with
  | GotoNode node | GotoNodeKw node _ => Some node
  | GotoCall _ | GotoCallKw _ _ => None
  end.

(** Show a node and take the option for [input]: the node it leads to. *)
Definition follow (ext : services) (nodename input : string) : M (option string) :=
  match menudata ext nodename with
  | Some node =>
      shown <- node ;;
      M_ret (o ← select (snd shown) input; goto_node (opt_goto o))
  | None => raise (KeyError nodename)
  end.

(** Back from a node, then Forward from where that leads. *)
Definition back_then_forward (ext : services) (nodename : string) : M (option string) :=
  previous <- follow ext nodename "b" ;;
  match previous with
  | Some previous => follow ext previous "f"
  | None => M_ret None
  end.

(** ** A prototype saved again after a change *)

(** One goblin was spawned from the prototype before its description
    and key were changed; the spawner suggests to update both fields. *)
Definition goblin : obj := {| obj_key := "goblin"; obj_dbref := "12" |}.

Definition new_prototype : gmap string pyval :=
  {[ "prototype_key" := PStr "goblin"; "desc" := PStr "A wiry goblin";
     "key" := PStr "goblin chief" ]}.

Definition old_prototype : gmap string pyval :=
  {[ "prototype_key" := PStr "goblin"; "desc" := PStr "A goblin";
     "key" := PStr "goblin" ]}.

Definition two_updates : gmap string string :=
  {[ "desc" := "UPDATE"; "key" := "UPDATE" ]}.

(** The services with another answer of the spawner's diff. *)
Definition with_diff (d : gmap string string * gmap string pyval)
    (ext : services) : services :=
  {| py_repr := py_repr ext;
     py_type := py_type ext;
     json_dumps := json_dumps ext;
     protfunc_parser := protfunc_parser ext;
     protfunc_parser_testing := protfunc_parser_testing ext;
     search_prototype := search_prototype ext;
     prot_funcs := prot_funcs ext;
     flatten_prototype := flatten_prototype ext;
     init_spawn_value := init_spawn_value ext;
     prototype_diff_from_object := fun _ _ => d;
     batch_update_objects_with_prototype := batch_update_objects_with_prototype ext;
     justify := justify ext;
     crop := crop ext;
     choice := choice ext;
     check_lockstring := check_lockstring ext;
     caller_key := caller_key ext;
     permission_hierarchy := permission_hierarchy ext;
     prototype_tag_meta_category := prototype_tag_meta_category ext |}.

(** The keyword arguments the save node gives to the update node. *)
Definition save_kwargs : gmap string kwval :=
  {[ "accept_update" := KBool true; "objects" := KObjs [goblin];
     "prototype" := KDict new_prototype; "back_node" := KStr "node_prototype_save" ]}.

(** An option that keeps a field as it is. *)
Definition is_keep_option (o : menu_option) : bool :=
  match opt_goto o with
  | GotoCallKw F_keep_diff _ => true
  | _ => false
  end.

(** An option that starts the bulk update. *)
Definition is_update_option (o : menu_option) : bool :=
  match opt_goto o with
  | GotoCallKw F_update_spawned _ => true
  | _ => false
  end.

(** The options a node hands back, none when it hands back nothing. *)
Definition offered (r : result (option (content * list menu_option))) : list menu_option :=
  match r with
  | Ok (Some (_, options)) => options
  | _ => []
  end.

(** The lines of text a node hands back. *)
Definition rendered (r : result (option (content * list menu_option))) : list string :=
  match r with
  | Ok (Some (LinesHelp text _, _)) => text
  | _ => []
  end.

(** ** More of the module: loading, selecting, the index, validation,
       saving and spawning *)

(** The outcome of [spawner.spawn(prototype, only_validate=True)]: it
    returns, or raises one of the two exceptions the module catches. *)
Inductive validation :=
| Valid
| RuntimeError (msg : string)
| RuntimeWarning (msg : string).

(** Further services outside the module: protlib's printing and saving
    side ([prototype_to_str] also as called with the list that a search
    returns, where it may raise), the spawner, [utils.is_iter],
    [utils.crop] on a value that is no string, the typeclasses with their docstrings,
    [protlib._PROTOTYPE_TAG_CATEGORY], the caller as an object ([str] of
    it is its key) and where the caller is ([None] for nowhere). *)
Record registry := {
  prototype_to_str : gmap string pyval -> string;
  prototype_list_to_str : list (gmap string pyval) -> result string;
  spawn_validate : gmap string pyval -> validation;
  spawn : gmap string pyval -> list obj;
  search_objects_with_prototype : pyval -> list obj;
  is_iter : pyval -> bool;
  crop_value : pyval -> nat -> string;
  get_all_typeclasses : list (string * string);
  prototype_tag_category : string;
  caller_obj : obj;
  caller_location : option obj;
  caller_is_its_location : bool
}.

(** A registry for running the handlers on concrete inputs: every
    prototype is valid, lists and tuples are iterable, nothing was
    spawned. *)
Definition plain_registry : registry :=
  {| prototype_to_str := fun _ => "<prototype>";
     prototype_list_to_str := fun _ => Ok "<prototypes>";
     spawn_validate := fun _ => Valid;
     spawn := fun _ => [];
     search_objects_with_prototype := fun _ => [];
     is_iter := fun v => match v with PList _ | PTuple _ => true | _ => false end;
     crop_value := fun _ _ => "[...]";
     get_all_typeclasses := [];
     prototype_tag_category := "from_prototype";
     caller_obj := {| obj_key := "builder"; obj_dbref := "1" |};
     caller_location := None;
     caller_is_its_location := false |}.

(** Services where the prototype "goblin" is saved and the caller passes
    no lock. *)
Definition locked_services : services :=
  {| py_repr := py_repr plain_services;
     py_type := py_type plain_services;
     json_dumps := json_dumps plain_services;
     protfunc_parser := protfunc_parser plain_services;
     protfunc_parser_testing := protfunc_parser_testing plain_services;
     search_prototype := fun _ =>
       [ {[ "prototype_key" := PStr "goblin"; "prototype_locks" := PStr "edit:false()" ]} ];
     prot_funcs := prot_funcs plain_services;
     flatten_prototype := flatten_prototype plain_services;
     init_spawn_value := init_spawn_value plain_services;
     prototype_diff_from_object := prototype_diff_from_object plain_services;
     batch_update_objects_with_prototype :=
       batch_update_objects_with_prototype plain_services;
     justify := justify plain_services;
     crop := crop plain_services;
     choice := choice plain_services;
     check_lockstring := fun _ => false;
     caller_key := caller_key plain_services;
     permission_hierarchy := permission_hierarchy plain_services;
     prototype_tag_meta_category := prototype_tag_meta_category plain_services |}.

(** A registry where the goblin was spawned from the prototype. *)
Definition goblin_registry : registry :=
  {| prototype_to_str := prototype_to_str plain_registry;
     prototype_list_to_str := prototype_list_to_str plain_registry;
     spawn_validate := spawn_validate plain_registry;
     spawn := spawn plain_registry;
     search_objects_with_prototype := fun _ => [goblin];
     is_iter := is_iter plain_registry;
     crop_value := crop_value plain_registry;
     get_all_typeclasses := get_all_typeclasses plain_registry;
     prototype_tag_category := prototype_tag_category plain_registry;
     caller_obj := caller_obj plain_registry;
     caller_location := caller_location plain_registry;
     caller_is_its_location := caller_is_its_location plain_registry |}.

(** A registry whose spawner warns about every prototype. *)
Definition warning_registry : registry :=
  {| prototype_to_str := prototype_to_str plain_registry;
     prototype_list_to_str := prototype_list_to_str plain_registry;
     spawn_validate := fun _ => RuntimeWarning "typeclass path not found";
     spawn := spawn plain_registry;
     search_objects_with_prototype := search_objects_with_prototype plain_registry;
     is_iter := is_iter plain_registry;
     crop_value := crop_value plain_registry;
     get_all_typeclasses := get_all_typeclasses plain_registry;
     prototype_tag_category := prototype_tag_category plain_registry;
     caller_obj := caller_obj plain_registry;
     caller_location := caller_location plain_registry;
     caller_is_its_location := caller_is_its_location plain_registry |}.

(** The state of a session with what the handlers do outside the
    caller: the prototypes handed to [protlib.save_prototype] and to
    [spawner.spawn]. *)
Record session := {
  caller : world;
  saved : list (gmap string pyval);
  spawned : list (gmap string pyval)
}.

Definition new_session (w : world) : session :=
  {| caller := w; saved := []; spawned := [] |}.

Definition Sess (A : Type) : Type := session -> result A * session.

Definition S_ret {A} (a : A) : Sess A := fun s => (Ok a, s).

Definition S_bind {A B} (m : Sess A) (k : A -> Sess B) : Sess B :=
  fun s =>
    match m s with
    | (Ok a, s') => k a s'
    | (Raise e, s') => (Raise e, s')
    end.

(** A handler that works on the caller only, run in a session. *)
Definition on_caller {A} (m : M A) : Sess A :=
  fun s =>
    let '(r, w') := m (caller s) in
    (r, {| caller := w'; saved := saved s; spawned := spawned s |}).

Definition S_raise {A} (e : pyexn) : Sess A := fun s => (Raise e, s).

(** [protlib.save_prototype], called with the fields of the prototype as
    keyword arguments; the call is recorded. *)
Definition save_prototype (prototype : gmap string pyval) : Sess unit :=
  fun s => (Ok tt, {| caller := caller s; saved := saved s ++ [prototype];
                      spawned := spawned s |}).

Notation "x <<- m ;; k" := (S_bind m (fun x => k))
  (at level 63, m at next level, right associativity).
Notation "m ;;;; k" := (S_bind m (fun _ => k))
  (at level 63, right associativity).

(** The node names [start_olc] registers in [menudata]. *)
Definition registered_nodes : list string :=
  [ "node_index"; "node_validate_prototype"; "node_prototype_key";
    "node_prototype_parent"; "node_typeclass"; "node_key"; "node_aliases";
    "node_attrs"; "node_tags"; "node_locks"; "node_permissions"; "node_location";
    "node_home"; "node_destination"; "node_update_objects"; "node_prototype_desc";
    "node_prototype_tags"; "node_prototype_locks"; "node_prototype_load";
    "node_prototype_save"; "node_prototype_spawn" ].

(** [_MENU_CROP_WIDTH] *)
Definition _MENU_CROP_WIDTH : nat := 15.

(** The processor [str]. *)
Definition str_processor : string -> result pyval := fun s => Ok (PStr s).

(** menus.py, [_set_menu_prototype] *)
Definition _set_menu_prototype (prototype : gmap string pyval) : M (gmap string pyval) :=
  modify (set_olc_prototype (Some prototype)) ;;;
  modify (set_olc_new (Some false)) ;;;
  M_ret prototype.

(** menus.py, [_path_cropper]: [pythonpath.split('.')[-1]] *)
Definition _path_cropper (pythonpath : string) : string :=
  List.last (PyStr.split "." None pythonpath) "".

(** The first paragraph of a docstring, as [_typeclass_examine] takes
    it: the lines from the first that is not blank up to the next blank
    one. *)
Fixpoint first_paragraph (lines : list string) (docstr : list string) : list string :=
  match lines with
  | [] => docstr
  | line :: lines' =>
      if negb (String.eqb (PyStr.strip line) "") then first_paragraph lines' (docstr ++ [line])
      else if negb (Nat.eqb (length docstr) 0) then docstr
      else first_paragraph lines' docstr
  end.

Section More.

Context (ext : services) (reg : registry).

(** menus.py, [_format_option_value] called with a prototype, as the
    index does; [cropper] is [None] or a function on strings. *)
Definition _format_option_value (prop : string) (required : bool)
    (prototype : gmap string pyval) (cropper : option (string -> string))
    : result string :=
  let prop := default (PStr "") (prototype !! prop) in
  result_bind
    (if is_iter reg prop then
       result_bind (py_iter prop) (fun items =>
       Ok (PStr (PyStr.join ", " (py_str ext <$> items))))
     else Ok prop) (fun out =>
  let out := if negb (truthy out) && required then PStr "|rrequired" else out in
  if truthy out then
    match out, cropper with
    | PStr s, Some cropper => Ok (" (" +:+ cropper s +:+ "|n)")
    | PStr s, None => Ok (" (" +:+ crop ext s _MENU_CROP_WIDTH +:+ "|n)")
    | _, Some _ => Raise (AttributeError "object has no attribute 'split'")
    | _, None => Ok (" (" +:+ crop_value reg out _MENU_CROP_WIDTH +:+ "|n)")
    end
  else Ok "").

(** The option of the index for one field of the entity. *)
Definition index_field_option (prototype : gmap string pyval) (key : string)
    : result menu_option :=
  let required :=
    if String.eqb key "Prototype-parent" || String.eqb key "Typeclass" then
      bool_decide (prototype !! "prototype_parent" = None) &&
      bool_decide (prototype !! "typeclass" = None)
    else false in
  let cropper := if String.eqb key "Typeclass" then Some _path_cropper else None in
  result_bind (_format_option_value key required prototype cropper) (fun value =>
  Ok {| opt_key := [];
        opt_desc := Some ("|w" +:+ PyStr.replace "_" "-" key +:+ "|n" +:+ value);
        opt_goto := GotoNode ("node_" +:+ PyStr.lower key) |}).

(** The option of the index for one field of the prototype's meta
    data. *)
Definition index_meta_option (prototype : gmap string pyval) (key : string)
    : result menu_option :=
  result_bind (_format_option_value key false prototype None) (fun value =>
  Ok {| opt_key := [];
        opt_desc := Some ("|WPrototype-" +:+ key +:+ "|n|n" +:+ value);
        opt_goto := GotoNode ("node_prototype_" +:+ PyStr.lower key) |}).

(** [[f(x) for x in l]] for an [f] that can raise *)
Fixpoint collect {A B} (f : A -> result B) (l : list A) : result (list B) :=
  match l with
  | [] => Ok []
  | x :: l' =>
      result_bind (f x) (fun y =>
      result_bind (collect f l') (fun ys => Ok (y :: ys)))
  end.

(** menus.py, [node_index] *)
Definition node_index : M (content * list menu_option) :=
  prototype <- _get_menu_prototype ;;
  let text := "|c --- Prototype wizard --- |n" in
  let helptxt := "|c- $protfuncs |n" +:+ newline +:+ _format_protfuncs ext in
  first <- lift (result_bind
    (_format_option_value "Key" (bool_decide (prototype !! "prototype_key" = None))
       prototype None) (fun value =>
    Ok {| opt_key := [];
          opt_desc := Some ("|WPrototype-Key|n|n" +:+ value);
          opt_goto := GotoNode "node_prototype_key" |})) ;;
  fields <- lift (collect (index_field_option prototype)
    ["Prototype-parent"; "Typeclass"; "Key"; "Aliases"; "Attrs"; "Tags"; "Locks";
     "Permissions"; "Location"; "Home"; "Destination"]) ;;
  meta <- lift (collect (index_meta_option prototype) ["Desc"; "Tags"; "Locks"]) ;;
  let options := [first] ++ fields ++ meta ++
    [ {| opt_key := ["|wV|Walidate prototype"; "validate"; "v"]; opt_desc := None;
         opt_goto := GotoNode "node_validate_prototype" |};
      {| opt_key := ["|wSA|Wve prototype"; "save"; "sa"]; opt_desc := None;
         opt_goto := GotoNode "node_prototype_save" |};
      {| opt_key := ["|wSP|Wawn prototype"; "spawn"; "sp"]; opt_desc := None;
         opt_goto := GotoNode "node_prototype_spawn" |};
      {| opt_key := ["|wLO|Wad prototype"; "load"; "lo"]; opt_desc := None;
         opt_goto := GotoNode "node_prototype_load" |} ] in
  M_ret (TextHelp text helptxt, options).

(** menus.py, [_validate_prototype].  The module is Python 2: the name
    bound by [except ... as err] stays bound after the handler, so [err]
    is True after either exception. *)
Definition _validate_prototype (prototype : gmap string pyval) : bool * string :=
  let txt := prototype_to_str reg prototype in
  let errors := newline +:+ newline +:+
    "|g No validation errors found.|n (but errors could still happen at spawn-time)" in
  let err := false in
  let '(errors, err) :=
    match spawn_validate reg prototype with
    | Valid => (errors, err)
    | RuntimeError e => (newline +:+ newline +:+ "|r" +:+ e +:+ "|n", true)
    | RuntimeWarning e => (newline +:+ newline +:+ "|y" +:+ e +:+ "|n", true)
    end in
  let text := txt +:+ errors in
  (err, text).

(** menus.py, [node_validate_prototype] *)
Definition node_validate_prototype (kwargs : gmap string kwval)
    : M (content * list menu_option) :=
  prototype <- _get_menu_prototype ;;
  let prev_node := kw_node kwargs "back" (Some "index") in
  let '(_, text) := _validate_prototype prototype in
  let helptext :=
    "The validator checks if the prototype's various values are on the expected form." in
  let options := _wizard_options None prev_node None default_color in
  M_ret (TextHelp text helptext, options).

(** menus.py, [_all_prototype_parents] *)
Definition _all_prototype_parents : list pyval :=
  omap (fun prototype : gmap string pyval => prototype !! "prototype_key")
    (search_prototype ext None).

(** menus.py, [_prototype_parent_examine] *)
Definition _prototype_parent_examine (prototype_name : string) : M (option string) :=
  let prototypes := search_prototype ext (Some prototype_name) in
  match prototypes with
  | prototype :: _ =>
      let ret := prototype_to_str reg prototype in
      msg ret ;;;
      M_ret (Some ret)
  | [] =>
      msg "Prototype not registered." ;;;
      M_ret None
  end.

(** menus.py, [_prototype_parent_select]: the raw string handed to
    [_set_property] is the empty one. *)
Definition _prototype_parent_select (prototype : string) : M (option string) :=
  ret <- _set_property ext ""
           {[ "prop" := KStr "prototype_parent"; "processor" := KProc str_processor;
              "next_node" := KStr "node_typeclass" ]} ;;
  msg ("Selected prototype |y" +:+ prototype +:+ "|n.") ;;;
  M_ret ret.

(** menus.py, [node_prototype_parent], the function under the
    [list_node] decorator.  The parent is looked up under 'prototype'.
    The text for a parent that is found has two fields and is formatted
    with one argument, whatever [prototype_to_str] makes of the list it
    is given. *)
Definition node_prototype_parent : M (content * list menu_option) :=
  prototype <- _get_menu_prototype ;;
  let prot_parent_key := default PNone (prototype !! "prototype") in
  let text := "The |cPrototype Parent|n allows you to |winherit|n prototype values"
              +:+ newline +:+ newline +:+ "{current}" in
  let helptext := "Prototypes can inherit from one another." in
  text <-
    lift (if truthy prot_parent_key then
            let prot_parent := search_prototype ext (Some (py_str ext prot_parent_key)) in
            match prot_parent with
            | _ :: _ =>
                result_bind (prototype_list_to_str reg prot_parent) (fun parent_str =>
                result_bind
                  (PyStr.format ("Current parent prototype is {}:" +:+ newline +:+ "{}")
                     [parent_str] [])
                  (fun current => PyStr.format text [] [("current", current)]))
            | [] =>
                result_bind
                  (PyStr.format
                     "Current parent prototype |r{prototype}|n does not appear to exist."
                     [py_str ext prot_parent_key] [])
                  (fun current => PyStr.format text [] [("current", current)])
            end
          else PyStr.format text [] [("current", "Parent prototype is not set")]) ;;
  let options := _wizard_options (Some "prototype_parent") (Some "prototype_key")
                   (Some "typeclass") "|W" in
  let options := options ++
    [ {| opt_key := ["_default"]; opt_desc := None;
         opt_goto := GotoCall F_prototype_parent_examine |} ] in
  M_ret (TextHelp text helptext, options).

(** menus.py, [_typeclass_examine]; [None] is the selection that
    leaves the listing. *)
Definition _typeclass_examine (typeclass_path : option string) : M string :=
  match typeclass_path with
  | None => M_ret "node_key"
  | Some typeclass_path =>
      let typeclass :=
        snd <$> List.find (fun entry => String.eqb (fst entry) typeclass_path)
                  (get_all_typeclasses reg) in
      let txt :=
        match typeclass with
        | Some doc =>
            let docstr := first_paragraph (PyStr.split "010" None doc) [] in
            let docstr := if negb (Nat.eqb (length docstr) 0)
                          then PyStr.join newline docstr else "<empty>" in
            "Typeclass |y" +:+ typeclass_path +:+ "|n; First paragraph of docstring:"
            +:+ newline +:+ newline +:+ docstr
        | None => "This is typeclass |yNone|n."
        end in
      msg txt ;;;
      M_ret txt
  end.

(** menus.py, [_typeclass_select] *)
Definition _typeclass_select (typeclass : string) : M (option string) :=
  ret <- _set_property ext typeclass
           {[ "prop" := KStr "typeclass"; "processor" := KProc str_processor;
              "next_node" := KStr "node_key" ]} ;;
  msg ("Selected typeclass |y" +:+ typeclass +:+ "|n.") ;;;
  M_ret ret.

(** menus.py, [_examine_attr] *)
Definition _examine_attr (selection : string) : M string :=
  prot <- _get_menu_prototype ;;
  attrs <- lift (match prot !! "attrs" with
                 | Some attrs => Ok attrs
                 | None => Raise (KeyError "attrs")
                 end) ;;
  names <- lift (result_bind (py_iter attrs) firsts) ;;
  ind <- lift (py_index (PStr selection) names) ;;
  items <- lift (py_iter attrs) ;;
  match items !! ind with
  | Some attr_tuple => lift (_display_attribute ext attr_tuple)
  | None => raise (IndexError "list index out of range")
  end.

(** menus.py, [node_tags]; the help text names its field
    [{tag_category}] and is formatted with a positional argument. *)
Definition node_tags : M (content * list menu_option) :=
  current <- _get_current_value ext "tags" ;;
  let text := with_current
    "|cTags|n are used to group objects so they can quickly be found later."
    current in
  helptext <- lift (PyStr.format
    ("All objects created with this prototype will automatically get assigned a tag"
     +:+ " named the same as the |cprototype_key|n and with a category {tag_category}.")
    [prototype_tag_category reg] []) ;;
  let options := _wizard_options (Some "tags") (Some "attrs") (Some "locks")
                   default_color in
  M_ret (TextHelp text helptext, options).

(** menus.py, [_prototype_load_select].  What is stored is the dict the
    search answers, not a copy of it: the fields the menu writes later
    are written into that dict, and a search made after such a write may
    answer with them.  A search made at a later time is therefore a
    search of the services as they are then. *)
Definition _prototype_load_select (prototype_key : string) : M (option string) :=
  let matches := search_prototype ext (Some prototype_key) in
  match matches with
  | prototype :: _ =>
      _set_menu_prototype prototype ;;;
      msg ("|gLoaded prototype '" +:+ prototype_key +:+ "'.") ;;;
      M_ret (Some "node_index")
  | [] =>
      msg ("|rFailed to load prototype '" +:+ prototype_key +:+ "'.") ;;;
      M_ret None
  end.

(** The three options of the save node that ask for a yes or a no;
    [yes_key] and [no_key] are the two ways the node writes them. *)
Definition yes_no_options (yes_key no_key : string) (yes : goto_t) (default_goto : goto_t)
    : list menu_option :=
  [ {| opt_key := [yes_key; "yes"; "y"]; opt_desc := None; opt_goto := yes |};
    {| opt_key := [no_key; "n"]; opt_desc := None; opt_goto := GotoNode "node_spawn" |};
    {| opt_key := ["_default"]; opt_desc := None; opt_goto := default_goto |} ].

(** menus.py, [node_prototype_save] *)
Definition node_prototype_save (kwargs : gmap string kwval)
    : Sess (content * list menu_option) :=
  let prototype := default KNone (kwargs !! "prototype") in
  let accept_save := kw_bool kwargs "accept_save" false in
  let given :=
    match prototype with
    | KDict d => negb (dict_empty d)
    | _ => false
    end in
  if accept_save && given then
    match prototype with
    | KDict d =>
        let prototype_key := default PNone (d !! "prototype_key") in
        save_prototype d ;;;;
        let spawned_objects := search_objects_with_prototype reg prototype_key in
        let nspawned := length spawned_objects in
        if negb (Nat.eqb nspawned 0) then
          S_ret (Text ("Do you want to update " +:+ pretty nspawned +:+
                       " object(s) already using this prototype?"),
                 yes_no_options "|wY|Wes|n" "[|wN|Wo|n]"
                   (GotoNodeKw "node_update_objects"
                      {[ "accept_update" := KBool true;
                         "objects" := KObjs spawned_objects;
                         "prototype" := prototype;
                         "back_node" := KStr "node_prototype_save" ]})
                   (GotoNode "node_spawn"))
        else
          S_ret (Text "|gPrototype saved.|n",
                 [ {| opt_key := ["_default"]; opt_desc := None;
                      opt_goto := GotoNode "node_spawn" |} ])
    | _ => S_raise (TypeError "a prototype dict is needed")
    end
  else
    prototype <<- on_caller _get_menu_prototype ;;
    let '(error, text) := _validate_prototype prototype in
    let text := [text] in
    if error then
      let text := text ++
        ["Validation errors were found. They need to be corrected before this prototype "
         +:+ "can be saved (or used to spawn)."] in
      let options := _wizard_options (Some "prototype_save") (Some "prototype_locks")
                       (Some "index") default_color in
      S_ret (Text (PyStr.join newline text), options)
    else
      match prototype !! "prototype_key" with
      | None => S_raise (KeyError "prototype_key")
      | Some prototype_key =>
          question <<-
            on_caller (lift
              (if negb (Nat.eqb (length (search_prototype ext
                                           (Some (py_str ext prototype_key)))) 0) then
                 PyStr.format
                   "Do you want to save/overwrite the existing prototype '{name}'?"
                   [] [("name", py_str ext prototype_key)]
               else
                 PyStr.format "Do you want to save the prototype as '{name}'?"
                   [py_str ext prototype_key] [])) ;;
          let text := text ++ [question] in
          let again := GotoNodeKw "node_prototype_save"
                         {[ "accept" := KBool true; "prototype" := KDict prototype ]} in
          let helptext :=
            "Saving the prototype makes it available for use later." in
          S_ret (LinesHelp text helptext,
                 yes_no_options "[|wY|Wes|n]" "|wN|Wo|n" again again)
      end.

(** menus.py, [node_prototype_spawn]; the objects already spawned go
    into the update option under the key 'opjects'. *)
Definition node_prototype_spawn : M (content * list menu_option) :=
  prototype <- _get_menu_prototype ;;
  let '(error, text) := _validate_prototype prototype in
  let text := [text] in
  if error then
    let text := text ++
      ["|rPrototype validation failed. Correct the errors before spawning.|n"] in
    let options := _wizard_options (Some "prototype_spawn") (Some "prototype_locks")
                     (Some "index") default_color in
    M_ret (Text (PyStr.join newline text), options)
  else
    let options := [] in
    match prototype !! "prototype_key" with
    | None => raise (KeyError "prototype_key")
    | Some prototype_key =>
        let location := default PNone (prototype !! "location") in
        let options :=
          if truthy location then
            options ++
            [ {| opt_key := [];
                 opt_desc := Some ("Spawn in prototype's defined location ("
                                   +:+ py_str ext location +:+ ")");
                 opt_goto := GotoCallKw F_spawn {[ "prototype" := KDict prototype ]} |} ]
          else options in
        let caller_loc := caller_location reg in
        let differs :=
          negb (match location, caller_loc with
                | PNone, None => true
                | _, _ => false
                end) in
        let loc_kw := match caller_loc with Some o => KObj o | None => KNone end in
        let loc_name := match caller_loc with Some o => obj_key o | None => "None" end in
        let options :=
          if differs then
            options ++
            [ {| opt_key := [];
                 opt_desc := Some ("Spawn in " +:+ obj_key (caller_obj reg)
                                   +:+ "'s location (" +:+ loc_name +:+ ")");
                 opt_goto := GotoCallKw F_spawn
                               {[ "prototype" := KDict prototype;
                                  "location" := loc_kw ]} |} ]
          else options in
        let options :=
          if differs && negb (caller_is_its_location reg) then
            options ++
            [ {| opt_key := [];
                 opt_desc := Some ("Spawn in " +:+ obj_key (caller_obj reg)
                                   +:+ "'s inventory");
                 opt_goto := GotoCallKw F_spawn
                               {[ "prototype" := KDict prototype;
                                  "location" := KObj (caller_obj reg) ]} |} ]
          else options in
        let spawned_objects := search_objects_with_prototype reg prototype_key in
        let nspawned := length spawned_objects in
        let options :=
          if negb (Nat.eqb (length spawned_objects) 0) then
            options ++
            [ {| opt_key := [];
                 opt_desc := Some ("Update " +:+ pretty nspawned +:+
                                   " existing objects with this prototype");
                 opt_goto := GotoNodeKw "node_update_objects"
                               {[ "prototype" := KDict prototype;
                                  "opjects" := KObjs spawned_objects;
                                  "back_node" := KStr "node_prototype_spawn" ]} |} ]
          else options in
        let options := options ++
          _wizard_options (Some "prototype_spawn") (Some "prototype_save")
            (Some "index") default_color in
        let helptext :=
          "Spawning is the act of instantiating a prototype into an actual object." in
        M_ret (LinesHelp text helptext, options)
    end.

End More.

(** ** Notions used in the statements about the index and the listings *)

(** The names under which the index looks the values up. *)
Definition index_keys : list string :=
  ["Key"; "Prototype-parent"; "Typeclass"; "Aliases"; "Attrs"; "Tags"; "Locks";
   "Permissions"; "Location"; "Home"; "Destination"; "Desc"].

(** A prototype that holds none of those names. *)
Definition no_index_key (prototype : gmap string pyval) : bool :=
  forallb (fun key => bool_decide (prototype !! key = None)) index_keys.

(** Which of the fields that make the index mark an option as required
    a prototype holds. *)
Definition required_flags (prototype : gmap string pyval) : bool * bool * bool :=
  (bool_decide (prototype !! "prototype_key" = None),
   bool_decide (prototype !! "prototype_parent" = None),
   bool_decide (prototype !! "typeclass" = None)).

(** The mark [_format_option_value] gives a value that is missing. *)
Definition missing_mark (ext : services) (required : bool)
    (cropper : option (string -> string)) : string :=
  if required then
    " (" +:+ match cropper with
             | Some cropper => cropper "|rrequired"
             | None => crop ext "|rrequired" _MENU_CROP_WIDTH
             end +:+ "|n)"
  else "".

(** The node names a list of options leads to, when every option names
    a node. *)
Definition option_targets (options : list menu_option) : list (option string) :=
  (fun o => goto_node (opt_goto o)) <$> options.




Lemma node_given_Some (s : string) : s <> "" -> node_given (Some s) = true.
Proof.
  intros H. unfold node_given. destruct (String.eqb_spec s ""); [contradiction | reflexivity].
Qed.

(** C6, counterexample: the prototype-key node declares "index" as its
    previous node, and the helper then leaves the Index option out. *)
Lemma wizard_options_prototype_key_has_no_index : ~ four_options_for_all_triples.
Proof.
  intros H.
  specialize (H "prototype_key" "index" "prototype_parent").
  assert (Hlen : length (_wizard_options (Some "prototype_key") (Some "index")
                           (Some "prototype_parent") default_color) = 4%nat).
  { rewrite H; [reflexivity | discriminate | discriminate]. }
  vm_compute in Hlen. discriminate.
Qed.

(** C6, amended: when previous and next are non-empty and neither is
    "index", and current is non-empty, the helper returns exactly Back,
    Forward, Index and Validate, each determined by the three node names
    (and the colour). *)
Theorem wizard_options_four (curr prev next color : string) :
  curr <> "" -> prev <> "" -> next <> "" -> prev <> "index" -> next <> "index" ->
  _wizard_options (Some curr) (Some prev) (Some next) color =
    [back_option color prev; forward_option color next;
     index_option; validate_option curr].
Proof.
  intros Hc Hp Hn Hpi Hni. unfold _wizard_options.
  rewrite !node_given_Some by assumption.
  rewrite !bool_decide_eq_false_2 by congruence.
  reflexivity.
Qed.

Lemma wizard_options_four_witness :
  _wizard_options (Some "key") (Some "typeclass") (Some "aliases") "|W" =
    [back_option "|W" "typeclass"; forward_option "|W" "aliases";
     index_option; validate_option "key"].
Proof.
  apply wizard_options_four; discriminate.
Defined.

(** ** The field edit protocol: [_set_property] *)

(** Unfolds the monad of the handlers. *)
Ltac run_M :=
  unfold M_bind, M_ret, modify, msg, get_world, raise, lift; simpl.

Lemma dict_empty_true {V} (d : gmap string V) : dict_empty d = true -> d = ∅.
Proof.
  unfold dict_empty. intros H. apply bool_decide_eq_true_1 in H.
  by apply map_size_empty_iff.
Qed.

(** What [_get_menu_prototype] returns is the Template, and it leaves the
    Template as it is. *)
Lemma get_menu_prototype_spec (w : world) :
  exists w', _get_menu_prototype w = (Ok (template w), w') /\
             olc_prototype w' = Some (template w) /\
             outbox w' = outbox w /\ heap w' = heap w /\
             bulk_updates w' = bulk_updates w.
Proof.
  unfold _get_menu_prototype, template. run_M.
  destruct (olc_prototype w) as [p|] eqn:Hp; simpl.
  - destruct (dict_empty p) eqn:He; simpl.
    + apply dict_empty_true in He. subst p. eauto 10.
    + exists w. rewrite Hp. eauto 10.
  - eauto 10.
Qed.

Lemma set_prototype_value_spec (w : world) (field : string) (value : pyval) :
  exists w', _set_prototype_value field value w = (Ok (<[field := value]> (template w)), w') /\
             olc_prototype w' = Some (<[field := value]> (template w)) /\
             outbox w' = outbox w /\ heap w' = heap w /\
             bulk_updates w' = bulk_updates w.
Proof.
  destruct (get_menu_prototype_spec w) as (w0 & Hrun & _ & Ho & Hh & Hb).
  unfold _set_prototype_value. unfold M_bind at 1. rewrite Hrun. run_M.
  eauto 10.
Qed.

Section SetProperty.

Context (ext : services).

(** A value that is true is written under [prop]; the node to go to
    is [next_node]. *)
Lemma set_property_stores (w : world) (raw_string : string)
    (kwargs : gmap string kwval) (value : pyval) :
  processed kwargs raw_string = Ok value ->
  truthy value = true ->
  exists w',
    _set_property ext raw_string kwargs w =
      (Ok (kw_node kwargs "next_node" (Some "node_index")), w') /\
    olc_prototype w' =
      Some (<[kw_str kwargs "prop" "prototype_key" := value]> (template w)).
Proof.
  intros Hproc Htrue.
  destruct (set_prototype_value_spec w (kw_str kwargs "prop" "prototype_key") value)
    as (w0 & Hrun & Hp & _).
  unfold processed in Hproc. unfold _set_property.
  destruct (kwargs !! "processor") as [[| | |f| | | |]|];
    try (injection Hproc as <-); try rewrite Hproc;
    rewrite Htrue; simpl; unfold M_bind at 1; rewrite Hrun; run_M;
    destruct (protfunc_parser_testing ext _) as [err parsed];
    eexists; (split; [reflexivity | simpl; reflexivity]).
Qed.

(** A value that is false is skipped: nothing is written and nothing
    is said. *)
Lemma set_property_skips (w : world) (raw_string : string)
    (kwargs : gmap string kwval) (value : pyval) :
  processed kwargs raw_string = Ok value ->
  truthy value = false ->
  _set_property ext raw_string kwargs w =
    (Ok (kw_node kwargs "next_node" (Some "node_index")), w).
Proof.
  intros Hproc Hfalse. unfold processed in Hproc. unfold _set_property.
  destruct (kwargs !! "processor") as [[| | |f| | | |]|];
    try (injection Hproc as <-); try rewrite Hproc;
    rewrite Hfalse; reflexivity.
Qed.

(** C7: when the supplied processor raises on the raw input,
    [_set_property] returns None, so that the current node is run again,
    tells the caller why, in a message that ends with the text of the
    exception, and changes nothing else: the prototype dict and every
    other attribute of the menu are as before. *)
Theorem set_property_processor_failure (w : world) (raw_string : string)
    (kwargs : gmap string kwval) (f : string -> result pyval) (err : pyexn) :
  kwargs !! "processor" = Some (KProc f) ->
  f raw_string = Raise err ->
  _set_property ext raw_string kwargs w =
    (Ok None,
     set_outbox
       (outbox w ++
          ["Could not set " +:+
           PyStr.capitalize (PyStr.replace "_" "-" (kw_str kwargs "prop" "prototype_key"))
           +:+ " to " +:+ raw_string +:+ " (" +:+ exn_str err +:+ ")"]) w)
  /\ olc_prototype (snd (_set_property ext raw_string kwargs w)) = olc_prototype w.
Proof.
  intros Hproc Hraise. unfold _set_property. rewrite Hproc, Hraise.
  split; reflexivity.
Qed.

(** C8, amended: when the processor succeeds, calling [_set_property]
    twice with the same input leaves the same Template as calling it
    once.  A processed value that is not empty is written under [prop] by
    each call, and no other field changes; an empty processed value is
    skipped, and the call changes nothing at all. *)
Theorem set_property_idempotent (w : world) (raw_string : string)
    (kwargs : gmap string kwval) (value : pyval) :
  processed kwargs raw_string = Ok value ->
  let prop := kw_str kwargs "prop" "prototype_key" in
  let w1 := snd (_set_property ext raw_string kwargs w) in
  let w2 := snd (_set_property ext raw_string kwargs w1) in
  template w2 = template w1 /\
  (truthy value = true ->
     template w1 = <[prop := value]> (template w) /\
     template w2 = <[prop := value]> (template w1) /\
     forall field, field <> prop ->
       template w1 !! field = template w !! field /\
       template w2 !! field = template w1 !! field) /\
  (truthy value = false -> w1 = w /\ w2 = w1).
Proof.
  intros Hproc prop w1 w2.
  destruct (truthy value) eqn:Ht.
  - destruct (set_property_stores w raw_string kwargs value Hproc Ht)
      as (wa & Hrun1 & Hp1).
    assert (Hw1 : w1 = wa) by (subst w1; rewrite Hrun1; reflexivity).
    destruct (set_property_stores w1 raw_string kwargs value Hproc Ht)
      as (wb & Hrun2 & Hp2).
    assert (Hw2 : w2 = wb) by (subst w2; rewrite Hrun2; reflexivity).
    assert (Ht1 : template w1 = <[prop := value]> (template w)).
    { unfold template at 1. rewrite Hw1, Hp1. reflexivity. }
    assert (Ht2 : template w2 = <[prop := value]> (template w1)).
    { unfold template at 1. rewrite Hw2, Hp2. reflexivity. }
    split; [| split; [| discriminate]].
    + rewrite Ht2, Ht1. apply insert_insert_eq.
    + intros _. split; [exact Ht1 | split; [exact Ht2 |]].
      intros field Hne. rewrite Ht2, Ht1.
      rewrite !lookup_insert_ne by congruence. split; reflexivity.
  - assert (Hw1 : w1 = w).
    { subst w1. rewrite (set_property_skips w raw_string kwargs value Hproc Ht).
      reflexivity. }
    assert (Hw2 : w2 = w1).
    { subst w2. rewrite Hw1.
      rewrite (set_property_skips w raw_string kwargs value Hproc Ht).
      reflexivity. }
    split; [by rewrite Hw2 | split; [discriminate | auto]].
Qed.

End SetProperty.

(** C7, witness: the aliases processor replaced by one that refuses its
    input. *)
Lemma set_property_processor_failure_witness :
  _set_property plain_services "a,b"
    {[ "prop" := KStr "aliases";
       "processor" := KProc (fun _ => Raise (ValueError "not splittable")) ]}
    fresh_world =
    (Ok None,
     set_outbox ["Could not set Aliases to a,b (not splittable)"] fresh_world)
  /\ olc_prototype
       (snd (_set_property plain_services "a,b"
          {[ "prop" := KStr "aliases";
             "processor" := KProc (fun _ => Raise (ValueError "not splittable")) ]}
          fresh_world)) = None.
Proof.
  exact (set_property_processor_failure plain_services fresh_world "a,b"
           {[ "prop" := KStr "aliases";
              "processor" := KProc (fun _ => Raise (ValueError "not splittable")) ]}
           (fun _ => Raise (ValueError "not splittable")) (ValueError "not splittable")
           eq_refl eq_refl).
Defined.

(** C8, counterexample: an empty input with no processor is a success of
    the (missing) processor, and no field is written. *)
Lemma set_property_empty_input_writes_nothing :
  ~ set_property_always_writes_prop plain_services.
Proof.
  intros H.
  assert (Hproc : processed {[ "prop" := KStr "key" ]} "" = Ok (PStr ""))
    by (vm_compute; reflexivity).
  destruct (H fresh_world "" {[ "prop" := KStr "key" ]} (PStr "") Hproc)
    as (_ & Hw & _).
  apply (f_equal (fun m => m !! "key")) in Hw.
  vm_compute in Hw. discriminate.
Qed.

(** C8, witness: the key "goblin" typed twice at the key node. *)
Lemma set_property_idempotent_witness :
  let kwargs : gmap string kwval :=
    {[ "prop" := KStr "key"; "processor" := KProc (fun s => Ok (PStr (PyStr.strip s)));
       "next_node" := KStr "node_aliases" ]} in
  let prop := kw_str kwargs "prop" "prototype_key" in
  let w1 := snd (_set_property plain_services " goblin " kwargs fresh_world) in
  let w2 := snd (_set_property plain_services " goblin " kwargs w1) in
  template w2 = template w1 /\
  (truthy (PStr "goblin") = true ->
     template w1 = <[prop := PStr "goblin"]> (template fresh_world) /\
     template w2 = <[prop := PStr "goblin"]> (template w1) /\
     forall field, field <> prop ->
       template w1 !! field = template fresh_world !! field /\
       template w2 !! field = template w1 !! field) /\
  (truthy (PStr "goblin") = false -> w1 = fresh_world /\ w2 = w1).
Proof.
  intros kwargs.
  assert (Hproc : processed kwargs " goblin " = Ok (PStr "goblin"))
    by (vm_compute; reflexivity).
  exact (set_property_idempotent plain_services fresh_world " goblin "
           kwargs (PStr "goblin") Hproc).
Defined.

(** ** The prototype-key node: [_check_prototype_key] *)

Section CheckKey.

Context (ext : services).

Lemma accept_processed (key : string) : processed accept_kwargs key = Ok (PStr key).
Proof. reflexivity. Qed.

Lemma truthy_PStr (s : string) : truthy (PStr s) = negb (String.eqb s "").
Proof. reflexivity. Qed.

(** An accepted key goes to [_set_property], lower-cased and stripped. *)
Lemma check_prototype_key_accepted (w : world) (raw_string : string) :
  key_accepted ext w raw_string ->
  _check_prototype_key ext raw_string w =
    _set_property ext (PyStr.lower (PyStr.strip raw_string)) accept_kwargs w.
Proof.
  unfold key_accepted, _check_prototype_key. intros Hacc. run_M.
  destruct (search_prototype ext (Some raw_string)) as [|old rest]; [reflexivity |].
  destruct Hacc as (locks & Hlocks & Hcheck & Hnew).
  rewrite Hlocks, Hcheck. simpl.
  unfold _is_new_prototype. rewrite Hnew. reflexivity.
Qed.

(** [_set_property] never searches the saved prototypes. *)
Lemma set_property_with_search search (raw_string : string)
    (kwargs : gmap string kwval) (w : world) :
  _set_property (with_search search ext) raw_string kwargs w =
  _set_property ext raw_string kwargs w.
Proof. reflexivity. Qed.

(** C10: for a key accepted at the prototype-key node, the handler goes
    on to the prototype-parent node; the value stored under
    "prototype_key" is the input stripped and lower-cased, and an input
    that is empty after stripping changes nothing.  The search for an
    existing prototype is made with the raw input: the handler's outcome
    depends on the search only through its answer for that raw string,
    and it does depend on it: when that answer holds a prototype the
    caller may not edit the key is turned away and nothing is stored, and
    when it holds one the caller may edit while the menu is marked new,
    that prototype is loaded instead of the key being stored, whatever
    the search answers for the stripped and lower-cased key. *)
Theorem check_prototype_key_normalises (w : world) (raw_string : string) :
  let key := PyStr.lower (PyStr.strip raw_string) in
  let run := _check_prototype_key ext raw_string w in
  (key_accepted ext w raw_string ->
     fst run = Ok (Some "node_prototype_parent") /\
     (key <> "" ->
        template (snd run) = <["prototype_key" := PStr key]> (template w)) /\
     (key = "" -> snd run = w)) /\
  (forall search,
     search (Some raw_string) = search_prototype ext (Some raw_string) ->
     _check_prototype_key (with_search search ext) raw_string w = run) /\
  (forall (old_prototype : gmap string pyval) (rest : list (gmap string pyval))
          (locks : pyval),
     search_prototype ext (Some raw_string) = old_prototype :: rest ->
     old_prototype !! "prototype_locks" = Some locks ->
     (check_lockstring ext locks = false ->
      run = (Ok (Some "node_prototype_key"),
             set_outbox (outbox w ++
               ["Prototype '" +:+ key +:+
                "' already exists and you don't " +:+ "have permission to edit it."]) w)) /\
     (check_lockstring ext locks = true ->
      _is_new_prototype w = true ->
      run = (Ok (Some "node_index"),
             set_outbox (outbox w ++ ["Prototype already exists. Reloading."])
               (set_olc_prototype (Some old_prototype) (set_olc_new None w))))).
Proof.
  intros key run. split; [| split].
  - intros Hacc. subst run. rewrite (check_prototype_key_accepted _ _ Hacc).
    fold key. pose proof (accept_processed key) as Hproc.
    destruct (String.eqb_spec key "") as [He | Hne].
    + assert (Ht : truthy (PStr key) = false) by (rewrite He; reflexivity).
      rewrite (set_property_skips ext w key accept_kwargs (PStr key) Hproc Ht).
      split; [reflexivity | split; [congruence | reflexivity]].
    + assert (Ht : truthy (PStr key) = true).
      { rewrite truthy_PStr. destruct (String.eqb_spec key ""); [contradiction | reflexivity]. }
      destruct (set_property_stores ext w key accept_kwargs (PStr key) Hproc Ht)
        as (w' & Hrun & Hp).
      rewrite Hrun. simpl. split; [reflexivity | split; [| contradiction]].
      intros _. unfold template at 1. rewrite Hp. reflexivity.
  - intros search Hsame. subst run. unfold _check_prototype_key. run_M.
    rewrite Hsame.
    destruct (search_prototype ext (Some raw_string)) as [|old rest];
      [apply set_property_with_search |].
    destruct (old !! "prototype_locks") as [locks|]; [| reflexivity].
    destruct (check_lockstring ext locks); simpl; [| reflexivity].
    destruct (_is_new_prototype w); [reflexivity |].
    apply set_property_with_search.
  - intros old_prototype rest locks Hsearch Hlocks. subst run key. split.
    + intros Hcheck. unfold _check_prototype_key. run_M.
      rewrite Hsearch, Hlocks, Hcheck. reflexivity.
    + intros Hcheck Hnew. unfold _check_prototype_key. run_M.
      rewrite Hsearch, Hlocks, Hcheck, Hnew. reflexivity.
Qed.

End CheckKey.

(** C10, witness: "goblin" is saved and closed to the caller, and the
    search tells cases apart.  " Goblin " typed at the prototype-key node of
    a wizard just started finds nothing and is stored as "goblin"; "goblin"
    typed there is turned away. *)
Lemma check_prototype_key_normalises_witness :
  let saved : gmap string pyval :=
    {[ "prototype_key" := PStr "goblin"; "prototype_locks" := PStr "edit:false()" ]} in
  let ext := with_search (fun key => if bool_decide (key = Some "goblin")
                                     then [saved] else []) locked_services in
  let key := PyStr.lower (PyStr.strip " Goblin ") in
  let run := _check_prototype_key ext " Goblin " fresh_world in
  key_accepted ext fresh_world " Goblin " /\
  key = "goblin" /\
  fst run = Ok (Some "node_prototype_parent") /\
  (key <> "" ->
     template (snd run) = <["prototype_key" := PStr key]> (template fresh_world)) /\
  _check_prototype_key ext "goblin" fresh_world =
    (Ok (Some "node_prototype_key"),
     set_outbox (outbox fresh_world ++
       ["Prototype '" +:+ PyStr.lower (PyStr.strip "goblin") +:+
        "' already exists and you don't " +:+ "have permission to edit it."]) fresh_world).
Proof.
  intros saved ext key run.
  assert (Hacc : key_accepted ext fresh_world " Goblin ") by exact I.
  destruct (check_prototype_key_normalises ext fresh_world " Goblin ")
    as (Hstore & _ & _).
  destruct (check_prototype_key_normalises ext fresh_world "goblin")
    as (_ & _ & Hfound).
  destruct (Hstore Hacc) as (Hgo & Hkey & _).
  destruct (Hfound saved [] (PStr "edit:false()") eq_refl eq_refl) as [Hdenied _].
  split; [exact Hacc | split; [reflexivity | split; [exact Hgo | split; [exact Hkey |]]]].
  apply Hdenied. reflexivity.
Defined.

(** The search sees the raw input only: with a prototype saved as
    "goblin" and a search that tells cases apart, typing "Goblin" finds
    nothing, and "goblin" is stored as the key of a new prototype. *)
Example check_prototype_key_misses_saved_goblin :
  let saved : gmap string pyval :=
    {[ "prototype_key" := PStr "goblin"; "prototype_locks" := PStr "edit:false()" ]} in
  let ext := with_search (fun key => if bool_decide (key = Some "goblin")
                                     then [saved] else []) plain_services in
  let run := _check_prototype_key ext "Goblin" fresh_world in
  fst run = Ok (Some "node_prototype_parent") /\
  template (snd run) !! "prototype_key" = Some (PStr "goblin").
Proof. vm_compute. split; reflexivity. Qed.

(** ** Handlers that raise: [node_destination], [_add_attr], [_add_tag] *)

Lemma py_index_absent (x : pyval) (names : list pyval) :
  Forall (fun y => pyval_eqb y x = false) names ->
  py_index x names = Raise (ValueError "value is not in list").
Proof.
  induction 1 as [|y names Hy _ IH]; simpl; [reflexivity |].
  rewrite Hy, IH. reflexivity.
Qed.

Section Raising.

Context (ext : services).

(** [node_destination] asks a name the module does not bind. *)
Lemma node_destination_raises (w : world) :
  node_destination ext w = (Raise (NameError "_get_current_node"), w).
Proof. reflexivity. Qed.

(** Without a "=" the local [value] of [_add_attr] is never bound. *)
Lemma add_attr_without_equals (w : world) (attr_string : string)
    (kwargs : gmap string kwval) :
  PyStr.contains "=" attr_string = false ->
  _add_attr ext attr_string kwargs w = (Raise (UnboundLocalError "value"), w).
Proof.
  intros Hno. unfold _add_attr, add_attr_locals. rewrite Hno. reflexivity.
Qed.

(** Editing a tag that is not in the list: [list.index] raises a
    ValueError, which the handler does not catch. *)
Lemma edit_tag_absent (w : world) (old_tag new_tag : string)
    (l names : list pyval) :
  fst (fst (add_tag_locals new_tag)) <> "" ->
  old_tag <> "" ->
  template w !! "tags" = Some (PList l) ->
  firsts l = Ok names ->
  Forall (fun y => pyval_eqb y (PStr old_tag) = false) names ->
  fst (_edit_tag ext old_tag new_tag w) = Raise (ValueError "value is not in list").
Proof.
  intros Htag Hold Htags Hfirsts Habsent.
  unfold _edit_tag, _add_tag.
  destruct (add_tag_locals new_tag) as [[tag category] data]. simpl in Htag.
  destruct (String.eqb_spec tag "") as [|_]; [contradiction |]. simpl.
  destruct (get_menu_prototype_spec w) as (w0 & Hrun & _).
  unfold M_bind at 1. unfold M_bind at 1. rewrite Hrun.
  rewrite Htags. rewrite lookup_singleton_eq. cbn [default from_option id].
  unfold M_bind at 1. unfold get_world at 1. cbn [kw_truthy].
  destruct (String.eqb_spec old_tag "") as [|_]; [contradiction |]. cbn [negb].
  unfold M_bind at 1. unfold lift, add_tag_edit. simpl.
  rewrite Hfirsts. simpl. rewrite (py_index_absent _ _ Habsent). reflexivity.
Qed.

(** C1, on the three handlers it names: none of them keeps its
    exception inside.  [node_destination] raises a NameError for every
    caller; [_add_attr] raises an UnboundLocalError for every input
    without a "="; [_edit_tag], that is [_add_tag] with the "edit"
    keyword, raises a ValueError when the old tag is not in the list. *)
Theorem named_handlers_raise (w : world) :
  fst (node_destination ext w) = Raise (NameError "_get_current_node") /\
  (forall (attr_string : string) (kwargs : gmap string kwval),
     PyStr.contains "=" attr_string = false ->
     fst (_add_attr ext attr_string kwargs w) = Raise (UnboundLocalError "value")) /\
  (forall (old_tag new_tag : string) (l names : list pyval),
     fst (fst (add_tag_locals new_tag)) <> "" ->
     old_tag <> "" ->
     template w !! "tags" = Some (PList l) ->
     firsts l = Ok names ->
     Forall (fun y => pyval_eqb y (PStr old_tag) = false) names ->
     fst (_edit_tag ext old_tag new_tag w) = Raise (ValueError "value is not in list")).
Proof.
  split; [| split].
  - rewrite node_destination_raises. reflexivity.
  - intros attr_string kwargs Hno. rewrite add_attr_without_equals by assumption.
    reflexivity.
  - apply edit_tag_absent.
Qed.

End Raising.

(** A menu whose prototype holds the one tag "orc". *)
Lemma orc_tags :
  template (set_olc_prototype
              (Some {[ "tags" := PList [PTuple [PStr "orc"; PNone; PStr ""]] ]}) fresh_world)
    !! "tags" = Some (PList [PTuple [PStr "orc"; PNone; PStr ""]]).
Proof. reflexivity. Qed.

(** C1, witness: the attribute input "str", and the tag "goblin" edited
    to "troll" in a list that holds "orc" only. *)
Lemma named_handlers_raise_witness :
  let w := set_olc_prototype
             (Some {[ "tags" := PList [PTuple [PStr "orc"; PNone; PStr ""]] ]}) fresh_world in
  fst (node_destination plain_services w) = Raise (NameError "_get_current_node") /\
  fst (_add_attr plain_services "str" ∅ w) = Raise (UnboundLocalError "value") /\
  fst (_edit_tag plain_services "goblin" "troll" w) = Raise (ValueError "value is not in list").
Proof.
  intros w.
  destruct (named_handlers_raise plain_services w) as (Hdest & Hattr & Htag).
  split; [exact Hdest | split].
  - apply Hattr. reflexivity.
  - apply (Htag "goblin" "troll" [PTuple [PStr "orc"; PNone; PStr ""]] [PStr "orc"]).
    + discriminate.
    + discriminate.
    + exact orc_tags.
    + reflexivity.
    + repeat constructor.
Defined.

(** ** Adding and replacing attributes: [_add_attr] *)

Lemma firsts_length (l names : list pyval) :
  firsts l = Ok names -> length names = length l.
Proof.
  revert names. induction l as [|t l IH]; intros names H; simpl in H.
  - injection H as <-. reflexivity.
  - destruct (py_first t); [| discriminate]. simpl in H.
    destruct (firsts l) as [r|]; [| discriminate]. simpl in H.
    injection H as <-. simpl. f_equal. apply IH. reflexivity.
Qed.

Lemma firsts_insert (l names : list pyval) (i : nat) (t a : pyval) :
  firsts l = Ok names -> py_first t = Ok a ->
  firsts (<[i := t]> l) = Ok (<[i := a]> names).
Proof.
  revert names i. induction l as [|u l IH]; intros names i H Ht; simpl in H.
  - injection H as <-. reflexivity.
  - destruct (py_first u) as [b|] eqn:Hu; [| discriminate]. simpl in H.
    destruct (firsts l) as [r|] eqn:Hl; [| discriminate]. simpl in H.
    injection H as <-. destruct i as [|i]; simpl.
    + rewrite Ht, Hl. reflexivity.
    + rewrite Hu. simpl. rewrite (IH r i eq_refl Ht). reflexivity.
Qed.

Lemma firsts_app (l names : list pyval) (t a : pyval) :
  firsts l = Ok names -> py_first t = Ok a ->
  firsts (l ++ [t]) = Ok (names ++ [a]).
Proof.
  revert names. induction l as [|u l IH]; intros names H Ht; simpl in H.
  - injection H as <-. simpl. rewrite Ht. reflexivity.
  - destruct (py_first u) as [b|] eqn:Hu; [| discriminate]. simpl in H.
    destruct (firsts l) as [r|] eqn:Hl; [| discriminate]. simpl in H.
    injection H as <-. simpl. rewrite Hu. simpl.
    rewrite (IH r eq_refl Ht). reflexivity.
Qed.

Lemma py_index_lt (x : pyval) (names : list pyval) (i : nat) :
  py_index x names = Ok i -> i < length names.
Proof.
  revert i. induction names as [|y names IH]; intros i H; simpl in H; [discriminate |].
  destruct (pyval_eqb y x).
  - injection H as <-. simpl. lia.
  - destruct (py_index x names) as [j|]; [| discriminate]. simpl in H.
    injection H as <-. simpl. specialize (IH j eq_refl). lia.
Qed.

Lemma py_index_raises (x : pyval) (names : list pyval) (e : pyexn) :
  py_index x names = Raise e -> e = ValueError "value is not in list".
Proof.
  induction names as [|y names IH]; simpl; intros H.
  - congruence.
  - destruct (pyval_eqb y x); [discriminate |].
    destruct (py_index x names); [discriminate |]. simpl in H.
    injection H as <-. apply IH. reflexivity.
Qed.

(** The index found stays the index when the entry there is replaced
    by one of the same name. *)
Lemma py_index_insert (x : pyval) (names : list pyval) (i : nat) :
  pyval_eqb x x = true ->
  py_index x names = Ok i ->
  py_index x (<[i := x]> names) = Ok i.
Proof.
  intros Hx. revert i. induction names as [|y names IH]; intros i H; simpl in H;
    [discriminate |].
  destruct (pyval_eqb y x) eqn:Hy.
  - injection H as <-. simpl. rewrite Hx. reflexivity.
  - destruct (py_index x names) as [j|]; [| discriminate]. simpl in H.
    injection H as <-. simpl. rewrite Hy, (IH j eq_refl). reflexivity.
Qed.

(** A name that is not in the list is found at the end once appended. *)
Lemma py_index_app (x : pyval) (names : list pyval) (e : pyexn) :
  pyval_eqb x x = true ->
  py_index x names = Raise e ->
  py_index x (names ++ [x]) = Ok (length names).
Proof.
  intros Hx. induction names as [|y names IH]; simpl; intros H.
  - rewrite Hx. reflexivity.
  - destruct (pyval_eqb y x); [discriminate |].
    destruct (py_index x names); [discriminate |]. simpl in H.
    rewrite (IH H). reflexivity.
Qed.

Lemma pyval_eqb_PStr_refl (s : string) : pyval_eqb (PStr s) (PStr s) = true.
Proof. simpl. apply String.eqb_refl. Qed.

Section AddAttr.

Context (ext : services).

Lemma display_attribute_entry (name value : string) (category : pyval) (locks : string) :
  exists shown, _display_attribute ext (attr_entry name value category locks) = Ok shown.
Proof. eexists. reflexivity. Qed.

(** When the store succeeds, the entry sits in the attrs list, at the
    first index of its name. *)
Lemma add_attr_store_first (w w1 : world) (attrname : string) (attr_tuple : pyval)
    (kwargs : gmap string kwval) (text : string) :
  attrname <> "" ->
  py_first attr_tuple = Ok (PStr attrname) ->
  add_attr_store ext attrname attr_tuple kwargs w = (Ok text, w1) ->
  exists i l1, named_at w1 attrname i l1 /\ l1 !! i = Some attr_tuple.
Proof.
  intros Hname Hfirst Hrun. unfold add_attr_store in Hrun.
  destruct (String.eqb_spec attrname "") as [|_]; [contradiction |]. simpl in Hrun.
  destruct (get_menu_prototype_spec w) as (w0 & Hget & Hp0 & _).
  unfold M_bind at 1 in Hrun. rewrite Hget in Hrun.
  set (attrs := default (PList []) (template w !! "attrs")) in *.
  unfold M_bind at 1 in Hrun. unfold lift at 1 in Hrun.
  destruct (result_bind (py_iter attrs) firsts) as [names|] eqn:Hnames;
    [| discriminate].
  unfold M_bind at 1 in Hrun. unfold lift at 1 in Hrun.
  assert (Htemplate0 : template w0 = template w).
  { unfold template at 1. rewrite Hp0. reflexivity. }
  assert (Hstored : forall attrs',
    (let (r, w') := _set_prototype_value "attrs" attrs' w0 in
     match r with
     | Ok a =>
         (if kw_str kwargs "text" "" =? ""
          then
            shown <- lift (_display_attribute ext attr_tuple) ;;
            match kwargs !! "edit" with
            | Some _ => M_ret ("Edited " +:+ shown)
            | None => M_ret ("Added " +:+ shown)
            end
          else M_ret (kw_str kwargs "text" "")) w'
     | Raise e => (Raise e, w')
     end) = (Ok text, w1) ->
    template w1 !! "attrs" = Some attrs').
  { intros attrs' H.
    destruct (set_prototype_value_spec w0 "attrs" attrs') as (w' & Hset & Hp' & _).
    rewrite Hset in H.
    assert (Hw1 : w1 = w').
    { destruct (kw_str kwargs "text" "" =? "").
      - unfold M_bind, lift in H.
        destruct (_display_attribute ext attr_tuple); [| discriminate].
        destruct (kwargs !! "edit"); unfold M_ret in H; congruence.
      - unfold M_ret in H. congruence. }
    subst w1. unfold template. rewrite Hp'. simpl. apply lookup_insert_eq. }
  destruct (py_index (PStr attrname) names) as [ind|e] eqn:Hind.
  - destruct attrs as [|s|l|l] eqn:Hattrs; simpl in Hrun; try discriminate.
    simpl in Hnames.
    pose proof (py_index_lt _ _ _ Hind) as Hlt.
    rewrite (firsts_length _ _ Hnames) in Hlt.
    exists ind, (<[ind := attr_tuple]> l). split.
    + split; [apply Hstored; exact Hrun |].
      exists (<[ind := PStr attrname]> names). split.
      * apply firsts_insert; assumption.
      * apply py_index_insert; [apply pyval_eqb_PStr_refl | assumption].
    + apply list_lookup_insert_eq. exact Hlt.
  - pose proof (py_index_raises _ _ _ Hind) as ->.
    destruct attrs as [|s|l|l] eqn:Hattrs; simpl in Hrun; try discriminate.
    simpl in Hnames.
    exists (length l), (l ++ [attr_tuple]). split.
    + split; [apply Hstored; exact Hrun |].
      exists (names ++ [PStr attrname]). split.
      * apply firsts_app; assumption.
      * rewrite <- (firsts_length _ _ Hnames).
        eapply py_index_app; [apply pyval_eqb_PStr_refl | exact Hind].
    + rewrite lookup_app_r by lia. rewrite Nat.sub_diag. reflexivity.
Qed.

(** An entry whose name is in the list replaces the first entry of
    that name, where it is. *)
Lemma add_attr_store_replace (w : world) (attrname value : string) (category : pyval)
    (locks : string) (kwargs : gmap string kwval) (i : nat) (l : list pyval) :
  attrname <> "" ->
  named_at w attrname i l ->
  exists text w2,
    add_attr_store ext attrname (attr_entry attrname value category locks) kwargs w
      = (Ok text, w2) /\
    template w2 !! "attrs" =
      Some (PList (<[i := attr_entry attrname value category locks]> l)).
Proof.
  intros Hname (Hattrs & names & Hnames & Hind). unfold add_attr_store.
  destruct (String.eqb_spec attrname "") as [|_]; [contradiction |]. simpl.
  destruct (get_menu_prototype_spec w) as (w0 & Hget & Hp0 & _).
  unfold M_bind at 1. rewrite Hget. rewrite Hattrs. simpl.
  unfold M_bind at 1. unfold lift at 1. rewrite Hnames.
  unfold M_bind at 1. unfold lift at 1. rewrite Hind. simpl.
  set (attrs' := PList (<[i := attr_entry attrname value category locks]> l)).
  destruct (set_prototype_value_spec w0 "attrs" attrs') as (w' & Hset & Hp' & _).
  unfold M_bind at 1. rewrite Hset.
  assert (Hlook : template w' !! "attrs" = Some attrs').
  { unfold template. rewrite Hp'. simpl. apply lookup_insert_eq. }
  destruct (kw_str kwargs "text" "" =? "").
  - unfold M_bind, lift. simpl.
    destruct (kwargs !! "edit"); unfold M_ret; eauto.
  - unfold M_ret. eauto.
Qed.

(** C5, amended: "str;physical;perm(Builder)=12" is stored as the entry
    (str, "12", physical, "perm(builder)") -- the value as the string
    typed, the part before the "=" lower-cased as a whole, lock string
    included -- and adding "str=15" then puts the entry
    (str, "15", None, "") at the same index of the attrs list, every other
    entry staying where it is. *)
Theorem add_attr_scenario_lowercased : add_attr_scenario "perm(builder)" ext.
Proof.
  intros w r1 w1 Hrun. unfold _add_attr in Hrun.
  unfold M_bind at 1 in Hrun. unfold lift at 1 in Hrun.
  assert (Hlocals : add_attr_locals "str;physical;perm(Builder)=12" =
                    Ok ("str", Some "12", PStr "physical", "perm(builder)"))
    by (vm_compute; reflexivity).
  rewrite Hlocals in Hrun.
  unfold M_bind at 1 in Hrun.
  destruct (add_attr_store ext "str" _ ∅ w) as [[text|e] w'] eqn:Hstore;
    [| discriminate].
  assert (w1 = w') as -> by (unfold M_ret in Hrun; congruence).
  destruct (add_attr_store_first w w' "str"
              (attr_entry "str" "12" (PStr "physical") "perm(builder)") ∅ text)
    as (i & l1 & Hnamed & Hentry);
    [discriminate | reflexivity | exact Hstore |].
  exists i. split.
  - unfold attrs_list. destruct Hnamed as [-> _]. exact Hentry.
  - destruct (add_attr_store_replace w' "str" "15" PNone "" ∅ i l1)
      as (text2 & w2 & Hrun2 & Hattrs2); [discriminate | exact Hnamed |].
    exists (text2, [stay_option]), w2. split.
    + unfold _add_attr. unfold M_bind at 1. unfold lift at 1.
      assert (Hlocals2 : add_attr_locals "str=15" = Ok ("str", Some "15", PNone, ""))
        by (vm_compute; reflexivity).
      rewrite Hlocals2. unfold M_bind at 1.
      change (PTuple [PStr "str"; PStr "15"; PNone; PStr ""])
        with (attr_entry "str" "15" PNone "").
      rewrite Hrun2. reflexivity.
    + unfold attrs_list. rewrite Hattrs2. destruct Hnamed as [-> _]. reflexivity.
Qed.

End AddAttr.

(** C5, counterexample: in a wizard just started the entry stored for
    "str;physical;perm(Builder)=12" holds the lock string "perm(builder)",
    not the one typed. *)
Lemma add_attr_lock_not_as_typed : ~ add_attr_scenario "perm(Builder)" plain_services.
Proof.
  intros H.
  assert (Hrun : exists r1 w1,
             _add_attr plain_services "str;physical;perm(Builder)=12" ∅ fresh_world
               = (Ok r1, w1) /\
             attrs_list w1 = [attr_entry "str" "12" (PStr "physical") "perm(builder)"]).
  { eexists _, _. split; vm_compute; reflexivity. }
  destruct Hrun as (r1 & w1 & Hrun & Hattrs).
  destruct (H fresh_world r1 w1 Hrun) as (i & Hentry & _).
  rewrite Hattrs in Hentry. destruct i as [|i]; simpl in Hentry; discriminate.
Qed.

(** C5, witness: the two inputs typed in a wizard just started. *)
Lemma add_attr_scenario_lowercased_witness :
  let run := _add_attr plain_services "str;physical;perm(Builder)=12" ∅ fresh_world in
  exists r1,
    run = (Ok r1, snd run) /\
    exists i : nat,
      attrs_list (snd run) !! i
        = Some (attr_entry "str" "12" (PStr "physical") "perm(builder)") /\
      exists r2 (w2 : world),
        _add_attr plain_services "str=15" ∅ (snd run) = (Ok r2, w2) /\
        attrs_list w2 = <[i := attr_entry "str" "15" PNone ""]> (attrs_list (snd run)).
Proof.
  intros run.
  assert (Hrun : exists r1, run = (Ok r1, snd run)).
  { eexists. vm_compute. reflexivity. }
  destruct Hrun as (r1 & Hrun). exists r1. split; [exact Hrun |].
  exact (add_attr_scenario_lowercased plain_services fresh_world r1 (snd run) Hrun).
Defined.

(** ** Navigation between the field nodes *)

Section Navigation.

Context (ext : services).

Lemma get_menu_prototype_template (w : world) :
  exists w', _get_menu_prototype w = (Ok (template w), w') /\ template w' = template w.
Proof.
  destruct (get_menu_prototype_spec w) as (w0 & Hget & Hp0 & _).
  exists w0. split; [exact Hget |]. unfold template at 1. rewrite Hp0. reflexivity.
Qed.

Lemma get_flat_menu_prototype_spec (w : world) :
  exists flat w', _get_flat_menu_prototype ext w = (Ok flat, w') /\
                  template w' = template w.
Proof.
  unfold _get_flat_menu_prototype. unfold M_bind at 1. unfold get_world.
  destruct (get_menu_prototype_template w) as (w0 & Hget & Ht0).
  assert (Hrecompute : exists flat w',
    (prot <- _get_menu_prototype ;;
     modify (set_olc_flat_prototype (Some (flatten_prototype ext prot))) ;;;
     M_ret (flatten_prototype ext prot)) w = (Ok flat, w') /\
    template w' = template w).
  { unfold M_bind at 1. rewrite Hget. run_M. eauto. }
  destruct (olc_flat_prototype w) as [flat|]; [| exact Hrecompute].
  destruct (dict_empty flat); [exact Hrecompute |].
  exists flat, w. split; reflexivity.
Qed.

(** [_get_current_value] always answers, and leaves the Template as it
    is. *)
Lemma get_current_value_spec (keyname : string) (w : world) :
  exists current w', _get_current_value ext keyname w = (Ok current, w') /\
                     template w' = template w.
Proof.
  unfold _get_current_value.
  destruct (get_menu_prototype_template w) as (w0 & Hget & Ht0).
  unfold M_bind at 1. rewrite Hget.
  destruct (template w !! keyname) as [v|].
  - unfold M_ret. eauto.
  - destruct (get_flat_menu_prototype_spec w0) as (flat & w1 & Hflat & Ht1).
    unfold M_bind at 1. rewrite Hflat.
    destruct (flat !! keyname); unfold M_ret; eexists _, _;
      (split; [reflexivity | congruence]).
Qed.

(** The home node declares its neighbours as aliases and destination. *)
Lemma node_home_shows (w : world) :
  exists shown w', node_home ext w = (Ok shown, w') /\
    template w' = template w /\
    snd shown =
      _wizard_options (Some "home") (Some "aliases") (Some "destination") default_color
      ++ [set_property_option "home" strip_processor "node_destination"].
Proof.
  unfold node_home.
  destruct (get_current_value_spec "home" w) as (current & w' & Hcur & Ht).
  unfold M_bind at 1. rewrite Hcur. unfold M_ret. eauto.
Qed.

(** The aliases node declares its neighbours as key and attrs. *)
Lemma node_aliases_shows (w : world) :
  exists shown w', node_aliases ext w = (Ok shown, w') /\
    template w' = template w /\
    snd shown =
      _wizard_options (Some "aliases") (Some "key") (Some "attrs") default_color
      ++ [set_property_option "aliases" comma_list_processor "node_attrs"].
Proof.
  unfold node_aliases.
  destruct (get_current_value_spec "aliases" w) as (current & w' & Hcur & Ht).
  unfold M_bind at 1. rewrite Hcur. unfold M_ret. eauto.
Qed.

Lemma node_key_shows (w : world) :
  exists shown w', node_key ext w = (Ok shown, w') /\
    template w' = template w /\
    snd shown =
      _wizard_options (Some "key") (Some "typeclass") (Some "aliases") default_color
      ++ [set_property_option "key" strip_processor "node_aliases"].
Proof.
  unfold node_key.
  destruct (get_current_value_spec "key" w) as (current & w' & Hcur & Ht).
  unfold M_bind at 1. rewrite Hcur. unfold M_ret. eauto.
Qed.

(** The help text of the permissions node cannot be formatted. *)
Lemma node_permissions_raises (w : world) :
  fst (node_permissions ext w) = Raise (KeyError "permissions").
Proof.
  unfold node_permissions.
  destruct (get_current_value_spec "permissions" w) as (current & w' & Hcur & Ht).
  unfold M_bind at 1. rewrite Hcur. reflexivity.
Qed.

(** Where the walk goes well: Back from aliases leads to key, and
    Forward from key leads to aliases again. *)
Lemma back_then_forward_from_aliases (w : world) :
  exists w', back_then_forward ext "node_aliases" w = (Ok (Some "node_aliases"), w') /\
             template w' = template w.
Proof.
  destruct (node_aliases_shows w) as (shown & w1 & Hrun & Ht1 & Hopts).
  destruct (node_key_shows w1) as (shown' & w2 & Hrun' & Ht2 & Hopts').
  exists w2. split; [| congruence].
  unfold back_then_forward, follow at 1.
  change (menudata ext "node_aliases") with (Some (node_aliases ext)).
  unfold M_bind at 1. unfold M_bind at 1. rewrite Hrun, Hopts.
  unfold M_ret at 1. simpl.
  unfold follow. change (menudata ext _) with (Some (node_key ext)).
  unfold M_bind at 1. rewrite Hrun', Hopts'.
  reflexivity.
Qed.

(** C2, at the home node: Back leads to the aliases node, as declared,
    and Forward from there leads to the attrs node, not to the home node.
    The Template is the same after the two steps.  The permissions node,
    the other node C2 names, raises before it shows any option. *)
Theorem back_then_forward_from_home (w : world) :
  (exists w', back_then_forward ext "node_home" w = (Ok (Some "node_attrs"), w') /\
              template w' = template w) /\
  fst (back_then_forward ext "node_permissions" w) = Raise (KeyError "permissions").
Proof.
  split.
  - destruct (node_home_shows w) as (shown & w1 & Hrun & Ht1 & Hopts).
    destruct (node_aliases_shows w1) as (shown' & w2 & Hrun' & Ht2 & Hopts').
    exists w2. split; [| congruence].
    unfold back_then_forward, follow at 1.
    change (menudata ext "node_home") with (Some (node_home ext)).
    unfold M_bind at 1. unfold M_bind at 1. rewrite Hrun, Hopts.
    unfold M_ret at 1. simpl.
    unfold follow. change (menudata ext _) with (Some (node_aliases ext)).
    unfold M_bind at 1. rewrite Hrun', Hopts'.
    reflexivity.
  - unfold back_then_forward, follow at 1.
    change (menudata ext "node_permissions") with (Some (node_permissions ext)).
    unfold M_bind at 1. unfold M_bind at 1.
    pose proof (node_permissions_raises w) as Hraise.
    destruct (node_permissions ext w) as [[shown|e] w']; simpl in Hraise;
      [discriminate |].
    simpl. congruence.
Qed.

End Navigation.

(** ** The update node: [node_update_objects], [_keep_diff] *)

Lemma set_heap_same (w : world) : set_heap (heap w) w = w.
Proof. destruct w. reflexivity. Qed.

Section UpdateNode.

Context (ext : services).

Lemma header_first_line (n : string) :
  PyStr.format "Suggested changes to {} objects. " [n] [] =
  Ok ("Suggested changes to " +:+ n +:+ " objects. ").
Proof. reflexivity. Qed.

(** The second line of the header names its fields [{name}] and
    [{dbref}] and is formatted with two positional arguments. *)
Lemma header_second_line (key dbref : string) :
  PyStr.format ("Showing random example obj to change: {name} (#{dbref}))" +:+ newline)
    [key; dbref] [] = Raise (KeyError "name").
Proof. reflexivity. Qed.

Lemma update_header_raises (update_objects : list obj) (o : option obj) :
  exists e, update_header update_objects o = Raise e.
Proof.
  unfold update_header. rewrite header_first_line. cbn [result_bind].
  destruct o as [o|]; [| eauto].
  rewrite header_second_line. cbn [result_bind]. eauto.
Qed.

(** With objects to update, the node never gets past its header. *)
Lemma node_update_objects_raises (w : world) (kwargs : gmap string kwval)
    (o : obj) (os : list obj) :
  kwargs !! "objects" = Some (KObjs (o :: os)) ->
  exists e, fst (node_update_objects ext kwargs w) = Raise e.
Proof.
  intros Hobjs. unfold node_update_objects. rewrite Hobjs. simpl.
  unfold M_bind at 1.
  destruct (resolve_diff ext _ _ _ (o :: os) w) as [[[[diff objp] chosen]|e] w'];
    [| simpl; eauto].
  unfold M_bind at 1. unfold lift at 1.
  destruct (update_header_raises (o :: os) chosen) as (e & ->). simpl. eauto.
Qed.

(** The node itself never calls the bulk update of the spawner. *)
Lemma node_update_objects_no_bulk_update (w : world) (kwargs : gmap string kwval) :
  bulk_updates (snd (node_update_objects ext kwargs w)) = bulk_updates w.
Proof.
  unfold node_update_objects.
  destruct (kw_objects (default KNone (kwargs !! "objects"))) as [|o os];
    [reflexivity |].
  set (objs := o :: os).
  assert (Hresolve : forall p op d,
            bulk_updates (snd (resolve_diff ext p op d objs w)) = bulk_updates w).
  { intros p op d. unfold resolve_diff. run_M.
    destruct (kw_truthy w d); [reflexivity |].
    destruct (choice ext objs); [| reflexivity].
    destruct (kw_dict p); [| reflexivity].
    destruct (prototype_diff_from_object ext _ _). reflexivity. }
  unfold M_bind at 1.
  specialize (Hresolve (default KNone (kwargs !! "prototype"))
                (default KNone (kwargs !! "obj_prototype"))
                (default KNone (kwargs !! "diff"))).
  destruct (resolve_diff ext _ _ _ objs w) as [[[[diff objp] chosen]|e] w'];
    simpl in Hresolve; [| exact Hresolve].
  unfold M_bind at 1. unfold lift at 1.
  destruct (update_header objs chosen); [| exact Hresolve].
  unfold M_bind at 1. unfold get_world. unfold lift.
  simpl. exact Hresolve.
Qed.

(** The loop returns at the first entry that is not KEEP: what comes
    after that entry in the sorted diff has no part in the result. *)
Lemma update_loop_stops_at_first_change (keeps : list (string * string))
    (key inst : string) (rest rest' : list (string * string))
    (prototype obj_prototype diff update_objects back_node : kwval)
    (chosen : option obj) (text : list string) (options : list menu_option) (io : nat) :
  Forall (fun entry => snd entry = "KEEP") keeps ->
  inst <> "KEEP" ->
  update_loop ext (keeps ++ (key, inst) :: rest) prototype obj_prototype diff
    update_objects back_node chosen text options io =
  update_loop ext (keeps ++ (key, inst) :: rest') prototype obj_prototype diff
    update_objects back_node chosen text options io.
Proof.
  intros Hkeeps Hinst. revert text.
  induction Hkeeps as [|[k i] keeps Hk _ IH]; intros text.
  - simpl. destruct (dict_item obj_prototype key); [| reflexivity]. simpl.
    destruct (String.eqb_spec inst "KEEP"); [contradiction | reflexivity].
  - simpl in Hk. subst i. simpl.
    destruct (dict_item obj_prototype k); [| reflexivity]. simpl.
    apply IH.
Qed.

(** C3: the node renders no diff.  With objects to update
    [node_update_objects] raises while it formats the header of its
    text, for every diff; and the loop that would render the diff returns
    at the first entry that is not KEEP, so that the entries after it are
    neither rendered nor given a keep option. *)
Theorem update_node_renders_first_change_only (w : world) :
  (forall (kwargs : gmap string kwval) (o : obj) (os : list obj),
     kwargs !! "objects" = Some (KObjs (o :: os)) ->
     exists e, fst (node_update_objects ext kwargs w) = Raise e) /\
  (forall (keeps : list (string * string)) (key inst : string)
          (rest : list (string * string))
          (prototype obj_prototype diff update_objects back_node : kwval)
          (chosen : option obj) (text : list string),
     Forall (fun entry => snd entry = "KEEP") keeps ->
     inst <> "KEEP" ->
     update_loop ext (keeps ++ (key, inst) :: rest) prototype obj_prototype diff
       update_objects back_node chosen text [] 0 =
     update_loop ext (keeps ++ [(key, inst)]) prototype obj_prototype diff
       update_objects back_node chosen text [] 0).
Proof.
  split.
  - intros kwargs o os. apply node_update_objects_raises.
  - intros. apply update_loop_stops_at_first_change; assumption.
Qed.

(** C4: the node never calls the bulk update itself, but it offers no
    update option either: with objects to update it raises, and the loop,
    which is where the update option is made, makes none when the diff
    has no entry. *)
Theorem update_node_offers_no_update (w : world) (kwargs : gmap string kwval) :
  bulk_updates (snd (node_update_objects ext kwargs w)) = bulk_updates w /\
  (forall (o : obj) (os : list obj),
     kwargs !! "objects" = Some (KObjs (o :: os)) ->
     exists e, fst (node_update_objects ext kwargs w) = Raise e) /\
  (forall (prototype obj_prototype diff update_objects back_node : kwval)
          (chosen : option obj) (text : list string),
     update_loop ext [] prototype obj_prototype diff update_objects back_node
       chosen text [] 0 = Ok None).
Proof.
  split; [apply node_update_objects_no_bulk_update | split].
  - intros o os. apply node_update_objects_raises.
  - reflexivity.
Qed.

End UpdateNode.

(** C3 and C4, the run behind them: the prototype of the spawned goblin is
    saved again and the caller says yes to the update. *)
Example update_node_after_save :
  fst (node_update_objects (with_diff (two_updates, old_prototype) plain_services)
         save_kwargs fresh_world) = Raise (KeyError "name") /\
  fst (node_update_objects (with_diff (∅, old_prototype) plain_services)
         save_kwargs fresh_world) = Raise (KeyError "name").
Proof. split; vm_compute; reflexivity. Qed.

(** The loop on the two suggested updates, had the header been formatted:
    one line and one keep option, for "desc"; "key" gets neither. *)
Example update_loop_two_updates :
  let run := update_loop plain_services (sorted_by_key (map_to_list two_updates))
               (KDict new_prototype) (KDict old_prototype) (KRef 0) (KObjs [goblin])
               (KStr "node_prototype_save") (Some goblin) [] [] 0 in
  rendered run = ["1  |wdesc|n: A goblin |y->|n A wiry goblin UPDATE"] /\
  opt_desc <$> filter (fun o => is_keep_option o = true) (offered run)
    = [Some "Keep desc as-is"] /\
  length (filter (fun o => is_update_option o = true) (offered run)) = 1.
Proof. vm_compute. repeat split; reflexivity. Qed.

(** C3, witness *)
Lemma update_node_renders_first_change_only_witness :
  (exists e, fst (node_update_objects (with_diff (two_updates, old_prototype) plain_services)
                    save_kwargs fresh_world) = Raise e) /\
  update_loop plain_services ([("aliases", "KEEP")] ++ [("desc", "UPDATE"); ("key", "UPDATE")])
    (KDict new_prototype) (KDict old_prototype) (KRef 0) (KObjs [goblin])
    (KStr "node_prototype_save") (Some goblin) [] [] 0 =
  update_loop plain_services ([("aliases", "KEEP")] ++ [("desc", "UPDATE")])
    (KDict new_prototype) (KDict old_prototype) (KRef 0) (KObjs [goblin])
    (KStr "node_prototype_save") (Some goblin) [] [] 0.
Proof.
  destruct (update_node_renders_first_change_only
              (with_diff (two_updates, old_prototype) plain_services) fresh_world)
    as [Hraise _].
  destruct (update_node_renders_first_change_only plain_services fresh_world)
    as [_ Hloop].
  split.
  - apply (Hraise save_kwargs goblin []). reflexivity.
  - apply (Hloop [("aliases", "KEEP")] "desc" "UPDATE" [("key", "UPDATE")]).
    + repeat constructor.
    + discriminate.
Defined.

(** C4, witness *)
Lemma update_node_offers_no_update_witness :
  bulk_updates (snd (node_update_objects (with_diff (∅, old_prototype) plain_services)
                       save_kwargs fresh_world)) = [] /\
  exists e, fst (node_update_objects (with_diff (∅, old_prototype) plain_services)
                   save_kwargs fresh_world) = Raise e.
Proof.
  destruct (update_node_offers_no_update (with_diff (∅, old_prototype) plain_services)
              fresh_world save_kwargs) as (Hbulk & Hraise & _).
  split; [exact Hbulk |].
  apply (Hraise goblin []). reflexivity.
Defined.

(** ** Keeping a field, and resetting the changes *)

Section KeepDiff.

Context (ext : services).

(** [_keep_diff] writes "KEEP" under the key, in the dict the options
    share. *)
Lemma keep_diff_spec (w : world) (kwargs : gmap string kwval) (key : string)
    (r : nat) (d : gmap string string) :
  kwargs !! "key" = Some (KStr key) ->
  kwargs !! "diff" = Some (KRef r) ->
  heap w !! r = Some d ->
  _keep_diff kwargs w = (Ok None, set_heap (<[r := <[key := "KEEP"]> d]> (heap w)) w).
Proof.
  intros Hkey Hdiff Hheap. unfold _keep_diff, kw_item. rewrite Hkey, Hdiff.
  run_M. rewrite Hheap. reflexivity.
Qed.

(** When [_keep_diff] has nothing to write to, it changes nothing. *)
Lemma keep_diff_twice (w : world) (kwargs : gmap string kwval) :
  snd (_keep_diff kwargs (snd (_keep_diff kwargs w))) = snd (_keep_diff kwargs w).
Proof.
  destruct (kwargs !! "key") as [k|] eqn:Hkey;
    [| unfold _keep_diff, kw_item; rewrite Hkey; reflexivity].
  destruct (kwargs !! "diff") as [d|] eqn:Hdiff;
    [| unfold _keep_diff, kw_item; rewrite Hkey, Hdiff; reflexivity].
  assert (Hother : (forall r key, d = KRef r -> k = KStr key -> heap w !! r = None) ->
                   _keep_diff kwargs w =
                     (Raise (TypeError "object does not support item assignment"), w)).
  { intros Hno. unfold _keep_diff, kw_item. rewrite Hkey, Hdiff. run_M.
    destruct d; try reflexivity. destruct k; try reflexivity.
    rewrite (Hno r s eq_refl eq_refl). reflexivity. }
  destruct d as [| | | | | | |r]; try (rewrite Hother by discriminate; simpl;
                                       rewrite Hother by discriminate; reflexivity).
  destruct k as [| |key| | | | |]; try (rewrite Hother by discriminate; simpl;
                                        rewrite Hother by discriminate; reflexivity).
  destruct (heap w !! r) as [dict|] eqn:Hheap.
  - rewrite (keep_diff_spec w kwargs key r dict Hkey Hdiff Hheap). simpl.
    pose proof (lookup_lt_Some _ _ _ Hheap) as Hlt.
    rewrite (keep_diff_spec _ kwargs key r (<[key := "KEEP"]> dict) Hkey Hdiff).
    + simpl. rewrite insert_insert_eq, list_insert_insert_eq. reflexivity.
    + simpl. apply list_lookup_insert_eq. exact Hlt.
  - assert (Hnone : forall r' key', KRef r = KRef r' -> KStr key = KStr key' ->
                                    heap w !! r' = None) by congruence.
    rewrite (Hother Hnone). simpl. rewrite (Hother Hnone). reflexivity.
Qed.

(** The fresh diff is the spawner's, put in a new dict: it owes nothing
    to the dicts made before. *)
Lemma resolve_diff_fresh (w : world) (prototype obj_prototype : kwval)
    (p : gmap string pyval) (objs : list obj) (chosen : obj) :
  kw_dict prototype = Ok p ->
  choice ext objs = Some chosen ->
  resolve_diff ext prototype obj_prototype KNone objs w =
    (Ok (KRef (length (heap w)),
         KDict (snd (prototype_diff_from_object ext p chosen)),
         Some chosen),
     set_heap (heap w ++ [fst (prototype_diff_from_object ext p chosen)]) w).
Proof.
  intros Hp Hchoice. unfold resolve_diff. run_M. rewrite Hchoice, Hp.
  destruct (prototype_diff_from_object ext p chosen). reflexivity.
Qed.

(** The node entered from the reset option: whatever the dicts made
    before hold, the spawner's diff is put in a new one; then the header
    is formatted, and that raises. *)
Lemma reset_reenters_fresh (w : world) (prototype back_node : kwval)
    (p : gmap string pyval) (o : obj) (os : list obj) (chosen : obj) :
  kw_dict prototype = Ok p ->
  choice ext (o :: os) = Some chosen ->
  node_update_objects ext
    {[ "prototype" := prototype; "back_node" := back_node;
       "objects" := KObjs (o :: os) ]} w =
    (Raise (KeyError "name"),
     set_heap (heap w ++ [fst (prototype_diff_from_object ext p chosen)]) w).
Proof.
  intros Hp Hchoice. unfold node_update_objects.
  change (({[ "prototype" := prototype; "back_node" := back_node;
              "objects" := KObjs (o :: os) ]} : gmap string kwval) !! "objects")
    with (Some (KObjs (o :: os))).
  change (({[ "prototype" := prototype; "back_node" := back_node;
              "objects" := KObjs (o :: os) ]} : gmap string kwval) !! "prototype")
    with (Some prototype).
  change (({[ "prototype" := prototype; "back_node" := back_node;
              "objects" := KObjs (o :: os) ]} : gmap string kwval) !! "diff")
    with (@None kwval).
  change (({[ "prototype" := prototype; "back_node" := back_node;
              "objects" := KObjs (o :: os) ]} : gmap string kwval) !! "obj_prototype")
    with (@None kwval).
  unfold default. cbn [from_option kw_objects id].
  unfold M_bind at 1.
  rewrite (resolve_diff_fresh w prototype KNone p (o :: os) chosen Hp Hchoice).
  unfold M_bind at 1. unfold lift at 1. unfold update_header.
  rewrite header_first_line. cbn [result_bind].
  rewrite header_second_line. reflexivity.
Qed.

(** The node entered with a diff that is not empty, as the menu enters
    it again after a field was kept: no object is chosen, and the header,
    which names the object, raises. *)
Lemma node_update_objects_with_diff (w : world) (kwargs : gmap string kwval)
    (o : obj) (os : list obj) (r : nat) (d : gmap string string) :
  kwargs !! "objects" = Some (KObjs (o :: os)) ->
  kwargs !! "diff" = Some (KRef r) ->
  heap w !! r = Some d ->
  dict_empty d = false ->
  node_update_objects ext kwargs w = (Raise (UnboundLocalError "obj"), w).
Proof.
  intros Hobjs Hdiff Hheap Hd. unfold node_update_objects.
  rewrite Hobjs, Hdiff. unfold default. cbn [from_option kw_objects id].
  unfold M_bind at 1. unfold resolve_diff. unfold M_bind at 1. unfold get_world at 1.
  cbn [kw_truthy]. rewrite Hheap, Hd. cbn [negb]. unfold M_ret at 1.
  unfold M_bind at 1. unfold lift at 1. unfold update_header.
  rewrite header_first_line. reflexivity.
Qed.

(** Whenever the node answers, it is with the page that says there is
    nothing to update. *)
Lemma node_update_objects_answers (w w' : world) (kwargs : gmap string kwval)
    (shown : option (content * list menu_option)) :
  node_update_objects ext kwargs w = (Ok shown, w') ->
  shown = Some (Text "There are no existing objects to update.",
                [ {| opt_key := ["_default"]; opt_desc := None;
                     opt_goto := match kw_name (default (KStr "node_index")
                                                  (kwargs !! "back_node")) with
                                 | Some n => GotoNode n
                                 | None => GotoNode ""
                                 end |} ]) /\
  w' = w.
Proof.
  unfold node_update_objects.
  destruct (kw_objects (default KNone (kwargs !! "objects"))) as [|o os].
  - unfold M_ret. intros [= <- <-]. split; reflexivity.
  - unfold M_bind at 1.
    destruct (resolve_diff ext _ _ _ (o :: os) w) as [[[[diff objp] chosen]|e] w1];
      [| discriminate].
    unfold M_bind at 1. unfold lift at 1.
    destruct (update_header_raises (o :: os) chosen) as (e & ->). discriminate.
Qed.

(** A line of the update node can always be formatted. *)
Lemma diff_line_formats (iopt key old sep new change : string) :
  exists line,
    PyStr.format diff_line []
      [("iopt", iopt); ("key", key); ("old", old); ("sep", sep); ("new", new);
       ("change", change)] = Ok line.
Proof. eexists. reflexivity. Qed.

(** When every entry of the diff is KEEP the loop runs out: it makes
    no option, and the function ends without a [return]. *)
Lemma update_loop_all_kept (items : list (string * string))
    (prototype obj_prototype diff update_objects back_node : kwval)
    (chosen : option obj) (text : list string) (options : list menu_option) (io : nat) :
  Forall (fun entry => snd entry = "KEEP") items ->
  offered (update_loop ext items prototype obj_prototype diff update_objects back_node
             chosen text options io) = [].
Proof.
  intros Hkeeps. revert text.
  induction Hkeeps as [|[k i] items Hk _ IH]; intros text; [reflexivity |].
  simpl in Hk. subst i. cbn [update_loop].
  destruct (dict_item obj_prototype k) as [old|]; [| reflexivity].
  cbn [result_bind]. change ("KEEP" =? "KEEP") with true. cbv iota.
  destruct (diff_line_formats "" k (crop ext (py_str ext old) 20) " " "" "KEEP")
    as (line & ->).
  cbn [result_bind]. apply IH.
Qed.

(** At an entry to update, replace or remove, the loop returns: with
    the line of the entry, its keep option, and the three options that
    close the node.  The reset option carries no diff. *)
Lemma update_loop_first_change (key inst : string) (rest : list (string * string))
    (prototype obj_prototype diff update_objects back_node : kwval)
    (o : obj) (text : list string) (old new : pyval) :
  inst = "UPDATE" \/ inst = "REPLACE" \/ inst = "REMOVE" ->
  dict_item obj_prototype key = Ok old ->
  dict_item prototype key = Ok new ->
  exists line,
    update_loop ext ((key, inst) :: rest) prototype obj_prototype diff update_objects
      back_node (Some o) text [] 0 =
    Ok (Some (LinesHelp (text ++ [line]) update_helptext,
              [ _keep_option key prototype (KObj o) obj_prototype diff update_objects
                  back_node;
                update_option prototype update_objects back_node diff;
                reset_option prototype update_objects back_node;
                back_to_option back_node ])).
Proof.
  intros Hinst Hold Hnew. cbn [update_loop]. rewrite Hold. cbn [result_bind].
  destruct Hinst as [-> | [-> | ->]].
  - change ("UPDATE" =? "KEEP") with false. cbv iota.
    rewrite Hnew. cbn [result_bind].
    change (("UPDATE" =? "UPDATE") || ("UPDATE" =? "REPLACE")) with true. cbv iota.
    destruct (diff_line_formats (pretty 1) key (crop ext (py_str ext old) 20) " |y->|n "
                (crop ext (py_str ext (init_spawn_value ext new)) 20) "UPDATE")
      as (line & ->).
    exists line. reflexivity.
  - change ("REPLACE" =? "KEEP") with false. cbv iota.
    rewrite Hnew. cbn [result_bind].
    change (("REPLACE" =? "UPDATE") || ("REPLACE" =? "REPLACE")) with true. cbv iota.
    destruct (diff_line_formats (pretty 1) key (crop ext (py_str ext old) 20) " |y->|n "
                (crop ext (py_str ext (init_spawn_value ext new)) 20) "REPLACE")
      as (line & ->).
    exists line. reflexivity.
  - change ("REMOVE" =? "KEEP") with false. cbv iota.
    rewrite Hnew. cbn [result_bind].
    change (("REMOVE" =? "UPDATE") || ("REMOVE" =? "REPLACE")) with false. cbv iota.
    change ("REMOVE" =? "REMOVE") with true. cbv iota.
    destruct (diff_line_formats (pretty 1) key (crop ext (py_str ext old) 20) " |r->|n "
                "" "REMOVE")
      as (line & ->).
    exists line. reflexivity.
Qed.

(** C9: forcing a field to KEEP twice is the same as forcing it once,
    and forcing a field that is KEEP already changes nothing: that much
    of the claim holds.  What it says of the reset does not happen,
    because the update node never shows its options.  Whenever the node
    answers, it is with the page that says there is nothing to update.
    Entered with the keyword arguments of its own reset option, which
    hold no diff, it does put the spawner's fresh diff in a new dict, and
    then raises KeyError('name') while it formats its header; entered
    with a diff that is not empty, as after a field was kept, it raises
    for the unbound [obj].  The loop under the header would offer the
    reset together with the first entry that is not KEEP, and nothing
    once every entry is KEEP. *)
Theorem keep_is_idempotent_but_reset_never_runs (w : world) :
  (forall kwargs : gmap string kwval,
     snd (_keep_diff kwargs (snd (_keep_diff kwargs w))) = snd (_keep_diff kwargs w)) /\
  (forall (kwargs : gmap string kwval) (key : string) (r : nat)
          (d : gmap string string),
     kwargs !! "key" = Some (KStr key) ->
     kwargs !! "diff" = Some (KRef r) ->
     heap w !! r = Some d ->
     d !! key = Some "KEEP" ->
     _keep_diff kwargs w = (Ok None, w)) /\
  (forall (kwargs : gmap string kwval) (shown : option (content * list menu_option))
          (w' : world),
     node_update_objects ext kwargs w = (Ok shown, w') ->
     w' = w /\
     exists text option,
       shown = Some (Text text, [option]) /\ opt_key option = ["_default"]) /\
  (forall (prototype back_node : kwval) (p : gmap string pyval)
          (o : obj) (os : list obj) (chosen : obj) (kwargs : gmap string kwval),
     kw_dict prototype = Ok p ->
     choice ext (o :: os) = Some chosen ->
     opt_goto (reset_option prototype (KObjs (o :: os)) back_node) =
       GotoNodeKw "node_update_objects" kwargs ->
     kwargs !! "diff" = None /\
     node_update_objects ext kwargs w =
       (Raise (KeyError "name"),
        set_heap (heap w ++ [fst (prototype_diff_from_object ext p chosen)]) w)) /\
  (forall (key : string) (r : nat) (d : gmap string string)
          (prototype example obj_prototype back_node : kwval) (o : obj) (os : list obj)
          (kwargs : gmap string kwval) (w1 : world),
     heap w !! r = Some d ->
     opt_goto (_keep_option key prototype example obj_prototype (KRef r) (KObjs (o :: os))
                 back_node) = GotoCallKw F_keep_diff kwargs ->
     _keep_diff kwargs w = (Ok None, w1) ->
     heap w1 !! r = Some (<[key := "KEEP"]> d) /\
     node_update_objects ext kwargs w1 = (Raise (UnboundLocalError "obj"), w1)) /\
  (forall (items : list (string * string))
          (prototype obj_prototype diff update_objects back_node : kwval)
          (chosen : option obj) (text : list string),
     Forall (fun entry => snd entry = "KEEP") items ->
     offered (update_loop ext items prototype obj_prototype diff update_objects
                back_node chosen text [] 0) = []) /\
  (forall (key inst : string) (rest : list (string * string))
          (prototype obj_prototype diff update_objects back_node : kwval)
          (o : obj) (text : list string) (old new : pyval),
     inst = "UPDATE" \/ inst = "REPLACE" \/ inst = "REMOVE" ->
     dict_item obj_prototype key = Ok old ->
     dict_item prototype key = Ok new ->
     offered (update_loop ext ((key, inst) :: rest) prototype obj_prototype diff
                update_objects back_node (Some o) text [] 0) =
       [ _keep_option key prototype (KObj o) obj_prototype diff update_objects back_node;
         update_option prototype update_objects back_node diff;
         reset_option prototype update_objects back_node;
         back_to_option back_node ]).
Proof.
  split; [| split; [| split; [| split; [| split; [| split]]]]].
  - intros kwargs. apply keep_diff_twice.
  - intros kwargs key r d Hkey Hdiff Hheap Hkept.
    rewrite (keep_diff_spec w kwargs key r d Hkey Hdiff Hheap).
    rewrite (insert_id d key "KEEP" Hkept), (list_insert_id _ _ _ Hheap).
    rewrite set_heap_same. reflexivity.
  - intros kwargs shown w' Hrun.
    destruct (node_update_objects_answers w w' kwargs shown Hrun) as [-> ->].
    split; [reflexivity |]. eexists _, _. split; reflexivity.
  - intros prototype back_node p o os chosen kwargs Hp Hchoice Hgoto.
    injection Hgoto as <-. split; [reflexivity |].
    apply reset_reenters_fresh; assumption.
  - intros key r d prototype example obj_prototype back_node o os kwargs w1 Hheap Hgoto
           Hkeep.
    injection Hgoto as <-.
    rewrite (keep_diff_spec w _ key r d) in Hkeep by first [exact Hheap | reflexivity].
    injection Hkeep as <-.
    assert (Hkept : heap (set_heap (<[r := <[key := "KEEP"]> d]> (heap w)) w) !! r
                    = Some (<[key := "KEEP"]> d)).
    { simpl. apply list_lookup_insert_eq. exact (lookup_lt_Some _ _ _ Hheap). }
    split; [exact Hkept |].
    apply (node_update_objects_with_diff _ _ o os r (<[key := "KEEP"]> d));
      [reflexivity | reflexivity | exact Hkept |].
    unfold dict_empty. apply bool_decide_eq_false_2.
    intros Hsize. apply map_size_empty_iff in Hsize.
    exact (insert_non_empty _ _ _ Hsize).
  - intros. apply update_loop_all_kept. assumption.
  - intros key inst rest prototype obj_prototype diff update_objects back_node o text
           old new Hinst Hold Hnew.
    destruct (update_loop_first_change key inst rest prototype obj_prototype diff
                update_objects back_node o text old new Hinst Hold Hnew) as (line & ->).
    reflexivity.
Qed.

End KeepDiff.

(** C9, witness: the diff of the two updates sits in the heap with "desc"
    forced to KEEP.  Forcing it again changes nothing; the node entered
    from the reset option puts the spawner's diff, with "desc" to update, in
    a new dict and raises; and the loop on the two updates offers the keep
    option of "desc" and the three closing options. *)
Lemma keep_is_idempotent_but_reset_never_runs_witness :
  let ext := with_diff (two_updates, old_prototype) plain_services in
  let w := set_heap [<["desc" := "KEEP"]> two_updates] fresh_world in
  let kwargs : gmap string kwval := {[ "key" := KStr "desc"; "diff" := KRef 0 ]} in
  _keep_diff kwargs w = (Ok None, w) /\
  node_update_objects ext
    {[ "prototype" := KDict new_prototype; "back_node" := KStr "node_prototype_save";
       "objects" := KObjs [goblin] ]} w =
    (Raise (KeyError "name"), set_heap (heap w ++ [two_updates]) w) /\
  offered (update_loop ext [("desc", "UPDATE"); ("key", "UPDATE")]
             (KDict new_prototype) (KDict old_prototype) (KRef 0) (KObjs [goblin])
             (KStr "node_prototype_save") (Some goblin) [] [] 0) =
    [ _keep_option "desc" (KDict new_prototype) (KObj goblin) (KDict old_prototype)
        (KRef 0) (KObjs [goblin]) (KStr "node_prototype_save");
      update_option (KDict new_prototype) (KObjs [goblin]) (KStr "node_prototype_save")
        (KRef 0);
      reset_option (KDict new_prototype) (KObjs [goblin]) (KStr "node_prototype_save");
      back_to_option (KStr "node_prototype_save") ].
Proof.
  intros ext w kwargs.
  destruct (keep_is_idempotent_but_reset_never_runs ext w)
    as (_ & Hnoop & _ & Hreset & _ & _ & Hloop).
  split; [| split].
  - apply (Hnoop kwargs "desc" 0 (<["desc" := "KEEP"]> two_updates)); reflexivity.
  - apply (Hreset (KDict new_prototype) (KStr "node_prototype_save") new_prototype
             goblin [] goblin); reflexivity.
  - apply (Hloop "desc" "UPDATE" [("key", "UPDATE")] (KDict new_prototype)
             (KDict old_prototype) (KRef 0) (KObjs [goblin]) (KStr "node_prototype_save")
             goblin [] (PStr "A goblin") (PStr "A wiry goblin"));
      [left; reflexivity | reflexivity | reflexivity].
Defined.

(** ** The prototype of the menu: setting, reading, loading *)

Lemma template_nonempty_get (w : world) :
  dict_empty (template w) = false ->
  olc_prototype w = Some (template w) /\ _get_menu_prototype w = (Ok (template w), w).
Proof.
  unfold template, _get_menu_prototype. run_M.
  destruct (olc_prototype w) as [p|]; simpl; intros He.
  - rewrite He. split; reflexivity.
  - discriminate.
Qed.

Lemma dict_empty_insert {V} (d : gmap string V) (k : string) (v : V) :
  dict_empty (<[k := v]> d) = false.
Proof.
  unfold dict_empty. apply bool_decide_eq_false_2. intros Hsize.
  apply map_size_empty_iff in Hsize. exact (insert_non_empty _ _ _ Hsize).
Qed.

Lemma set_prototype_value_run (w : world) (field : string) (value : pyval) :
  exists w', _set_prototype_value field value w = (Ok (<[field := value]> (template w)), w') /\
             olc_prototype w' = Some (<[field := value]> (template w)) /\
             olc_flat_prototype w' = olc_flat_prototype w /\
             outbox w' = outbox w.
Proof.
  unfold _set_prototype_value, _get_menu_prototype, template. run_M.
  destruct (olc_prototype w) as [p|] eqn:Hp; simpl.
  - destruct (dict_empty p) eqn:He; simpl.
    + apply dict_empty_true in He. subst p. eauto 10.
    + eauto 10.
  - eauto 10.
Qed.

Section MenuPrototype.

Context (ext : services).

(** X1: a value written with [_set_prototype_value] is the one
    [_get_current_value] shows for that field, as the prototype's own
    value; the Template then is the old one with that field written, and
    the flattened prototype is neither asked for nor cached. *)
Theorem set_value_then_current_value (w : world) (field : string) (value : pyval) :
  let w1 := snd (_set_prototype_value field value w) in
  _get_current_value ext field w1 =
    (Ok ("Current " +:+ field +:+ ": " +:+ py_str ext value), w1) /\
  template w1 = <[field := value]> (template w) /\
  olc_flat_prototype w1 = olc_flat_prototype w.
Proof.
  intros w1.
  destruct (set_prototype_value_run w field value) as (w' & Hrun & Hp & Hflat & _).
  assert (Hw1 : w1 = w') by (subst w1; rewrite Hrun; reflexivity).
  assert (Ht : template w1 = <[field := value]> (template w)).
  { unfold template at 1. rewrite Hw1, Hp. reflexivity. }
  split; [| split; [exact Ht | rewrite Hw1; exact Hflat]].
  destruct (template_nonempty_get w1) as [_ Hget].
  { rewrite Ht. apply dict_empty_insert. }
  unfold _get_current_value. unfold M_bind at 1. rewrite Hget, Ht.
  rewrite lookup_insert_eq. reflexivity.
Qed.

(** X2: once a flattened prototype that is not empty is cached, it is
    what [_get_flat_menu_prototype] answers from then on: a field written
    afterwards does not refresh it, and [_get_current_value] shows the
    cached value for every field the prototype does not hold itself. *)
Theorem flat_prototype_stays_cached (w : world) (flat : gmap string pyval)
    (field keyname : string) (value inherited : pyval) :
  olc_flat_prototype w = Some flat ->
  dict_empty flat = false ->
  keyname <> field ->
  template w !! keyname = None ->
  flat !! keyname = Some inherited ->
  let w1 := snd (_set_prototype_value field value w) in
  _get_flat_menu_prototype ext w1 = (Ok flat, w1) /\
  _get_current_value ext keyname w1 =
    (Ok ("Current " +:+ keyname +:+ " (|binherited|n): " +:+ py_str ext inherited), w1).
Proof.
  intros Hflat Hne Hkey Hown Hinh w1.
  destruct (set_prototype_value_run w field value) as (w' & Hrun & Hp & Hflat' & _).
  assert (Hw1 : w1 = w') by (subst w1; rewrite Hrun; reflexivity).
  assert (Ht : template w1 = <[field := value]> (template w)).
  { unfold template at 1. rewrite Hw1, Hp. reflexivity. }
  assert (Hcached : _get_flat_menu_prototype ext w1 = (Ok flat, w1)).
  { unfold _get_flat_menu_prototype. run_M.
    rewrite Hw1, Hflat', Hflat. simpl. rewrite Hne. reflexivity. }
  split; [exact Hcached |].
  destruct (template_nonempty_get w1) as [_ Hget].
  { rewrite Ht. apply dict_empty_insert. }
  unfold _get_current_value. unfold M_bind at 1. rewrite Hget, Ht.
  rewrite lookup_insert_ne by congruence. rewrite Hown.
  unfold M_bind at 1. rewrite Hcached, Hinh. reflexivity.
Qed.

(** X3: [_set_menu_prototype] leaves the menu marked as new for
    [_is_new_prototype], which only looks whether [olc_new] is there; and
    a prototype that is not empty is what [_get_menu_prototype] returns
    next, the caller unchanged. *)
Theorem set_menu_prototype_then_get (w : world) (prototype : gmap string pyval) :
  let w1 := snd (_set_menu_prototype prototype w) in
  _is_new_prototype w1 = true /\
  (dict_empty prototype = false -> _get_menu_prototype w1 = (Ok prototype, w1)).
Proof.
  intros w1. split; [reflexivity |].
  intros Hne. unfold _get_menu_prototype. run_M. rewrite Hne. reflexivity.
Qed.

(** X5: at the prototype-key node, a key that names a saved prototype
    the caller may not edit is turned away: the caller is told so, the
    node stays the prototype-key node, and nothing of the menu changes. *)
Theorem check_prototype_key_denied (w : world) (raw_string : string)
    (old_prototype : gmap string pyval) (rest : list (gmap string pyval))
    (locks : pyval) :
  search_prototype ext (Some raw_string) = old_prototype :: rest ->
  old_prototype !! "prototype_locks" = Some locks ->
  check_lockstring ext locks = false ->
  _check_prototype_key ext raw_string w =
    (Ok (Some "node_prototype_key"),
     set_outbox (outbox w ++
       ["Prototype '" +:+ PyStr.lower (PyStr.strip raw_string) +:+
        "' already exists and you don't " +:+ "have permission to edit it."]) w).
Proof.
  intros Hsearch Hlocks Hcheck. unfold _check_prototype_key. run_M.
  rewrite Hsearch, Hlocks, Hcheck. reflexivity.
Qed.

(** A key of a saved prototype the caller may edit, typed while the
    menu is marked new. *)
Lemma check_prototype_key_reload_run (w : world) (raw_string : string)
    (old_prototype : gmap string pyval) (rest : list (gmap string pyval))
    (locks : pyval) :
  search_prototype ext (Some raw_string) = old_prototype :: rest ->
  old_prototype !! "prototype_locks" = Some locks ->
  check_lockstring ext locks = true ->
  _is_new_prototype w = true ->
  _check_prototype_key ext raw_string w =
    (Ok (Some "node_index"),
     set_outbox (outbox w ++ ["Prototype already exists. Reloading."])
       (set_olc_prototype (Some old_prototype) (set_olc_new None w))).
Proof.
  intros Hsearch Hlocks Hcheck Hnew. unfold _check_prototype_key. run_M.
  rewrite Hsearch, Hlocks, Hcheck, Hnew. reflexivity.
Qed.

(** X6: at the prototype-key node, a key that names a saved prototype
    the caller may edit, typed while the menu is marked new, loads that
    prototype: it replaces the Template, whatever was typed into it, the
    mark is removed and the menu goes to the index. *)
Theorem check_prototype_key_reloads (w : world) (raw_string : string)
    (old_prototype : gmap string pyval) (rest : list (gmap string pyval))
    (locks : pyval) :
  search_prototype ext (Some raw_string) = old_prototype :: rest ->
  old_prototype !! "prototype_locks" = Some locks ->
  check_lockstring ext locks = true ->
  _is_new_prototype w = true ->
  let run := _check_prototype_key ext raw_string w in
  fst run = Ok (Some "node_index") /\
  olc_prototype (snd run) = Some old_prototype /\
  _is_new_prototype (snd run) = false /\
  outbox (snd run) = outbox w ++ ["Prototype already exists. Reloading."].
Proof.
  intros Hsearch Hlocks Hcheck Hnew run. subst run.
  rewrite (check_prototype_key_reload_run w raw_string old_prototype rest locks)
    by assumption.
  repeat split; reflexivity.
Qed.

(** X4: a prototype loaded with [_prototype_load_select] becomes the
    Template, and the menu still counts as new.  So when a field has been
    written since and the caller then types, at the prototype-key node,
    the key of a saved prototype that may be edited, the Template is
    replaced by what the search answers at that time.  The module keeps
    the dict a search answers without copying it and writes its fields
    into it, so a later search may answer with the field written: [later]
    stands for the services as they are when the key is typed, and
    nothing is assumed on how their answers relate to the earlier ones. *)
Theorem loaded_prototype_counts_as_new (later : services) (w : world)
    (prototype_key : string)
    (prototype : gmap string pyval) (others : list (gmap string pyval))
    (field : string) (value : pyval) (raw_string : string)
    (old_prototype : gmap string pyval) (rest : list (gmap string pyval))
    (locks : pyval) :
  search_prototype ext (Some prototype_key) = prototype :: others ->
  search_prototype later (Some raw_string) = old_prototype :: rest ->
  old_prototype !! "prototype_locks" = Some locks ->
  check_lockstring later locks = true ->
  let w1 := snd (_prototype_load_select ext prototype_key w) in
  let w2 := snd (_set_prototype_value field value w1) in
  let w3 := snd (_check_prototype_key later raw_string w2) in
  fst (_prototype_load_select ext prototype_key w) = Ok (Some "node_index") /\
  olc_prototype w1 = Some prototype /\
  _is_new_prototype w1 = true /\
  template w2 !! field = Some value /\
  fst (_check_prototype_key later raw_string w2) = Ok (Some "node_index") /\
  template w3 = old_prototype.
Proof.
  intros Hfound Hsearch Hlocks Hcheck w1 w2 w3.
  assert (Hload : _prototype_load_select ext prototype_key w =
            (Ok (Some "node_index"),
             set_outbox (outbox w ++ ["|gLoaded prototype '" +:+ prototype_key +:+ "'."])
               (set_olc_new (Some false) (set_olc_prototype (Some prototype) w)))).
  { unfold _prototype_load_select. rewrite Hfound. reflexivity. }
  assert (Hw1 : w1 = set_outbox (outbox w ++ ["|gLoaded prototype '" +:+ prototype_key
                                             +:+ "'."])
                       (set_olc_new (Some false) (set_olc_prototype (Some prototype) w)))
    by (subst w1; rewrite Hload; reflexivity).
  assert (Hnew2 : _is_new_prototype w2 = true).
  { subst w2. unfold _set_prototype_value, _get_menu_prototype. run_M.
    rewrite Hw1. simpl. destruct (dict_empty prototype); reflexivity. }
  destruct (set_prototype_value_run w1 field value) as (w' & Hrun & Hp & _).
  assert (Hw2 : w2 = w') by (subst w2; rewrite Hrun; reflexivity).
  split; [rewrite Hload; reflexivity |].
  split; [rewrite Hw1; reflexivity |].
  split; [rewrite Hw1; reflexivity |].
  split; [unfold template; rewrite Hw2, Hp; simpl; apply lookup_insert_eq |].
  assert (Hreload : _check_prototype_key later raw_string w2 =
            (Ok (Some "node_index"),
             set_outbox (outbox w2 ++ ["Prototype already exists. Reloading."])
               (set_olc_prototype (Some old_prototype) (set_olc_new None w2)))).
  { unfold _check_prototype_key. run_M.
    rewrite Hsearch, Hlocks, Hcheck, Hnew2. reflexivity. }
  subst w3. rewrite Hreload. split; reflexivity.
Qed.

End MenuPrototype.

(** A flattened prototype cached with the inherited key "goblin". *)
Lemma cached_goblin :
  olc_flat_prototype (set_olc_flat_prototype (Some {[ "key" := PStr "goblin" ]}) fresh_world)
    = Some {[ "key" := PStr "goblin" ]}.
Proof. reflexivity. Qed.

(** X2, witness: the parent gives the key "goblin"; a description is
    written, and the key shown is still the cached one. *)
Lemma flat_prototype_stays_cached_witness :
  let w := set_olc_flat_prototype (Some {[ "key" := PStr "goblin" ]}) fresh_world in
  let w1 := snd (_set_prototype_value "desc" (PStr "A goblin") w) in
  _get_flat_menu_prototype plain_services w1 = (Ok {[ "key" := PStr "goblin" ]}, w1) /\
  _get_current_value plain_services "key" w1 =
    (Ok ("Current " +:+ "key" +:+ " (|binherited|n): " +:+
         py_str plain_services (PStr "goblin")), w1).
Proof.
  intros w.
  apply (flat_prototype_stays_cached plain_services w {[ "key" := PStr "goblin" ]}
           "desc" "key" (PStr "A goblin") (PStr "goblin")).
  - exact cached_goblin.
  - reflexivity.
  - discriminate.
  - reflexivity.
  - reflexivity.
Defined.

(** X3, witness *)
Lemma set_menu_prototype_then_get_witness :
  let p : gmap string pyval := {[ "key" := PStr "goblin" ]} in
  let w1 := snd (_set_menu_prototype p fresh_world) in
  _is_new_prototype w1 = true /\ _get_menu_prototype w1 = (Ok p, w1).
Proof.
  intros p w1.
  destruct (set_menu_prototype_then_get fresh_world p) as [Hnew Hget].
  split; [exact Hnew | apply Hget; reflexivity].
Defined.

(** A registry search that knows the saved prototype "goblin". *)
Lemma goblin_found :
  search_prototype
    (with_search (fun _ => [ {[ "prototype_key" := PStr "goblin";
                                "prototype_locks" := PStr "edit:false()" ]} ])
       plain_services) (Some "Goblin")
  = [ {[ "prototype_key" := PStr "goblin"; "prototype_locks" := PStr "edit:false()" ]} ].
Proof. reflexivity. Qed.

(** X6, witness: "Goblin" typed in a menu marked new, with "goblin" saved
    and open to the caller. *)
Lemma check_prototype_key_reloads_witness :
  let saved : gmap string pyval :=
    {[ "prototype_key" := PStr "goblin"; "prototype_locks" := PStr "edit:false()" ]} in
  let ext := with_search (fun _ => [saved]) plain_services in
  let w := set_olc_new (Some true) fresh_world in
  let run := _check_prototype_key ext "Goblin" w in
  fst run = Ok (Some "node_index") /\
  olc_prototype (snd run) = Some saved /\
  _is_new_prototype (snd run) = false /\
  outbox (snd run) = outbox w ++ ["Prototype already exists. Reloading."].
Proof.
  intros saved ext w.
  apply (check_prototype_key_reloads ext w "Goblin" saved [] (PStr "edit:false()")).
  - exact goblin_found.
  - reflexivity.
  - reflexivity.
  - reflexivity.
Defined.

(** X4, witness: "goblin" is loaded and a description is written; the
    registry's dict for "goblin" is the one written to, so the search made
    when "Goblin" is typed at the prototype-key node answers with the
    description, and that answer becomes the Template. *)
Lemma loaded_prototype_counts_as_new_witness :
  let saved : gmap string pyval :=
    {[ "prototype_key" := PStr "goblin"; "prototype_locks" := PStr "edit:false()" ]} in
  let written : gmap string pyval := <["desc" := PStr "A goblin"]> saved in
  let ext := with_search (fun _ => [saved]) plain_services in
  let later := with_search (fun _ => [written]) plain_services in
  let w1 := snd (_prototype_load_select ext "goblin" fresh_world) in
  let w2 := snd (_set_prototype_value "desc" (PStr "A goblin") w1) in
  let w3 := snd (_check_prototype_key later "Goblin" w2) in
  fst (_prototype_load_select ext "goblin" fresh_world) = Ok (Some "node_index") /\
  olc_prototype w1 = Some saved /\
  _is_new_prototype w1 = true /\
  template w2 !! "desc" = Some (PStr "A goblin") /\
  fst (_check_prototype_key later "Goblin" w2) = Ok (Some "node_index") /\
  template w3 = written.
Proof.
  intros saved written ext later.
  apply (loaded_prototype_counts_as_new ext later fresh_world "goblin" saved []
           "desc" (PStr "A goblin") "Goblin" written [] (PStr "edit:false()"));
    reflexivity.
Defined.

(** X5, witness: "Goblin" typed while "goblin" is saved and closed to the
    caller. *)
Lemma check_prototype_key_denied_witness :
  _check_prototype_key locked_services "Goblin" fresh_world =
    (Ok (Some "node_prototype_key"),
     set_outbox (outbox fresh_world ++
       ["Prototype '" +:+ PyStr.lower (PyStr.strip "Goblin") +:+
        "' already exists and you don't " +:+ "have permission to edit it."]) fresh_world).
Proof.
  apply (check_prototype_key_denied locked_services fresh_world "Goblin"
           {[ "prototype_key" := PStr "goblin"; "prototype_locks" := PStr "edit:false()" ]}
           [] (PStr "edit:false()")); reflexivity.
Defined.

(** ** Selections from a list, and the inputs of the list fields *)

Lemma split_not_nil (sep : ascii) (maxsplit : option nat) (s : string) :
  PyStr.split sep maxsplit s <> [].
Proof.
  revert maxsplit. induction s as [|a s IH]; intros maxsplit; simpl; [discriminate |].
  destruct (match maxsplit with Some 0 => false | _ => Ascii.eqb a sep end);
    [discriminate |].
  destruct (PyStr.split sep maxsplit s); discriminate.
Qed.

Section Selections.

Context (ext : services).

(** X7: [_prototype_parent_select] never stores the parent selected.
    It hands the empty string to [_set_property], which skips it: the
    caller is told "Selected prototype ..." and sent to the typeclass
    node, and nothing of the menu changes, the Template included. *)
Theorem prototype_parent_select_stores_nothing (w : world) (prototype : string) :
  _prototype_parent_select ext prototype w =
    (Ok (Some "node_typeclass"),
     set_outbox (outbox w ++ ["Selected prototype |y" +:+ prototype +:+ "|n."]) w).
Proof. reflexivity. Qed.

(** X8: [_typeclass_select] writes a typeclass that is not the empty
    string under "typeclass", touching no other field, sends the caller to
    the key node, and its last message names the typeclass selected. *)
Theorem typeclass_select_stores (w : world) (typeclass : string) :
  typeclass <> "" ->
  let run := _typeclass_select ext typeclass w in
  fst run = Ok (Some "node_key") /\
  template (snd run) = <["typeclass" := PStr typeclass]> (template w) /\
  last (outbox (snd run)) = Some ("Selected typeclass |y" +:+ typeclass +:+ "|n.").
Proof.
  intros Hne run.
  set (kwargs := ({[ "prop" := KStr "typeclass"; "processor" := KProc str_processor;
                     "next_node" := KStr "node_key" ]} : gmap string kwval)).
  assert (Hproc : processed kwargs typeclass = Ok (PStr typeclass)) by reflexivity.
  assert (Ht : truthy (PStr typeclass) = true).
  { simpl. destruct (String.eqb_spec typeclass ""); [contradiction | reflexivity]. }
  destruct (set_property_stores ext w typeclass kwargs (PStr typeclass) Hproc Ht)
    as (w' & Hrun & Hp).
  assert (Hall : run =
            (Ok (Some "node_key"),
             set_outbox (outbox w' ++ ["Selected typeclass |y" +:+ typeclass +:+ "|n."])
               w')).
  { subst run. unfold _typeclass_select. fold kwargs.
    unfold M_bind at 1. rewrite Hrun. reflexivity. }
  rewrite Hall. split; [reflexivity | split].
  - unfold template at 1. cbn [snd set_outbox olc_prototype]. rewrite Hp. reflexivity.
  - apply last_snoc.
Qed.

(** X9: the inputs of the comma-separated fields (aliases, attrs,
    permissions) are never skipped.  The processor answers a list with
    at least one part for every input, the empty one included, and
    [_set_property] writes that list under the field and goes on to the
    next node. *)
Theorem comma_list_input_always_stored (w : world) (raw_string prop next_node : string) :
  let kwargs : gmap string kwval :=
    {[ "prop" := KStr prop; "processor" := KProc comma_list_processor;
       "next_node" := KStr next_node ]} in
  exists (parts : list pyval) (w1 : world),
    parts <> [] /\
    comma_list_processor raw_string = Ok (PList parts) /\
    _set_property ext raw_string kwargs w = (Ok (Some next_node), w1) /\
    template w1 = <[prop := PList parts]> (template w).
Proof.
  intros kwargs.
  set (parts := (fun part => PStr (PyStr.strip part)) <$> PyStr.split "," None raw_string).
  assert (Hparts : parts <> []).
  { subst parts. pose proof (split_not_nil "," None raw_string) as Hsplit.
    destruct (PyStr.split "," None raw_string); [contradiction | discriminate]. }
  assert (Hproc : processed kwargs raw_string = Ok (PList parts)) by reflexivity.
  assert (Ht : truthy (PList parts) = true).
  { simpl. destruct parts; [contradiction | reflexivity]. }
  destruct (set_property_stores ext w raw_string kwargs (PList parts) Hproc Ht)
    as (w1 & Hrun & Hp).
  exists parts, w1. split; [exact Hparts |]. split; [reflexivity |].
  split; [exact Hrun |]. unfold template at 1. rewrite Hp. reflexivity.
Qed.

End Selections.

(** X8, witness *)
Lemma typeclass_select_stores_witness :
  let run := _typeclass_select plain_services "typeclasses.monsters.Goblin" fresh_world in
  fst run = Ok (Some "node_key") /\
  template (snd run) =
    <["typeclass" := PStr "typeclasses.monsters.Goblin"]> (template fresh_world) /\
  last (outbox (snd run)) =
    Some ("Selected typeclass |y" +:+ "typeclasses.monsters.Goblin" +:+ "|n.").
Proof.
  apply (typeclass_select_stores plain_services fresh_world "typeclasses.monsters.Goblin").
  discriminate.
Defined.

(** The empty input at the aliases node: the list with the empty alias
    is stored. *)
Example empty_aliases_are_stored :
  template (snd (_set_property plain_services ""
              {[ "prop" := KStr "aliases"; "processor" := KProc comma_list_processor;
                 "next_node" := KStr "node_attrs" ]} fresh_world)) !! "aliases"
  = Some (PList [PStr ""]).
Proof. vm_compute. reflexivity. Qed.

(** ** Tags and attributes: appending, editing, examining *)

Lemma pyval_eqb_eq : forall a b : pyval, pyval_eqb a b = true -> a = b.
Proof.
  fix IH 1. intros a b.
  destruct a as [|s|xs|xs], b as [|t|ys|ys]; simpl; try discriminate; intros H.
  - reflexivity.
  - apply String.eqb_eq in H. congruence.
  - f_equal. revert ys H.
    induction xs as [|x xs IHxs]; intros [|y ys] H; try discriminate; [reflexivity |].
    apply andb_true_iff in H as [Hx Hxs].
    f_equal; [apply IH; exact Hx | apply IHxs; exact Hxs].
  - f_equal. revert ys H.
    induction xs as [|x xs IHxs]; intros [|y ys] H; try discriminate; [reflexivity |].
    apply andb_true_iff in H as [Hx Hxs].
    f_equal; [apply IH; exact Hx | apply IHxs; exact Hxs].
Qed.

Lemma py_index_found (x : pyval) (names : list pyval) (i : nat) :
  py_index x names = Ok i -> names !! i = Some x.
Proof.
  revert i. induction names as [|y names IH]; intros i H; simpl in H; [discriminate |].
  destruct (pyval_eqb y x) eqn:Hy.
  - injection H as <-. apply pyval_eqb_eq in Hy. subst y. reflexivity.
  - destruct (py_index x names) as [j|]; [| discriminate]. simpl in H.
    injection H as <-. simpl. apply IH. reflexivity.
Qed.

Lemma py_index_missing (x : pyval) (names : list pyval) (e : pyexn) :
  pyval_eqb x x = true ->
  py_index x names = Raise e -> x ∉ names.
Proof.
  intros Hx. induction names as [|y names IH]; simpl; intros H.
  - apply not_elem_of_nil.
  - destruct (pyval_eqb y x) eqn:Hy; [discriminate |].
    destruct (py_index x names); [discriminate |]. simpl in H.
    apply not_elem_of_cons. split; [| apply IH; exact H].
    intros ->. congruence.
Qed.

Lemma take_delete_insert (l : list pyval) (i : nat) (x : pyval) :
  i < length l ->
  take i (delete i l) ++ x :: drop i (delete i l) = <[i := x]> l.
Proof.
  revert i. induction l as [|y l IH]; intros i Hlt; simpl in Hlt; [lia |].
  destruct i as [|i]; [reflexivity |].
  simpl. f_equal. apply IH. lia.
Qed.

Lemma delete_all_insert (l : list pyval) (i : nat) (x : pyval) :
  i < length l -> delete i l = [] -> <[i := x]> l = [x].
Proof.
  destruct l as [|y [|z l]]; simpl; intros Hlt Hdel; [lia | |].
  - destruct i; [reflexivity | lia].
  - destruct i; discriminate.
Qed.

(** Removing the entry at an index and putting another one there, as
    [_add_tag] does, is replacing the entry. *)
Lemma delete_then_insert (l : list pyval) (i : nat) (x : pyval) :
  i < length l ->
  (if truthy (PList (delete i l))
   then py_insert (PList (delete i l)) i x
   else Ok (PList [x])) = Ok (PList (<[i := x]> l)).
Proof.
  intros Hlt. destruct (delete i l) as [|u rest] eqn:Hdel.
  - simpl. rewrite (delete_all_insert l i x Hlt Hdel). reflexivity.
  - change (truthy (PList (u :: rest))) with true. cbv iota.
    unfold py_insert. rewrite <- Hdel. rewrite (take_delete_insert l i x Hlt).
    reflexivity.
Qed.

Section Tags.

Context (ext : services).

Lemma display_tag_tuple (tag : string) (category : pyval) (data : string) :
  exists shown, _display_tag ext (PTuple [PStr tag; category; PStr data]) = Ok shown.
Proof. eexists. reflexivity. Qed.

(** What [_add_tag] does once the new list of tags is made. *)
Lemma add_tag_stores (w0 : world) (tags : pyval) (tag : string) (category : pyval)
    (data : string) (kwargs : gmap string kwval) :
  exists text w1,
    (_set_prototype_value "tags" tags ;;;
     if String.eqb (kw_str kwargs "text" "") "" then
       shown <- lift (_display_tag ext (PTuple [PStr tag; category; PStr data])) ;;
       match kwargs !! "edit" with
       | Some _ => M_ret ("Edited " +:+ shown)
       | None => M_ret ("Added " +:+ shown)
       end
     else M_ret (kw_str kwargs "text" "")) w0 = (Ok text, w1) /\
    template w1 !! "tags" = Some tags.
Proof.
  destruct (set_prototype_value_spec w0 "tags" tags) as (w1 & Hset & Hp & _).
  unfold M_bind at 1. rewrite Hset.
  assert (Hlook : template w1 !! "tags" = Some tags).
  { unfold template. rewrite Hp. simpl. apply lookup_insert_eq. }
  destruct (kw_str kwargs "text" "" =? "").
  - unfold M_bind, lift. simpl. destruct (kwargs !! "edit"); unfold M_ret; eauto.
  - unfold M_ret. eauto.
Qed.

(** X10: [_add_tag] without an "edit" keyword appends the tag to the
    list of tags, whatever the list holds: a tag of the same name is not
    replaced, so a tag added twice is in the list twice. *)
Theorem add_tag_appends (w : world) (tag : string) (kwargs : gmap string kwval)
    (l : list pyval) :
  let '(name, category, data) := add_tag_locals tag in
  name <> "" ->
  kwargs !! "edit" = None ->
  default (PList []) (template w !! "tags") = PList l ->
  exists text w1,
    _add_tag ext tag kwargs w = (Ok (text, [stay_option]), w1) /\
    template w1 !! "tags" = Some (PList (l ++ [PTuple [PStr name; category; PStr data]])).
Proof.
  unfold _add_tag.
  destruct (add_tag_locals tag) as [[name category] data].
  intros Hname Hedit Htags.
  destruct (String.eqb_spec name "") as [|_]; [contradiction |]. simpl negb. cbv iota.
  destruct (get_menu_prototype_spec w) as (w0 & Hget & _).
  unfold M_bind at 1. unfold M_bind at 1. rewrite Hget.
  rewrite Htags.
  replace (default KNone (kwargs !! "edit")) with KNone by (rewrite Hedit; reflexivity).
  unfold M_bind at 1. unfold get_world at 1. cbn [kw_truthy negb].
  unfold M_bind at 1. unfold lift at 1. simpl py_append. cbv iota beta.
  destruct (add_tag_stores w0 (PList (l ++ [PTuple [PStr name; category; PStr data]]))
              name category data kwargs) as (text & w1 & Hrun & Hlook).
  rewrite Hrun. unfold M_ret. eauto.
Qed.

(** X11: [_add_tag] with the "edit" keyword naming a tag that is in the
    list puts the new tag where the old one was: the list keeps its
    length and every other tag its place. *)
Theorem edit_tag_in_place (w : world) (old_tag new_tag : string)
    (l names : list pyval) (i : nat) :
  let '(name, category, data) := add_tag_locals new_tag in
  name <> "" ->
  old_tag <> "" ->
  template w !! "tags" = Some (PList l) ->
  firsts l = Ok names ->
  py_index (PStr old_tag) names = Ok i ->
  exists text w1,
    _edit_tag ext old_tag new_tag w = (Ok (text, [stay_option]), w1) /\
    template w1 !! "tags" = Some (PList (<[i := PTuple [PStr name; category; PStr data]]> l)).
Proof.
  unfold _edit_tag, _add_tag.
  destruct (add_tag_locals new_tag) as [[name category] data].
  intros Hname Hold Htags Hfirsts Hind.
  destruct (String.eqb_spec name "") as [|_]; [contradiction |]. simpl negb. cbv iota.
  destruct (get_menu_prototype_spec w) as (w0 & Hget & _).
  unfold M_bind at 1. unfold M_bind at 1. rewrite Hget. rewrite Htags.
  replace (default KNone (({[ "edit" := KStr old_tag ]} : gmap string kwval) !! "edit"))
    with (KStr old_tag) by (rewrite lookup_singleton_eq; reflexivity).
  unfold M_bind at 1. unfold get_world at 1. cbn [kw_truthy].
  destruct (String.eqb_spec old_tag "") as [|_]; [contradiction |]. cbn [negb].
  cbn [default from_option id].
  assert (Hedit : add_tag_edit (PList l) (KStr old_tag)
                    (PTuple [PStr name; category; PStr data])
                  = Ok (PList (<[i := PTuple [PStr name; category; PStr data]]> l))).
  { unfold add_tag_edit. cbn [py_iter result_bind]. rewrite Hfirsts.
    cbn [result_bind]. rewrite Hind. cbn [result_bind py_delitem].
    pose proof (py_index_lt _ _ _ Hind) as Hlt.
    rewrite (firsts_length _ _ Hfirsts) in Hlt.
    rewrite (delete_then_insert l i _ Hlt). reflexivity. }
  unfold M_bind at 1. unfold lift at 1. rewrite Hedit.
  destruct (add_tag_stores w0 (PList (<[i := PTuple [PStr name; category; PStr data]]> l))
              name category data {[ "edit" := KStr old_tag ]})
    as (text & w1 & Hrun & Hlook).
  rewrite Hrun. unfold M_ret. eauto.
Qed.

(** X12: an input without a name is turned away by [_add_tag] and by
    [_add_attr] alike: the caller gets the text that tells the form to
    use, and nothing of the menu changes. *)
Theorem nameless_input_changes_nothing (w : world) (kwargs : gmap string kwval) :
  (forall tag : string,
     fst (fst (add_tag_locals tag)) = "" ->
     _add_tag ext tag kwargs w =
       (Ok ("Tag must be given as 'tag[;category;data].", [stay_option]), w)) /\
  (forall (attr_string value : string) (category : pyval) (locks : string),
     add_attr_locals attr_string = Ok ("", Some value, category, locks) ->
     _add_attr ext attr_string kwargs w =
       (Ok ("Attribute must be given as 'attrname[;category;locks] = <value>'.",
            [stay_option]), w)).
Proof.
  split.
  - intros tag Hname. unfold _add_tag.
    destruct (add_tag_locals tag) as [[name category] data]. simpl in Hname.
    subst name. reflexivity.
  - intros attr_string value category locks Hlocals.
    unfold _add_attr. unfold M_bind at 1. unfold lift at 1. rewrite Hlocals.
    reflexivity.
Qed.

End Tags.

(** X10, witness: "Orc" added to a list that holds "orc" already. *)
Lemma add_tag_appends_witness :
  let w := set_olc_prototype
             (Some {[ "tags" := PList [PTuple [PStr "orc"; PNone; PStr ""]] ]}) fresh_world in
  exists text w1,
    _add_tag plain_services "Orc" ∅ w = (Ok (text, [stay_option]), w1) /\
    template w1 !! "tags" =
      Some (PList ([PTuple [PStr "orc"; PNone; PStr ""]]
                   ++ [PTuple [PStr "orc"; PNone; PStr ""]])).
Proof.
  intros w.
  apply (add_tag_appends plain_services w "Orc" ∅ [PTuple [PStr "orc"; PNone; PStr ""]]).
  - discriminate.
  - reflexivity.
  - reflexivity.
Defined.

(** X11, witness: of the tags "orc" and "goblin", "goblin" is edited to
    "troll;monster". *)
Lemma edit_tag_in_place_witness :
  let tags := [PTuple [PStr "orc"; PNone; PStr ""]; PTuple [PStr "goblin"; PNone; PStr ""]] in
  let w := set_olc_prototype (Some {[ "tags" := PList tags ]}) fresh_world in
  exists text w1,
    _edit_tag plain_services "goblin" "troll;monster" w = (Ok (text, [stay_option]), w1) /\
    template w1 !! "tags" =
      Some (PList (<[1 := PTuple [PStr "troll"; PStr "monster"; PStr ""]]> tags)).
Proof.
  intros tags w.
  apply (edit_tag_in_place plain_services w "goblin" "troll;monster" tags
           [PStr "orc"; PStr "goblin"] 1).
  - discriminate.
  - discriminate.
  - reflexivity.
  - reflexivity.
  - reflexivity.
Defined.

(** X12, witness: the tag ";monster" and the attribute ";physical=12". *)
Lemma nameless_input_changes_nothing_witness :
  _add_tag plain_services ";monster" ∅ fresh_world =
    (Ok ("Tag must be given as 'tag[;category;data].", [stay_option]), fresh_world) /\
  _add_attr plain_services ";physical=12" ∅ fresh_world =
    (Ok ("Attribute must be given as 'attrname[;category;locks] = <value>'.",
         [stay_option]), fresh_world).
Proof.
  destruct (nameless_input_changes_nothing plain_services fresh_world ∅) as [Htag Hattr].
  split.
  - apply Htag. reflexivity.
  - apply (Hattr ";physical=12" "12" (PStr "physical") ""). reflexivity.
Defined.

Lemma dict_with_field_not_empty {V} (d : gmap string V) (k : string) (v : V) :
  d !! k = Some v -> dict_empty d = false.
Proof.
  intros Hk. unfold dict_empty. apply bool_decide_eq_false_2. intros Hsize.
  apply map_size_empty_iff in Hsize. subst d. rewrite lookup_empty in Hk. discriminate.
Qed.

Section Attributes.

Context (ext : services).

(** The two ways [_add_attr] stores an entry: over the first entry of
    its name, or at the end when no entry has the name. *)
Lemma add_attr_store_cases (w w1 : world) (attrname : string) (attr_tuple : pyval)
    (kwargs : gmap string kwval) (text : string) (l names : list pyval) :
  attrname <> "" ->
  default (PList []) (template w !! "attrs") = PList l ->
  firsts l = Ok names ->
  add_attr_store ext attrname attr_tuple kwargs w = (Ok text, w1) ->
  (exists i, py_index (PStr attrname) names = Ok i /\
             template w1 !! "attrs" = Some (PList (<[i := attr_tuple]> l))) \/
  (py_index (PStr attrname) names = Raise (ValueError "value is not in list") /\
   template w1 !! "attrs" = Some (PList (l ++ [attr_tuple]))).
Proof.
  intros Hname Hattrs Hfirsts Hrun. unfold add_attr_store in Hrun.
  destruct (String.eqb_spec attrname "") as [|_]; [contradiction |]. simpl in Hrun.
  destruct (get_menu_prototype_spec w) as (w0 & Hget & Hp0 & _).
  unfold M_bind at 1 in Hrun. rewrite Hget, Hattrs in Hrun.
  unfold M_bind at 1 in Hrun. unfold lift at 1 in Hrun.
  cbn [py_iter result_bind] in Hrun. rewrite Hfirsts in Hrun.
  unfold M_bind at 1 in Hrun. unfold lift at 1 in Hrun.
  assert (Hstored : forall attrs',
    (let (r, w') := _set_prototype_value "attrs" attrs' w0 in
     match r with
     | Ok a =>
         (if kw_str kwargs "text" "" =? ""
          then
            shown <- lift (_display_attribute ext attr_tuple) ;;
            match kwargs !! "edit" with
            | Some _ => M_ret ("Edited " +:+ shown)
            | None => M_ret ("Added " +:+ shown)
            end
          else M_ret (kw_str kwargs "text" "")) w'
     | Raise e => (Raise e, w')
     end) = (Ok text, w1) ->
    template w1 !! "attrs" = Some attrs').
  { intros attrs' H.
    destruct (set_prototype_value_spec w0 "attrs" attrs') as (w' & Hset & Hp' & _).
    rewrite Hset in H.
    assert (Hw1 : w1 = w').
    { destruct (kw_str kwargs "text" "" =? "").
      - unfold M_bind, lift in H.
        destruct (_display_attribute ext attr_tuple); [| discriminate].
        destruct (kwargs !! "edit"); unfold M_ret in H; congruence.
      - unfold M_ret in H. congruence. }
    subst w1. unfold template. rewrite Hp'. simpl. apply lookup_insert_eq. }
  destruct (py_index (PStr attrname) names) as [ind|e] eqn:Hind.
  - left. exists ind. split; [reflexivity |]. apply Hstored. exact Hrun.
  - pose proof (py_index_raises _ _ _ Hind) as ->.
    right. split; [reflexivity |]. apply Hstored. exact Hrun.
Qed.

(** X13: the names of the attrs list stay unique.  When no two entries
    of the list have the same name, none have after [_add_attr]: the
    entry replaces the one of its name or is appended, so the list keeps
    its length or grows by one. *)
Theorem add_attr_keeps_names_unique (w w1 : world) (attr_string : string)
    (kwargs : gmap string kwval) (r : string * list menu_option)
    (l names : list pyval) :
  default (PList []) (template w !! "attrs") = PList l ->
  firsts l = Ok names ->
  NoDup names ->
  _add_attr ext attr_string kwargs w = (Ok r, w1) ->
  exists l1 names1,
    default (PList []) (template w1 !! "attrs") = PList l1 /\
    firsts l1 = Ok names1 /\
    NoDup names1 /\
    (length l ≤ length l1 ≤ S (length l))%nat.
Proof.
  intros Hattrs Hfirsts Hnodup Hrun. unfold _add_attr in Hrun.
  unfold M_bind at 1 in Hrun. unfold lift at 1 in Hrun.
  destruct (add_attr_locals attr_string) as [[[[attrname value] category] locks]|e];
    [| discriminate].
  destruct value as [value|]; [| discriminate].
  unfold M_bind at 1 in Hrun.
  destruct (add_attr_store ext attrname _ kwargs w) as [[text|e] w'] eqn:Hstore;
    [| discriminate].
  assert (w1 = w') as -> by (unfold M_ret in Hrun; congruence).
  destruct (String.eqb_spec attrname "") as [Hempty | Hname].
  - unfold add_attr_store in Hstore. rewrite Hempty in Hstore. simpl in Hstore.
    unfold M_ret in Hstore. injection Hstore as _ <-.
    exists l, names. repeat split; [assumption | assumption | assumption | lia | lia].
  - set (entry := PTuple [PStr attrname; PStr value; category; PStr locks]) in *.
    assert (Hfirst : py_first entry = Ok (PStr attrname)) by reflexivity.
    destruct (add_attr_store_cases w w' attrname entry kwargs text l names
                Hname Hattrs Hfirsts Hstore) as [(i & Hind & Hlook) | (Hind & Hlook)].
    + exists (<[i := entry]> l), names. rewrite Hlook. simpl.
      split; [reflexivity |]. split.
      * rewrite (firsts_insert l names i entry (PStr attrname) Hfirsts Hfirst).
        rewrite (list_insert_id _ _ _ (py_index_found _ _ _ Hind)). reflexivity.
      * split; [assumption |]. rewrite length_insert. lia.
    + exists (l ++ [entry]), (names ++ [PStr attrname]). rewrite Hlook. simpl.
      split; [reflexivity |]. split; [apply firsts_app; assumption |]. split.
      * apply NoDup_app. split; [assumption |]. split; [| apply NoDup_singleton].
        intros y Hy Hin. apply list_elem_of_singleton in Hin. subst y.
        exact (py_index_missing _ _ _ (pyval_eqb_PStr_refl attrname) Hind Hy).
      * rewrite length_app. simpl. lia.
Qed.

(** X14: an attribute that [_add_attr] stored can be examined: for the
    name it was stored under, [_examine_attr] answers the display of the
    very entry stored, and changes nothing. *)
Theorem add_attr_then_examine (w w1 : world) (attr_string : string)
    (kwargs : gmap string kwval) (r : string * list menu_option)
    (attrname value : string) (category : pyval) (locks : string) :
  add_attr_locals attr_string = Ok (attrname, Some value, category, locks) ->
  attrname <> "" ->
  _add_attr ext attr_string kwargs w = (Ok r, w1) ->
  exists shown,
    _display_attribute ext (attr_entry attrname value category locks) = Ok shown /\
    _examine_attr ext attrname w1 = (Ok shown, w1).
Proof.
  intros Hlocals Hname Hrun. unfold _add_attr in Hrun.
  unfold M_bind at 1 in Hrun. unfold lift at 1 in Hrun. rewrite Hlocals in Hrun.
  unfold M_bind at 1 in Hrun.
  destruct (add_attr_store ext attrname _ kwargs w) as [[text|e] w'] eqn:Hstore;
    [| discriminate].
  assert (w1 = w') as -> by (unfold M_ret in Hrun; congruence).
  destruct (add_attr_store_first ext w w' attrname
              (attr_entry attrname value category locks) kwargs text)
    as (i & l1 & (Hattrs & names & Hfirsts & Hind) & Hentry);
    [assumption | reflexivity | exact Hstore |].
  destruct (display_attribute_entry ext attrname value category locks) as (shown & Hshown).
  exists shown. split; [exact Hshown |].
  destruct (template_nonempty_get w') as [_ Hget].
  { exact (dict_with_field_not_empty _ _ _ Hattrs). }
  unfold _examine_attr. unfold M_bind at 1. rewrite Hget, Hattrs.
  unfold M_bind at 1. unfold lift at 1.
  unfold M_bind at 1. unfold lift at 1. cbn [py_iter result_bind]. rewrite Hfirsts.
  unfold M_bind at 1. unfold lift at 1. rewrite Hind.
  unfold M_bind at 1. unfold lift at 1. rewrite Hentry.
  unfold lift. rewrite Hshown. reflexivity.
Qed.

End Attributes.

(** X13, witness: "str=15" added to the list that holds "str" and "dex". *)
Lemma add_attr_keeps_names_unique_witness :
  let attrs := [attr_entry "str" "12" PNone ""; attr_entry "dex" "9" PNone ""] in
  let w := set_olc_prototype (Some {[ "attrs" := PList attrs ]}) fresh_world in
  let run := _add_attr plain_services "str=15" ∅ w in
  exists l1 names1,
    default (PList []) (template (snd run) !! "attrs") = PList l1 /\
    firsts l1 = Ok names1 /\
    NoDup names1 /\
    (length attrs ≤ length l1 ≤ S (length attrs))%nat.
Proof.
  intros attrs w run.
  assert (Hrun : exists r, run = (Ok r, snd run)).
  { eexists. vm_compute. reflexivity. }
  destruct Hrun as (r & Hrun).
  apply (add_attr_keeps_names_unique plain_services w (snd run) "str=15" ∅ r attrs
           [PStr "str"; PStr "dex"]).
  - reflexivity.
  - reflexivity.
  - apply NoDup_cons. split.
    + intros Hin. apply list_elem_of_singleton in Hin. discriminate.
    + apply NoDup_singleton.
  - exact Hrun.
Defined.

(** X14, witness: "Str;physical=12" is added and "str" examined. *)
Lemma add_attr_then_examine_witness :
  let run := _add_attr plain_services "Str;physical=12" ∅ fresh_world in
  exists shown,
    _display_attribute plain_services (attr_entry "str" "12" (PStr "physical") "") = Ok shown /\
    _examine_attr plain_services "str" (snd run) = (Ok shown, snd run).
Proof.
  intros run.
  assert (Hrun : exists r, run = (Ok r, snd run)).
  { eexists. vm_compute. reflexivity. }
  destruct Hrun as (r & Hrun).
  apply (add_attr_then_examine plain_services fresh_world (snd run) "Str;physical=12" ∅ r
           "str" "12" (PStr "physical") "").
  - reflexivity.
  - discriminate.
  - exact Hrun.
Defined.

(** ** Updating, saving and spawning *)

Ltac run_S :=
  unfold S_bind, S_ret, S_raise, on_caller, save_prototype; simpl.

Section UpdateSaveSpawn.

Context (ext : services) (reg : registry).

(** X15: [_update_spawned] calls the bulk update of the spawner once,
    with the prototype, the objects and the diff dict its keyword
    arguments hold (no diff when there is none), tells the caller how
    many objects were changed and answers the node to go back to.  When
    one of "prototype", "objects" and "back_node" is missing it raises a
    KeyError and calls nothing. *)
Theorem update_spawned_calls_bulk_update_once (w : world) (kwargs : gmap string kwval) :
  (forall (prototype objects back_node : kwval) (p : gmap string pyval),
     kwargs !! "prototype" = Some prototype ->
     kwargs !! "objects" = Some objects ->
     kwargs !! "back_node" = Some back_node ->
     kw_dict prototype = Ok p ->
     let diff := deref w (default KNone (kwargs !! "diff")) in
     let run := _update_spawned ext kwargs w in
     fst run = Ok (kw_name back_node) /\
     bulk_updates (snd run) = bulk_updates w ++ [(p, diff, kw_objects objects)] /\
     outbox (snd run) = outbox w ++
       ["|g" +:+ pretty (batch_update_objects_with_prototype ext p diff (kw_objects objects))
        +:+ " objects were updated successfully.|n"]) /\
  (kwargs !! "prototype" = None \/ kwargs !! "objects" = None \/
   kwargs !! "back_node" = None ->
   exists k, _update_spawned ext kwargs w = (Raise (KeyError k), w)).
Proof.
  split.
  - intros prototype objects back_node p Hp Ho Hb Hdict diff run. subst run diff.
    unfold _update_spawned, kw_item. rewrite Hp, Ho, Hb. run_M. rewrite Hdict.
    simpl. repeat split; reflexivity.
  - intros Hmissing. unfold _update_spawned, kw_item.
    destruct (kwargs !! "prototype"); [| eexists; reflexivity].
    destruct (kwargs !! "objects"); [| eexists; reflexivity].
    destruct (kwargs !! "back_node"); [| eexists; reflexivity].
    destruct Hmissing as [H | [H | H]]; discriminate.
Qed.

(** The update node entered with the keyword arguments of the spawn
    node's update option. *)
Lemma update_node_with_opjects (w : world) (prototype : gmap string pyval)
    (spawned_objects : list obj) :
  node_update_objects ext
    {[ "prototype" := KDict prototype; "opjects" := KObjs spawned_objects;
       "back_node" := KStr "node_prototype_spawn" ]} w =
    (Ok (Some (Text "There are no existing objects to update.",
               [ {| opt_key := ["_default"]; opt_desc := None;
                    opt_goto := GotoNode "node_prototype_spawn" |} ])), w).
Proof.
  unfold node_update_objects.
  change (({[ "prototype" := KDict prototype; "opjects" := KObjs spawned_objects;
              "back_node" := KStr "node_prototype_spawn" ]} : gmap string kwval)
            !! "objects") with (@None kwval).
  change (({[ "prototype" := KDict prototype; "opjects" := KObjs spawned_objects;
              "back_node" := KStr "node_prototype_spawn" ]} : gmap string kwval)
            !! "back_node") with (Some (KStr "node_prototype_spawn")).
  reflexivity.
Qed.

(** X16: without objects among its keyword arguments, or with none in
    them, [node_update_objects] answers that there is nothing to update,
    with one option that leads to [back_node] (the index when there is
    none), and changes nothing: no diff is computed, no object chosen. *)
Theorem update_node_without_objects (w : world) (kwargs : gmap string kwval) :
  kw_objects (default KNone (kwargs !! "objects")) = [] ->
  node_update_objects ext kwargs w =
    (Ok (Some (Text "There are no existing objects to update.",
               [ {| opt_key := ["_default"]; opt_desc := None;
                    opt_goto :=
                      match kw_name (default (KStr "node_index") (kwargs !! "back_node")) with
                      | Some n => GotoNode n
                      | None => GotoNode ""
                      end |} ])), w).
Proof.
  intros Hnone. unfold node_update_objects. rewrite Hnone. reflexivity.
Qed.

Lemma spawn_wizard_options :
  _wizard_options (Some "prototype_spawn") (Some "prototype_save") (Some "index")
    default_color =
  [back_option default_color "prototype_save"; forward_option default_color "index";
   validate_option "prototype_spawn"].
Proof. reflexivity. Qed.

Lemma failed_wizard_options (curr : string) :
  curr <> "" ->
  _wizard_options (Some curr) (Some "prototype_locks") (Some "index") default_color =
  [back_option default_color "prototype_locks"; forward_option default_color "index";
   validate_option curr].
Proof.
  intros Hc. unfold _wizard_options. rewrite (node_given_Some curr Hc). reflexivity.
Qed.

(** X17: the update option of the spawn node never reaches the
    objects.  The node hands them over under the key "opjects", which
    [node_update_objects] does not read: entered from any option of
    [node_prototype_spawn], the update node answers that there are no
    objects to update, and leads back to the spawn node. *)
Theorem spawn_node_update_option_finds_no_objects (w w1 w' : world)
    (shown : content * list menu_option) (o : menu_option)
    (kwargs : gmap string kwval) :
  node_prototype_spawn ext reg w = (Ok shown, w1) ->
  o ∈ snd shown ->
  opt_goto o = GotoNodeKw "node_update_objects" kwargs ->
  node_update_objects ext kwargs w' =
    (Ok (Some (Text "There are no existing objects to update.",
               [ {| opt_key := ["_default"]; opt_desc := None;
                    opt_goto := GotoNode "node_prototype_spawn" |} ])), w').
Proof.
  intros Hrun Hin Hgoto. unfold node_prototype_spawn in Hrun.
  destruct (get_menu_prototype_spec w) as (w0 & Hget & _).
  unfold M_bind at 1 in Hrun. rewrite Hget in Hrun.
  destruct (_validate_prototype reg (template w)) as [error text].
  destruct error.
  - unfold M_ret in Hrun. injection Hrun as <- _.
    cbn [snd] in Hin. rewrite failed_wizard_options in Hin by discriminate.
    repeat (apply elem_of_cons in Hin as [-> | Hin]); try discriminate.
    apply elem_of_nil in Hin. contradiction.
  - destruct (template w !! "prototype_key") as [prototype_key|]; [| discriminate].
    unfold M_ret in Hrun. injection Hrun as <- _.
    cbn [snd] in Hin. rewrite spawn_wizard_options in Hin.
    repeat match type of Hin with
           | context [if ?b then _ else _] => destruct b; cbn [andb negb] in Hin
           end;
      cbn [app] in Hin;
      repeat (apply elem_of_cons in Hin as [-> | Hin]);
      try (apply elem_of_nil in Hin; contradiction);
      try discriminate;
      cbn [opt_goto] in Hgoto; injection Hgoto as <-;
      apply update_node_with_opjects.
Qed.

(** The ways out of the save node when it is not told to save: the
    validation failed, an exception, or the question whether to save. *)
Lemma save_node_unaccepted (s : session) (kwargs : gmap string kwval) :
  kwargs !! "accept_save" = None ->
  exists s0, saved s0 = saved s /\
    ((exists text,
        node_prototype_save ext reg kwargs s =
          (Ok (Text text,
               [back_option default_color "prototype_locks";
                forward_option default_color "index";
                validate_option "prototype_save"]), s0)) \/
     (exists e, node_prototype_save ext reg kwargs s = (Raise e, s0)) \/
     (exists text helptext,
        let again := GotoNodeKw "node_prototype_save"
                       {[ "accept" := KBool true;
                          "prototype" := KDict (template (caller s)) ]} in
        node_prototype_save ext reg kwargs s =
          (Ok (LinesHelp text helptext,
               yes_no_options "[|wY|Wes|n]" "|wN|Wo|n" again again), s0))).
Proof.
  intros Hno.
  remember (node_prototype_save ext reg kwargs s) as run eqn:Hrun.
  unfold node_prototype_save in Hrun.
  assert (Hbool : kw_bool kwargs "accept_save" false = false)
    by (unfold kw_bool; rewrite Hno; reflexivity).
  rewrite Hbool in Hrun. cbn [andb] in Hrun.
  destruct (get_menu_prototype_spec (caller s)) as (w0 & Hget & _).
  unfold S_bind at 1 in Hrun. unfold on_caller at 1 in Hrun. rewrite Hget in Hrun.
  cbv beta iota zeta in Hrun.
  destruct (_validate_prototype reg (template (caller s))) as [error text].
  destruct error.
  - rewrite failed_wizard_options in Hrun by discriminate.
    eexists. split; [| left; eexists; exact Hrun]. reflexivity.
  - destruct (template (caller s) !! "prototype_key") as [prototype_key|].
    + unfold S_bind at 1 in Hrun. unfold on_caller at 1 in Hrun.
      unfold lift at 1 in Hrun.
      destruct (if negb (length (search_prototype ext (Some (py_str ext prototype_key)))
                         =? 0)%nat
                then _ else _) as [question|e]; cbv beta iota zeta in Hrun.
      * eexists. split; [| right; right; eexists _, _; exact Hrun]. reflexivity.
      * eexists. split; [| right; left; eexists; exact Hrun]. reflexivity.
    + eexists. split; [| right; left; eexists; exact Hrun]. reflexivity.
Qed.

(** X18: the save node never saves from its own options.  Entered with
    keyword arguments that hold no "accept_save", [node_prototype_save]
    hands nothing to [protlib.save_prototype]; and the options it answers
    that lead back to the save node carry "accept", never "accept_save". *)
Theorem save_node_own_options_never_save (s s' : session) (kwargs : gmap string kwval) :
  kwargs !! "accept_save" = None ->
  saved (snd (node_prototype_save ext reg kwargs s)) = saved s /\
  (forall (shown : content * list menu_option) (o : menu_option)
          (again : gmap string kwval),
     node_prototype_save ext reg kwargs s = (Ok shown, s') ->
     o ∈ snd shown ->
     opt_goto o = GotoNodeKw "node_prototype_save" again ->
     again !! "accept_save" = None).
Proof.
  intros Hno.
  destruct (save_node_unaccepted s kwargs Hno)
    as (s0 & Hsaved & [(text & Hrun) | [(e & Hrun) | (text & helptext & Hrun)]]);
    cbv zeta in Hrun; rewrite Hrun; (split; [exact Hsaved |]);
    intros shown o again Heq Hin Hgoto; try discriminate;
    injection Heq as <- _; cbn [snd yes_no_options] in Hin;
    repeat (apply elem_of_cons in Hin as [-> | Hin]);
    try (apply elem_of_nil in Hin; contradiction);
    try discriminate;
    cbn [opt_goto] in Hgoto; injection Hgoto as <-; reflexivity.
Qed.

(** X19: a prototype that is valid and has a key no saved prototype has
    cannot get past the save node: the question whether to save it is
    formatted with a positional argument for its field [{name}], and the
    node raises a KeyError. *)
Theorem save_node_raises_for_new_key (s : session) (kwargs : gmap string kwval)
    (prototype_key : pyval) :
  kwargs !! "accept_save" = None ->
  spawn_validate reg (template (caller s)) = Valid ->
  template (caller s) !! "prototype_key" = Some prototype_key ->
  search_prototype ext (Some (py_str ext prototype_key)) = [] ->
  fst (node_prototype_save ext reg kwargs s) = Raise (KeyError "name") /\
  saved (snd (node_prototype_save ext reg kwargs s)) = saved s.
Proof.
  intros Hno Hvalid Hkey Hsearch.
  destruct (get_menu_prototype_spec (caller s)) as (w0 & Hget & _).
  assert (Hrun : node_prototype_save ext reg kwargs s =
            (Raise (KeyError "name"),
             {| caller := w0; saved := saved s; spawned := spawned s |})).
  { unfold node_prototype_save.
    assert (Hbool : kw_bool kwargs "accept_save" false = false)
      by (unfold kw_bool; rewrite Hno; reflexivity).
    rewrite Hbool. cbn [andb].
    unfold S_bind at 1. unfold on_caller at 1. rewrite Hget. cbv beta iota zeta.
    unfold _validate_prototype. rewrite Hvalid, Hkey.
    unfold S_bind at 1. unfold on_caller at 1. unfold lift at 1.
    rewrite Hsearch. reflexivity. }
  rewrite Hrun. split; reflexivity.
Qed.

(** X20: a prototype the spawner does not validate, be it with an error
    or with a warning, is neither saved nor offered for spawning: both
    nodes answer the validation text with the navigation options only. *)
Theorem invalid_prototype_is_not_saved_or_spawned (s : session)
    (kwargs : gmap string kwval) :
  kwargs !! "accept_save" = None ->
  spawn_validate reg (template (caller s)) <> Valid ->
  (exists text s',
     node_prototype_save ext reg kwargs s =
       (Ok (Text text,
            [back_option default_color "prototype_locks";
             forward_option default_color "index";
             validate_option "prototype_save"]), s') /\
     saved s' = saved s) /\
  (exists text w',
     node_prototype_spawn ext reg (caller s) =
       (Ok (Text text,
            [back_option default_color "prototype_locks";
             forward_option default_color "index";
             validate_option "prototype_spawn"]), w')).
Proof.
  intros Hno Hinvalid.
  assert (Herr : fst (_validate_prototype reg (template (caller s))) = true).
  { unfold _validate_prototype.
    destruct (spawn_validate reg (template (caller s))); [contradiction | |]; reflexivity. }
  destruct (get_menu_prototype_spec (caller s)) as (w0 & Hget & _).
  split.
  - unfold node_prototype_save.
    assert (Hbool : kw_bool kwargs "accept_save" false = false)
      by (unfold kw_bool; rewrite Hno; reflexivity).
    rewrite Hbool. cbn [andb].
    unfold S_bind at 1. unfold on_caller at 1. rewrite Hget. cbv beta iota zeta.
    destruct (_validate_prototype reg (template (caller s))) as [error text].
    simpl in Herr. subst error.
    rewrite failed_wizard_options by discriminate.
    eexists _, _. split; reflexivity.
  - unfold node_prototype_spawn. unfold M_bind at 1. rewrite Hget.
    destruct (_validate_prototype reg (template (caller s))) as [error text].
    simpl in Herr. subst error.
    rewrite failed_wizard_options by discriminate.
    eexists _, _. reflexivity.
Qed.

End UpdateSaveSpawn.

(** X15, witness: the update option taken with the diff of the two
    updates in the heap; and a call with no keyword argument. *)
Lemma update_spawned_calls_bulk_update_once_witness :
  let w := set_heap [two_updates] fresh_world in
  let kwargs : gmap string kwval :=
    {[ "prototype" := KDict new_prototype; "objects" := KObjs [goblin];
       "back_node" := KStr "node_prototype_save"; "diff" := KRef 0 ]} in
  let diff := deref w (default KNone (kwargs !! "diff")) in
  let run := _update_spawned plain_services kwargs w in
  (fst run = Ok (kw_name (KStr "node_prototype_save")) /\
   bulk_updates (snd run) = bulk_updates w ++ [(new_prototype, diff, kw_objects (KObjs [goblin]))] /\
   outbox (snd run) = outbox w ++
     ["|g" +:+ pretty (batch_update_objects_with_prototype plain_services new_prototype diff
                         (kw_objects (KObjs [goblin])))
      +:+ " objects were updated successfully.|n"]) /\
  exists k, _update_spawned plain_services ∅ w = (Raise (KeyError k), w).
Proof.
  intros w kwargs.
  destruct (update_spawned_calls_bulk_update_once plain_services w kwargs) as [Hcall _].
  destruct (update_spawned_calls_bulk_update_once plain_services w ∅) as [_ Hmissing].
  split.
  - apply (Hcall (KDict new_prototype) (KObjs [goblin]) (KStr "node_prototype_save")
             new_prototype); reflexivity.
  - apply Hmissing. left. reflexivity.
Defined.

(** X16, witness: the update node entered with no keyword argument. *)
Lemma update_node_without_objects_witness :
  node_update_objects plain_services ∅ fresh_world =
    (Ok (Some (Text "There are no existing objects to update.",
               [ {| opt_key := ["_default"]; opt_desc := None;
                    opt_goto :=
                      match kw_name (default (KStr "node_index")
                                       ((∅ : gmap string kwval) !! "back_node")) with
                      | Some n => GotoNode n
                      | None => GotoNode ""
                      end |} ])), fresh_world).
Proof.
  apply (update_node_without_objects plain_services fresh_world ∅). reflexivity.
Defined.

(** X17, witness: the spawn node of a menu that holds the changed goblin
    prototype, one goblin having been spawned. *)
Lemma spawn_node_update_option_finds_no_objects_witness :
  let w := set_olc_prototype (Some new_prototype) fresh_world in
  exists (o : menu_option) (kwargs : gmap string kwval),
    o ∈ snd (default (Text "", []) (match fst (node_prototype_spawn plain_services
                                                goblin_registry w) with
                                    | Ok shown => Some shown
                                    | Raise _ => None
                                    end)) /\
    opt_goto o = GotoNodeKw "node_update_objects" kwargs /\
    kwargs !! "opjects" = Some (KObjs [goblin]) /\
    node_update_objects plain_services kwargs fresh_world =
      (Ok (Some (Text "There are no existing objects to update.",
                 [ {| opt_key := ["_default"]; opt_desc := None;
                      opt_goto := GotoNode "node_prototype_spawn" |} ])), fresh_world).
Proof.
  intros w.
  assert (Hrun : exists c o rest w1,
             node_prototype_spawn plain_services goblin_registry w = (Ok (c, o :: rest), w1) /\
             opt_goto o = GotoNodeKw "node_update_objects"
                            {[ "prototype" := KDict new_prototype;
                               "opjects" := KObjs [goblin];
                               "back_node" := KStr "node_prototype_spawn" ]}).
  { eexists _, _, _, _. split; vm_compute; reflexivity. }
  destruct Hrun as (c & o & rest & w1 & Hrun & Hgoto).
  exists o, {[ "prototype" := KDict new_prototype; "opjects" := KObjs [goblin];
               "back_node" := KStr "node_prototype_spawn" ]}.
  assert (Hin : o ∈ snd (c, o :: rest)) by apply list_elem_of_here.
  split; [rewrite Hrun; exact Hin |].
  split; [exact Hgoto |]. split; [reflexivity |].
  exact (spawn_node_update_option_finds_no_objects plain_services goblin_registry
           w w1 fresh_world (c, o :: rest) o _ Hrun Hin Hgoto).
Defined.

(** X18, witness: the save node of a menu that holds the saved goblin
    prototype, entered as its Yes option enters it. *)
Lemma save_node_own_options_never_save_witness :
  let s := new_session (set_olc_prototype (Some new_prototype) fresh_world) in
  let kwargs : gmap string kwval :=
    {[ "accept" := KBool true; "prototype" := KDict new_prototype ]} in
  saved (snd (node_prototype_save locked_services plain_registry kwargs s)) = [].
Proof.
  intros s kwargs.
  destruct (save_node_own_options_never_save locked_services plain_registry s s kwargs)
    as [Hsaved _]; [reflexivity |].
  exact Hsaved.
Defined.

(** X19, witness: the changed goblin prototype, with no prototype saved. *)
Lemma save_node_raises_for_new_key_witness :
  let s := new_session (set_olc_prototype (Some new_prototype) fresh_world) in
  fst (node_prototype_save plain_services plain_registry ∅ s) = Raise (KeyError "name") /\
  saved (snd (node_prototype_save plain_services plain_registry ∅ s)) = saved s.
Proof.
  intros s.
  apply (save_node_raises_for_new_key plain_services plain_registry s ∅ (PStr "goblin"));
    reflexivity.
Defined.

(** X20, witness: a spawner that warns about the typeclass. *)
Lemma invalid_prototype_is_not_saved_or_spawned_witness :
  let s := new_session (set_olc_prototype (Some new_prototype) fresh_world) in
  (exists text s',
     node_prototype_save plain_services warning_registry ∅ s =
       (Ok (Text text,
            [back_option default_color "prototype_locks";
             forward_option default_color "index";
             validate_option "prototype_save"]), s') /\
     saved s' = saved s) /\
  (exists text w',
     node_prototype_spawn plain_services warning_registry (caller s) =
       (Ok (Text text,
            [back_option default_color "prototype_locks";
             forward_option default_color "index";
             validate_option "prototype_spawn"]), w')).
Proof.
  intros s.
  apply (invalid_prototype_is_not_saved_or_spawned plain_services warning_registry s ∅).
  - reflexivity.
  - discriminate.
Defined.

(** ** The index, the validation node and the nodes that cannot be shown *)

Lemma collect_fmap {A B C} (f : A -> result B) (g : B -> C) (h : A -> C)
    (l : list A) (ys : list B) :
  (forall x y, f x = Ok y -> g y = h x) ->
  collect f l = Ok ys -> g <$> ys = h <$> l.
Proof.
  intros Hgh. revert ys. induction l as [|x l IH]; intros ys H; simpl in H.
  - injection H as <-. reflexivity.
  - destruct (f x) as [y|] eqn:Hy; [| discriminate]. simpl in H.
    destruct (collect f l) as [ys'|]; [| discriminate]. simpl in H.
    injection H as <-. rewrite !fmap_cons, (Hgh x y Hy). f_equal. apply IH. reflexivity.
Qed.

Section Index.

Context (ext : services) (reg : registry).

Lemma index_field_option_target (prototype : gmap string pyval) (key : string)
    (o : menu_option) :
  index_field_option ext reg prototype key = Ok o ->
  goto_node (opt_goto o) = Some ("node_" +:+ PyStr.lower key).
Proof.
  unfold index_field_option.
  destruct (_format_option_value ext reg key _ prototype _); [| discriminate].
  simpl. intros H. injection H as <-. reflexivity.
Qed.

Lemma index_meta_option_target (prototype : gmap string pyval) (key : string)
    (o : menu_option) :
  index_meta_option ext reg prototype key = Ok o ->
  goto_node (opt_goto o) = Some ("node_prototype_" +:+ PyStr.lower key).
Proof.
  unfold index_meta_option.
  destruct (_format_option_value ext reg key false prototype None); [| discriminate].
  simpl. intros H. injection H as <-. reflexivity.
Qed.

(** X21: the nineteen options of the index all name a node, and one of
    them a node that [start_olc] does not register: the option for the
    prototype parent leads to "node_prototype-parent", with a hyphen.
    Every other target is registered. *)
Theorem index_leads_to_one_unregistered_node (w w1 : world)
    (shown : content * list menu_option) :
  node_index ext reg w = (Ok shown, w1) ->
  exists names : list string,
    option_targets (snd shown) = Some <$> names /\
    length names = 19 /\
    filter (fun n => n ∉ registered_nodes) names = ["node_prototype-parent"].
Proof.
  intros Hrun. unfold node_index in Hrun.
  destruct (get_menu_prototype_spec w) as (w0 & Hget & _).
  unfold M_bind at 1 in Hrun. rewrite Hget in Hrun.
  unfold M_bind at 1 in Hrun. unfold lift at 1 in Hrun.
  destruct (_format_option_value ext reg "Key" _ (template w) None) as [value|];
    [| discriminate].
  cbn [result_bind] in Hrun.
  unfold M_bind at 1 in Hrun. unfold lift at 1 in Hrun.
  destruct (collect (index_field_option ext reg (template w)) _) as [fields|] eqn:Hfields;
    [| discriminate].
  unfold M_bind at 1 in Hrun. unfold lift at 1 in Hrun.
  destruct (collect (index_meta_option ext reg (template w)) _) as [meta|] eqn:Hmeta;
    [| discriminate].
  unfold M_ret in Hrun. injection Hrun as <- _.
  pose proof (collect_fmap _ (fun o => goto_node (opt_goto o))
                (fun key => Some ("node_" +:+ PyStr.lower key)) _ _
                (index_field_option_target (template w)) Hfields) as Hf.
  pose proof (collect_fmap _ (fun o => goto_node (opt_goto o))
                (fun key => Some ("node_prototype_" +:+ PyStr.lower key)) _ _
                (index_meta_option_target (template w)) Hmeta) as Hm.
  exists (["node_prototype_key"] ++
          ((fun key => "node_" +:+ PyStr.lower key) <$>
             ["Prototype-parent"; "Typeclass"; "Key"; "Aliases"; "Attrs"; "Tags"; "Locks";
              "Permissions"; "Location"; "Home"; "Destination"]) ++
          ((fun key => "node_prototype_" +:+ PyStr.lower key) <$> ["Desc"; "Tags"; "Locks"]) ++
          ["node_validate_prototype"; "node_prototype_save"; "node_prototype_spawn";
           "node_prototype_load"]).
  split; [| split].
  - unfold option_targets. cbn [snd]. rewrite fmap_cons, !fmap_app, Hf, Hm.
    rewrite <- !list_fmap_compose. reflexivity.
  - reflexivity.
  - vm_compute. reflexivity.
Qed.

(** A name the prototype does not hold gets the mark of a missing
    value: nothing, or "required". *)
Lemma format_option_value_missing (prop : string) (required : bool)
    (prototype : gmap string pyval) (cropper : option (string -> string)) :
  prototype !! prop = None ->
  _format_option_value ext reg prop required prototype cropper =
    Ok (missing_mark ext required cropper).
Proof.
  intros Hnone. unfold _format_option_value, missing_mark. rewrite Hnone.
  cbn [default from_option id].
  destruct (is_iter reg (PStr "")); destruct required, cropper; reflexivity.
Qed.

(** X22: the index never shows the values the wizard stores.  It looks
    them up under the capitalised names of its options ("Key",
    "Typeclass", ...), and the wizard writes the fields in lower case: for
    two Templates that hold none of the capitalised names and agree on
    which of prototype_key, prototype_parent and typeclass they hold, the
    index is the same, whatever the values of their fields. *)
Theorem index_shows_no_stored_value (w w' : world) :
  no_index_key (template w) = true ->
  no_index_key (template w') = true ->
  required_flags (template w) = required_flags (template w') ->
  fst (node_index ext reg w) = fst (node_index ext reg w').
Proof.
  intros Hno Hno' Hflags.
  assert (Hnone : forall (v : world) (key : string),
            no_index_key (template v) = true -> In key index_keys ->
            template v !! key = None).
  { intros v key H Hin. unfold no_index_key in H. rewrite forallb_forall in H.
    specialize (H key Hin). cbv beta in H. apply bool_decide_eq_true_1 in H. exact H. }
  unfold required_flags in Hflags. injection Hflags as Hk Hp Ht.
  destruct (get_menu_prototype_spec w) as (w0 & Hget & _).
  destruct (get_menu_prototype_spec w') as (w0' & Hget' & _).
  set (page := fst (node_index ext reg w)).
  unfold node_index. unfold M_bind at 1. rewrite Hget'.
  subst page. unfold node_index. unfold M_bind at 1. rewrite Hget.
  cbn [collect]. unfold index_field_option, index_meta_option.
  rewrite !(format_option_value_missing _ _ (template w))
    by (apply (Hnone w); [exact Hno | repeat first [left; reflexivity | right]]).
  rewrite !(format_option_value_missing _ _ (template w'))
    by (apply (Hnone w'); [exact Hno' | repeat first [left; reflexivity | right]]).
  rewrite Hk, Hp, Ht. reflexivity.
Qed.

(** X23: Validate, then Back, returns to the node.  The Validate option
    that [_wizard_options] makes for a node carries the node as "back",
    and the validation node entered with it offers a Back option that
    leads to that node, the Template being unchanged.  Entered without
    "back", as from the index, its Back option leads to the index. *)
Theorem validate_then_back (w : world) (curr : string)
    (prev_node next_node : option string) (color : string) :
  curr <> "" ->
  exists kwargs : gmap string kwval,
    last (_wizard_options (Some curr) prev_node next_node color)
      = Some {| opt_key := ["|wV|Walidate prototype"; "validate"; "v"];
                opt_desc := None;
                opt_goto := GotoNodeKw "node_validate_prototype" kwargs |} /\
    (exists shown w1,
       node_validate_prototype reg kwargs w = (Ok shown, w1) /\
       (o ← select (snd shown) "b"; goto_node (opt_goto o)) = Some ("node_" +:+ curr) /\
       template w1 = template w) /\
    (exists shown w1,
       node_validate_prototype reg ∅ w = (Ok shown, w1) /\
       option_targets (snd shown) = [Some "node_index"]).
Proof.
  intros Hcurr. exists {[ "back" := KStr curr ]}.
  destruct (get_menu_prototype_spec w) as (w0 & Hget & Hp0 & _).
  assert (Ht : template w0 = template w).
  { unfold template at 1. rewrite Hp0. reflexivity. }
  split; [| split].
  - unfold _wizard_options. rewrite (node_given_Some curr Hcurr). apply last_snoc.
  - unfold node_validate_prototype. unfold M_bind at 1. rewrite Hget.
    destruct (_validate_prototype reg (template w)) as [err text].
    eexists _, w0. split; [reflexivity |]. split; [| exact Ht].
    cbn [snd]. unfold kw_node. rewrite lookup_singleton_eq.
    unfold _wizard_options. rewrite (node_given_Some curr Hcurr).
    cbn [node_given app]. destruct (negb _); reflexivity.
  - unfold node_validate_prototype. unfold M_bind at 1. rewrite Hget.
    destruct (_validate_prototype reg (template w)) as [err text].
    eexists _, w0. split; reflexivity.
Qed.

(** X24: the tags node cannot be shown.  Its help text names the field
    [{tag_category}] and is formatted with a positional argument: for
    every caller the node raises a KeyError. *)
Theorem node_tags_raises (w : world) :
  fst (node_tags ext reg w) = Raise (KeyError "tag_category").
Proof.
  unfold node_tags.
  destruct (get_current_value_spec ext "tags" w) as (current & w' & Hcur & _).
  unfold M_bind at 1. rewrite Hcur. reflexivity.
Qed.

(** X25: the prototype-parent node looks for the parent under
    "prototype", not under "prototype_parent".  For a Template without a
    "prototype" field it says that the parent is not set, whatever
    "prototype_parent" holds.  For one with a "prototype" field that is
    not empty it cannot be shown: both texts are formatted with the wrong
    arguments, so the node raises, with KeyError('prototype') when no such
    prototype is found. *)
Theorem prototype_parent_node_reads_prototype (w : world) :
  (template w !! "prototype" = None ->
   exists options w1,
     node_prototype_parent ext reg w =
       (Ok (TextHelp
              ("The |cPrototype Parent|n allows you to |winherit|n prototype values"
               +:+ newline +:+ newline +:+ "Parent prototype is not set")
              "Prototypes can inherit from one another.", options), w1) /\
     template w1 = template w) /\
  (forall parent : pyval,
     template w !! "prototype" = Some parent ->
     truthy parent = true ->
     (exists e, fst (node_prototype_parent ext reg w) = Raise e) /\
     (search_prototype ext (Some (py_str ext parent)) = [] ->
      fst (node_prototype_parent ext reg w) = Raise (KeyError "prototype"))).
Proof.
  destruct (get_menu_prototype_spec w) as (w0 & Hget & Hp0 & _).
  assert (Ht : template w0 = template w).
  { unfold template at 1. rewrite Hp0. reflexivity. }
  split.
  - intros Hnone. unfold node_prototype_parent. unfold M_bind at 1.
    rewrite Hget, Hnone. eexists _, w0. split; [reflexivity | exact Ht].
  - intros parent Hsome Htrue.
    assert (Hrun : fst (node_prototype_parent ext reg w) =
              match search_prototype ext (Some (py_str ext parent)) with
              | [] => Raise (KeyError "prototype")
              | found :: rest =>
                  match prototype_list_to_str reg (found :: rest) with
                  | Ok _ => Raise (IndexError "tuple index out of range")
                  | Raise e => Raise e
                  end
              end).
    { unfold node_prototype_parent. unfold M_bind at 1.
      rewrite Hget, Hsome. cbn [default from_option id]. rewrite Htrue.
      destruct (search_prototype ext (Some (py_str ext parent))) as [|found rest];
        [reflexivity |].
      destruct (prototype_list_to_str reg (found :: rest)); reflexivity. }
    rewrite Hrun.
    destruct (search_prototype ext (Some (py_str ext parent))) as [|found rest].
    + split; [eexists |]; reflexivity.
    + split; [| discriminate].
      destruct (prototype_list_to_str reg (found :: rest)) as [txt|e];
        eexists; reflexivity.
Qed.

End Index.

(** X21, witness: the index of a wizard just started. *)
Lemma index_leads_to_one_unregistered_node_witness :
  exists shown w1,
    node_index plain_services plain_registry fresh_world = (Ok shown, w1) /\
    exists names : list string,
      option_targets (snd shown) = Some <$> names /\
      length names = 19 /\
      filter (fun n => n ∉ registered_nodes) names = ["node_prototype-parent"].
Proof.
  eexists _, _. split; [vm_compute; reflexivity |].
  eapply (index_leads_to_one_unregistered_node plain_services plain_registry fresh_world).
  vm_compute; reflexivity.
Defined.

(** X22, witness: a goblin and an orc with aliases give the same index. *)
Lemma index_shows_no_stored_value_witness :
  let w := set_olc_prototype (Some {[ "key" := PStr "goblin" ]}) fresh_world in
  let w' := set_olc_prototype
              (Some {[ "key" := PStr "orc"; "aliases" := PList [PStr "grunt"] ]})
              fresh_world in
  fst (node_index plain_services plain_registry w) =
  fst (node_index plain_services plain_registry w').
Proof.
  intros w w'.
  apply (index_shows_no_stored_value plain_services plain_registry w w');
    vm_compute; reflexivity.
Defined.

(** X23, witness: validation asked for at the key node. *)
Lemma validate_then_back_witness :
  exists kwargs : gmap string kwval,
    last (_wizard_options (Some "key") (Some "typeclass") (Some "aliases") default_color)
      = Some {| opt_key := ["|wV|Walidate prototype"; "validate"; "v"];
                opt_desc := None;
                opt_goto := GotoNodeKw "node_validate_prototype" kwargs |} /\
    (exists shown w1,
       node_validate_prototype plain_registry kwargs fresh_world = (Ok shown, w1) /\
       (o ← select (snd shown) "b"; goto_node (opt_goto o)) = Some ("node_" +:+ "key") /\
       template w1 = template fresh_world) /\
    (exists shown w1,
       node_validate_prototype plain_registry ∅ fresh_world = (Ok shown, w1) /\
       option_targets (snd shown) = [Some "node_index"]).
Proof.
  apply (validate_then_back plain_registry fresh_world "key" (Some "typeclass")
           (Some "aliases") default_color).
  discriminate.
Defined.

(** X25, witness: a Template with a parent under "prototype_parent", and
    one with a parent under "prototype" that is not saved. *)
Lemma prototype_parent_node_reads_prototype_witness :
  let w := set_olc_prototype (Some {[ "prototype_parent" := PStr "goblin" ]}) fresh_world in
  let w' := set_olc_prototype (Some {[ "prototype" := PStr "goblin" ]}) fresh_world in
  (exists options w1,
     node_prototype_parent plain_services plain_registry w =
       (Ok (TextHelp
              ("The |cPrototype Parent|n allows you to |winherit|n prototype values"
               +:+ newline +:+ newline +:+ "Parent prototype is not set")
              "Prototypes can inherit from one another.", options), w1) /\
     template w1 = template w) /\
  fst (node_prototype_parent plain_services plain_registry w') = Raise (KeyError "prototype").
Proof.
  intros w w'. split.
  - apply (proj1 (prototype_parent_node_reads_prototype plain_services plain_registry w)).
    reflexivity.
  - destruct (proj2 (prototype_parent_node_reads_prototype plain_services plain_registry w')
                (PStr "goblin") eq_refl eq_refl) as [_ Hmissing].
    apply Hmissing. reflexivity.
Defined.

(** ** The path cropper and the first paragraph of a docstring *)

Lemma string_app_cons (a : ascii) (s t : string) : String a s +:+ t = String a (s +:+ t).
Proof. reflexivity. Qed.

Lemma split_without_sep (sep : ascii) (s : string) :
  PyStr.contains sep s = false -> PyStr.split sep None s = [s].
Proof.
  induction s as [|a s IH]; simpl; [reflexivity |].
  intros H. apply orb_false_elim in H as [Ha Hs].
  rewrite Ha, (IH Hs). reflexivity.
Qed.

(** What follows a separator is split on its own. *)
Lemma split_after_sep (sep : ascii) (pre s : string) :
  exists front : list string,
    front <> [] /\
    PyStr.split sep None (pre +:+ String sep s) = front ++ PyStr.split sep None s.
Proof.
  induction pre as [|a pre IH].
  - exists [""]. split; [discriminate |].
    change ("" +:+ String sep s) with (String sep s). simpl.
    rewrite Ascii.eqb_refl. reflexivity.
  - destruct IH as (front & Hfront & IH).
    rewrite string_app_cons. simpl. rewrite IH.
    destruct (Ascii.eqb a sep).
    + exists ("" :: front). split; [discriminate | reflexivity].
    + destruct front as [|hd tl]; [contradiction |].
      exists (String a hd :: tl). split; [discriminate | reflexivity].
Qed.

Lemma last_app_nonempty {A} (front l : list A) (d : A) :
  l <> [] -> List.last (front ++ l) d = List.last l d.
Proof.
  intros Hl. induction front as [|x front IH]; [reflexivity |].
  simpl. destruct (front ++ l) as [|y rest] eqn:E.
  - destruct front; [simpl in E; contradiction | discriminate].
  - exact IH.
Qed.

(** X26: [_path_cropper] gives the last component of a dotted path: a
    name without a dot is returned whole, and so it is after any prefix
    that ends in a dot. *)
Theorem path_cropper_gives_last_component (pre name : string) :
  PyStr.contains "." name = false ->
  _path_cropper name = name /\
  _path_cropper (pre +:+ "." +:+ name) = name.
Proof.
  intros Hname. unfold _path_cropper. split.
  - rewrite (split_without_sep _ _ Hname). reflexivity.
  - change ("." +:+ name) with (String "." name).
    destruct (split_after_sep "." pre name) as (front & _ & ->).
    rewrite last_app_nonempty by apply split_not_nil.
    rewrite (split_without_sep _ _ Hname). reflexivity.
Qed.






(** X26, witness: the path of a typeclass. *)
Lemma path_cropper_gives_last_component_witness :
  _path_cropper "DefaultObject" = "DefaultObject" /\
  _path_cropper ("evennia.objects.objects" +:+ "." +:+ "DefaultObject") = "DefaultObject".
Proof.
  apply (path_cropper_gives_last_component "evennia.objects.objects" "DefaultObject").
  reflexivity.
Defined.
